(** * ceGUI: window lifecycle and row editing, embedded in Rocq

    A shallow embedding of [ceGUI/ContainerControls.py] and
    [ceGUI/DataEditors.py].  Python methods become computations in a
    state-and-exception monad over an explicit world; every call the
    properties talk about (toolkit calls, overridable hooks, data set
    operations) is recorded in a chronological trace. *)

From Stdlib Require Import ZArith String List Bool Lia Sorted.
From stdpp Require Import gmap strings list fin_maps functions.
Import ListNotations.

Open Scope string_scope.
Open Scope list_scope.

(* ===================================================================== *)
(** * Part I: definitions                                                 *)
(* ===================================================================== *)

(** ** Python values, exceptions and the effect monad *)

Module Py.

(** The values a field widget or a row attribute holds. *)
Inductive value :=
| VNone
| VStr (s : string)
| VInt (z : Z).

#[global] Instance value_eq_dec : EqDecision value.
Proof. solve_decision. Defined.

(** [v is None] *)
Definition is_None (v : value) : bool :=
  match v with VNone => true | _ => false end.

(** The exceptions the two modules raise or let through. *)
Inductive exn :=
| RequiredFieldHasNoValue          (* ceGUI.RequiredFieldHasNoValue *)
| NoDataFound                      (* cx_Exceptions.NoDataFound *)
| AttributeError (name : string)   (* getattr on a missing attribute *)
| KeyError (key : nat)             (* rows[handle] on a missing handle *)
| IndexError                       (* l[i] past the end of a list *)
| TypeError.                       (* a call that does not fit the signature *)

#[global] Instance exn_eq_dec : EqDecision exn.
Proof. solve_decision. Defined.

Inductive result (A : Type) :=
| Ok (a : A)
| Raise (e : exn).
Arguments Ok {A} a.
Arguments Raise {A} e.

(** A computation over a world [S]: mutations made before an exception
    is raised stay in the world, as in Python. *)
Definition M (S A : Type) : Type := S -> result A * S.

Definition ret {S A} (a : A) : M S A := fun s => (Ok a, s).

Definition bind {S A B} (m : M S A) (k : A -> M S B) : M S B :=
  fun s =>
    match m s with
    | (Ok a, s') => k a s'
    | (Raise e, s') => (Raise e, s')
    end.

Definition raise {S A} (e : exn) : M S A := fun s => (Raise e, s).

Definition get {S} : M S S := fun s => (Ok s, s).

Definition gets {S A} (f : S -> A) : M S A := fun s => (Ok (f s), s).

Definition modify {S} (f : S -> S) : M S unit := fun s => (Ok tt, f s).

Definition lift_result {S A} (r : result A) : M S A := fun s => (r, s).

(** [if b: m] *)
Definition when {S} (b : bool) (m : M S unit) : M S unit :=
  if b then m else ret tt.

Declare Scope py_scope.
Delimit Scope py_scope with py.

Notation "x <- c1 ;; c2" := (bind c1 (fun x => c2))
  (at level 100, c1 at next level, right associativity) : py_scope.
Notation "c1 ;; c2" := (bind c1 (fun _ => c2))
  (at level 100, right associativity) : py_scope.

(** [for x in l: body(x)] *)
Fixpoint for_each {S A} (l : list A) (body : A -> M S unit) : M S unit :=
  match l with
  | [] => ret tt
  | x :: l' => (body x ;; for_each l' body)%py
  end.

(** [for x in l: acc = body(acc, x)], for a loop that carries a local. *)
Fixpoint for_fold {S A B} (l : list A) (acc : B) (body : B -> A -> M S B)
  : M S B :=
  match l with
  | [] => ret acc
  | x :: l' => (acc' <- body acc x ;; for_fold l' acc' body)%py
  end.

(** [l[i]] *)
Definition index {S A} (l : list A) (i : nat) : M S A :=
  match l !! i with
  | Some x => ret x
  | None => raise IndexError
  end.

(** Run a computation on a component of a larger world. *)
Definition zoom {S T A} (proj : T -> S) (inj : S -> T -> T) (m : M S A)
  : M T A :=
  fun t => let '(r, s') := m (proj t) in (r, inj s' t).

End Py.

Export Py.
Open Scope py_scope.

(** ** The trace *)

Module Trace.

(** Overridable methods of the window classes. *)
Inductive hook :=
| OnCreate | OnLayout | RestoreSettings | SaveSettings | OnClose
| OnOk | OnCancel | OnCreateToolbar | OnCreateMenus
| OnPreUpdate | OnPostUpdate | OnNewRow.

#[global] Instance hook_eq_dec : EqDecision hook.
Proof. solve_decision. Defined.

(** Toolkit calls that carry no data of interest. *)
Inductive wxcall :=
| WxDialogInit | WxFrameInit | WxPanelInit
| BindClose                   (* self.Bind(wx.EVT_CLOSE, self._OnClose) *)
| NewOkButton | NewCancelButton
| NewToolBar | SetToolBar | ToolBarRealize | NewMenuBar | SetMenuBar
| SetSizer | Fit
| SettingsFlush | EventSkip.

#[global] Instance wxcall_eq_dec : EqDecision wxcall.
Proof. solve_decision. Defined.

Inductive event :=
| Wx (c : wxcall)
| Hook (h : hook)
| SetMinSize (sz : Z * Z)
| SetSize (sz : Z * Z)
| SetPosition (pos : Z * Z)
| ReadSetting (key : string)
| WriteSetting (key : string) (v : Z * Z)
| FieldSetValue (fld : nat) (v : value)
| FieldSetFocus (fld : nat)
| DataSetSetValue (ds handle : nat) (attr : string) (v : value)
| DataSetUpdate (ds : nat)
| DataSetRetrieve (ds : nat) (args : list value)
| DataSetInsertRow (ds handle : nat)
| CacheUpdateRow (method : string) (ds handle : nat)
| CacheUpdateDataSet (method : string) (ds : nat)
| OpenWindow (name : string)
| ShowModal
| Destroy
| ListAppendItem (handle : nat)
| ListSetAttr (handle : nat) (attr : string) (v : value)
| ListSetValue (handle : nat) (attr : string) (v : value)
| ListClearChanges
| ListRefresh.

#[global] Instance event_eq_dec : EqDecision event.
Proof. solve_decision. Defined.


End Trace.

Export Trace.

(** ** ceGUI/ContainerControls.py *)

Module ContainerControls.

(** The three concrete containers of the module; each pairs
    [BaseContainer] with one toolkit class. *)
Inductive containerClass := ClsDialog | ClsFrame | ClsPanel.

#[global] Instance containerClass_eq_dec : EqDecision containerClass.
Proof. solve_decision. Defined.

(** A window: its class attributes (which a subclass may override), the
    value its [OnLayout] hook returns, and its instance state together
    with the settings store it reads and writes. *)
Record window := {
  cls : containerClass;
  saveSize : bool;
  savePosition : bool;
  bindClose : bool;
  minSize : option (Z * Z);
  createOkButton : bool;
  createCancelButton : bool;
  hasToolbar : bool;
  hasMenus : bool;
  (** namespace of the window's settings *)
  settingsName : string;
  (** result of the [OnLayout] hook: [None], or a sizer, given by the
      size the window takes when the sizer is fitted to it *)
  topSizer : option (Z * Z);
  sizeTuple : Z * Z;
  positionTuple : Z * Z;
  (** is [_OnClose] bound to the close event *)
  closeHandler : bool;
  settings : gmap (string * string) (Z * Z);
  trace : list event
}.

Definition set_sizeTuple (v : Z * Z) (w : window) : window :=
  {| cls := cls w; saveSize := saveSize w; savePosition := savePosition w;
     bindClose := bindClose w; minSize := minSize w;
     createOkButton := createOkButton w;
     createCancelButton := createCancelButton w;
     hasToolbar := hasToolbar w; hasMenus := hasMenus w;
     settingsName := settingsName w; topSizer := topSizer w;
     sizeTuple := v; positionTuple := positionTuple w;
     closeHandler := closeHandler w; settings := settings w;
     trace := trace w |}.

Definition set_positionTuple (v : Z * Z) (w : window) : window :=
  {| cls := cls w; saveSize := saveSize w; savePosition := savePosition w;
     bindClose := bindClose w; minSize := minSize w;
     createOkButton := createOkButton w;
     createCancelButton := createCancelButton w;
     hasToolbar := hasToolbar w; hasMenus := hasMenus w;
     settingsName := settingsName w; topSizer := topSizer w;
     sizeTuple := sizeTuple w; positionTuple := v;
     closeHandler := closeHandler w; settings := settings w;
     trace := trace w |}.

Definition set_closeHandler (v : bool) (w : window) : window :=
  {| cls := cls w; saveSize := saveSize w; savePosition := savePosition w;
     bindClose := bindClose w; minSize := minSize w;
     createOkButton := createOkButton w;
     createCancelButton := createCancelButton w;
     hasToolbar := hasToolbar w; hasMenus := hasMenus w;
     settingsName := settingsName w; topSizer := topSizer w;
     sizeTuple := sizeTuple w; positionTuple := positionTuple w;
     closeHandler := v; settings := settings w;
     trace := trace w |}.

Definition set_settings (v : gmap (string * string) (Z * Z)) (w : window)
  : window :=
  {| cls := cls w; saveSize := saveSize w; savePosition := savePosition w;
     bindClose := bindClose w; minSize := minSize w;
     createOkButton := createOkButton w;
     createCancelButton := createCancelButton w;
     hasToolbar := hasToolbar w; hasMenus := hasMenus w;
     settingsName := settingsName w; topSizer := topSizer w;
     sizeTuple := sizeTuple w; positionTuple := positionTuple w;
     closeHandler := closeHandler w; settings := v;
     trace := trace w |}.

Definition set_trace (v : list event) (w : window) : window :=
  {| cls := cls w; saveSize := saveSize w; savePosition := savePosition w;
     bindClose := bindClose w; minSize := minSize w;
     createOkButton := createOkButton w;
     createCancelButton := createCancelButton w;
     hasToolbar := hasToolbar w; hasMenus := hasMenus w;
     settingsName := settingsName w; topSizer := topSizer w;
     sizeTuple := sizeTuple w; positionTuple := positionTuple w;
     closeHandler := closeHandler w; settings := settings w;
     trace := v |}.

(** Append an event to the trace. *)
Definition log (e : event) : M window unit :=
  modify (fun w => set_trace (trace w ++ [e]) w).

(** *** Toolkit and [ceGUI.BaseControl] *)

Module wx.

Definition SetMinSize (sz : Z * Z) : M window unit :=
  log (Trace.SetMinSize sz).

Definition SetSize (sz : Z * Z) : M window unit :=
  log (Trace.SetSize sz) ;; modify (set_sizeTuple sz).

Definition SetPosition (pos : Z * Z) : M window unit :=
  log (Trace.SetPosition pos) ;; modify (set_positionTuple pos).

Definition GetSizeTuple : M window (Z * Z) := gets sizeTuple.

Definition GetPositionTuple : M window (Z * Z) := gets positionTuple.

(** [topSizer.Fit(self)]: the window takes the sizer's size. *)
Definition SizerFit (sizer : Z * Z) : M window unit :=
  log (Wx Fit) ;; modify (set_sizeTuple sizer).

(** [self.Bind(wx.EVT_CLOSE, self._OnClose)] *)
Definition BindCloseHandler : M window unit :=
  log (Wx BindClose) ;; modify (set_closeHandler true).

End wx.

Module BaseControl.

(** Modelled from the spec: [BaseControl.ReadSetting] is not part of the
    two source files.  The store is key/value, the key scoped to the
    window's settings namespace; a missing key yields the default. *)
Definition ReadSetting (name : string) (default : option (Z * Z))
  : M window (option (Z * Z)) :=
  log (Trace.ReadSetting name) ;;
  w <- get ;;
  ret (match settings w !! (settingsName w, name) with
       | Some v => Some v
       | None => default
       end).

(** Modelled from the spec: [BaseControl.WriteSetting] is not part of the
    two source files.  The value is stored under the key scoped to the
    window's settings namespace. *)
Definition WriteSetting (name : string) (v : Z * Z) : M window unit :=
  log (Trace.WriteSetting name v) ;;
  modify (fun w => set_settings (<[(settingsName w, name) := v]> (settings w)) w).

(** Modelled from the spec: [BaseControl._Initialize] is not part of the
    two source files.  After construction (and the optional minimum size)
    the create phase runs: the method [_OnCreate] of the window's own
    class, here passed as [self_OnCreate]. *)
Definition _Initialize (self_OnCreate : M window unit) : M window unit :=
  self_OnCreate.

End BaseControl.

(** *** class BaseContainer *)

Module BaseContainer.

Definition _Initialize (self_OnCreate : M window unit) : M window unit :=
  w <- get ;;
  match minSize w with
  | Some sz => wx.SetMinSize sz
  | None => ret tt
  end ;;
  BaseControl._Initialize self_OnCreate.

Definition _RestoreSettings : M window unit :=
  w <- get ;;
  when (saveSize w)
    (size <- BaseControl.ReadSetting "Size" (minSize w) ;;
     match size with
     | Some sz => wx.SetSize sz
     | None => ret tt
     end) ;;
  when (savePosition w)
    (position <- BaseControl.ReadSetting "Position" None ;;
     match position with
     | Some pos => wx.SetPosition pos
     | None => ret tt
     end) ;;
  log (Hook RestoreSettings).

Definition _SaveSettings : M window unit :=
  w <- get ;;
  when (saveSize w)
    (sz <- wx.GetSizeTuple ;; BaseControl.WriteSetting "Size" sz) ;;
  when (savePosition w)
    (pos <- wx.GetPositionTuple ;; BaseControl.WriteSetting "Position" pos) ;;
  log (Hook SaveSettings) ;;
  log (Wx SettingsFlush).

Definition _OnClose : M window unit :=
  _SaveSettings ;;
  log (Hook OnClose) ;;
  log (Wx EventSkip).

Definition _OnLayout (sizer : Z * Z) : M window unit :=
  log (Wx SetSizer) ;;
  w <- get ;;
  match minSize w with
  | None => wx.SizerFit sizer
  | Some _ => ret tt
  end.

Definition _OnCreate : M window unit :=
  w <- get ;;
  when (bindClose w) wx.BindCloseHandler ;;
  log (Hook OnCreate) ;;
  log (Hook OnLayout) ;;
  match topSizer w with
  | Some sizer => _OnLayout sizer
  | None => ret tt
  end ;;
  _RestoreSettings.

End BaseContainer.

(** *** class Dialog *)

Module Dialog.

Definition _OnCreate : M window unit :=
  w <- get ;;
  when (createOkButton w) (log (Wx NewOkButton)) ;;
  when (createCancelButton w) (log (Wx NewCancelButton)) ;;
  BaseContainer._OnCreate.

Definition __init__ : M window unit :=
  log (Wx WxDialogInit) ;;
  BaseContainer._Initialize _OnCreate.

(** [_OnOk], for a dialog whose [OnOk] is the computation [self_OnOk] on
    a world [T] that holds the window. *)
Definition _OnOk {T} (self : T -> window) (upd : window -> T -> T)
    (self_OnOk : M T unit) : M T unit :=
  self_OnOk ;;
  zoom self upd BaseContainer._SaveSettings.

Definition _OnCancel {T} (self : T -> window) (upd : window -> T -> T)
    (self_OnCancel : M T unit) : M T unit :=
  self_OnCancel ;;
  zoom self upd BaseContainer._SaveSettings.

(** [OnOk] and [OnCancel] of the class itself: [pass]. *)
Definition OnOk : M window unit := ret tt.

Definition OnCancel : M window unit := ret tt.

End Dialog.

(** *** class Frame *)

Module Frame.

Definition _OnCreate : M window unit :=
  w <- get ;;
  when (hasToolbar w)
    (log (Wx NewToolBar) ;;
     log (Wx SetToolBar) ;;
     log (Hook OnCreateToolbar) ;;
     log (Wx ToolBarRealize)) ;;
  when (hasMenus w)
    (log (Wx NewMenuBar) ;;
     log (Wx SetMenuBar) ;;
     log (Hook OnCreateMenus)) ;;
  BaseContainer._OnCreate.

Definition __init__ : M window unit :=
  log (Wx WxFrameInit) ;;
  BaseContainer._Initialize _OnCreate.

End Frame.

(** *** class Panel *)

Module Panel.

Definition __init__ : M window unit :=
  log (Wx WxPanelInit) ;;
  BaseContainer._Initialize BaseContainer._OnCreate.

End Panel.

(** Constructing a window of one of the three concrete classes this
    module pairs with a toolkit class, [Dialog], [Frame] or [Panel], by
    [cls w].  The hooks the classes leave to their subclasses appear as
    the events of their calls: hooks that return and touch neither the
    geometry nor the store.  [StandardDialog], whose layout step can
    raise, is embedded apart, in [Dialogs]. *)
Definition construct : M window unit :=
  w <- get ;;
  match cls w with
  | ClsDialog => Dialog.__init__
  | ClsFrame => Frame.__init__
  | ClsPanel => Panel.__init__
  end.

(** The toolkit delivers the close event to the handler bound to it; a
    window without a bound handler runs none of this module on close. *)
Definition close : M window unit :=
  w <- get ;;
  when (closeHandler w) BaseContainer._OnClose.

(** The user moves and resizes the window between creation and close. *)
Definition moved (sz pos : Z * Z) (w : window) : window :=
  set_positionTuple pos (set_sizeTuple sz w).

(** The state a computation leaves. *)
Definition after {A} (m : M window A) (w : window) : window := snd (m w).

(** **** The lifecycle as the specification words it *)

(** The events of the lifecycle sequence: construction, minimum size,
    the create-phase and layout-phase hooks, the frame's toolbar and menu
    hooks, and the reads of geometry restore with its hook. *)
Definition is_lifecycle (e : event) : bool :=
  match e with
  | Wx WxDialogInit | Wx WxFrameInit | Wx WxPanelInit => true
  | Trace.SetMinSize _ => true
  | Hook OnCreate | Hook OnLayout | Hook RestoreSettings => true
  | Hook OnCreateToolbar | Hook OnCreateMenus => true
  | Trace.ReadSetting _ => true
  | _ => false
  end.

Definition lifecycle (t : list event) : list event :=
  List.filter is_lifecycle t.

Definition construction (c : containerClass) : event :=
  match c with
  | ClsDialog => Wx WxDialogInit
  | ClsFrame => Wx WxFrameInit
  | ClsPanel => Wx WxPanelInit
  end.

Definition opt {A} (b : bool) (l : list A) : list A := if b then l else [].

(** construct, optional minimum size, toolbar and menu setup (frames),
    create-phase hook, layout-phase hook, geometry restore. *)
Definition lifecycle_spec (w : window) : list event :=
  [construction (cls w)] ++
  match minSize w with Some sz => [Trace.SetMinSize sz] | None => [] end ++
  match cls w with
  | ClsFrame =>
      opt (hasToolbar w) [Hook OnCreateToolbar] ++
      opt (hasMenus w) [Hook OnCreateMenus]
  | _ => []
  end ++
  [Hook OnCreate; Hook OnLayout] ++
  opt (saveSize w) [Trace.ReadSetting "Size"] ++
  opt (savePosition w) [Trace.ReadSetting "Position"] ++
  [Hook RestoreSettings].

(** The class attributes of a window, with the result of its layout
    hook; no method of the module assigns them. *)
Definition classOf (w : window) :=
  (cls w, saveSize w, savePosition w, bindClose w, minSize w,
   createOkButton w, createCancelButton w, hasToolbar w, hasMenus w,
   settingsName w, topSizer w).

(** What geometry restore leaves in the window [w'] when started from
    [w]: the stored size and position, where the flags ask for them. *)
Definition geometry_restored (w w' : window) : Prop :=
  (saveSize w = true -> forall sz,
     settings w !! (settingsName w, "Size") = Some sz -> sizeTuple w' = sz) /\
  (savePosition w = true -> forall pos,
     settings w !! (settingsName w, "Position") = Some pos ->
     positionTuple w' = pos).

(** **** Persisting the geometry on close *)

(** The window of class [w], once constructed and then moved to size
    [sz] and position [pos]. *)
Definition shown (w : window) (sz pos : Z * Z) : window :=
  moved sz pos (after construct w).

(** Closing the window writes its geometry, each key under its flag,
    runs the save hook, flushes the store and then fires the close hook. *)
Definition close_saves (w : window) (sz pos : Z * Z) : Prop :=
  exists w2, close (shown w sz pos) = (Ok tt, w2) /\
    trace w2 = trace (shown w sz pos) ++
      opt (saveSize w) [Trace.WriteSetting "Size" sz] ++
      opt (savePosition w) [Trace.WriteSetting "Position" pos] ++
      [Hook SaveSettings; Wx SettingsFlush; Hook OnClose; Wx EventSkip] /\
    (saveSize w = true ->
       settings w2 !! (settingsName w, "Size") = Some sz) /\
    (savePosition w = true ->
       settings w2 !! (settingsName w, "Position") = Some pos).

(** A window [w3] created later in the same settings namespace, over the
    store the close left, reads the keys back and takes the geometry. *)
Definition restore_reads (w : window) (sz pos : Z * Z) : Prop :=
  forall w3,
    settingsName w3 = settingsName w ->
    settings w3 = settings (after close (shown w sz pos)) ->
    (saveSize w = true -> saveSize w3 = true ->
       In (Trace.ReadSetting "Size") (trace (after construct w3)) /\
       sizeTuple (after construct w3) = sz) /\
    (savePosition w = true -> savePosition w3 = true ->
       In (Trace.ReadSetting "Position") (trace (after construct w3)) /\
       positionTuple (after construct w3) = pos).

(** The property as the specification states it, for one window: with
    [saveSize] and [savePosition] set, closing the window leaves its
    geometry in the store under "Size" and "Position" and fires the close
    hook. *)
Definition persists_on_close (w : window) (sz pos : Z * Z) : Prop :=
  saveSize w = true -> savePosition w = true ->
  let w2 := after close (shown w sz pos) in
  settings w2 !! (settingsName w, "Size") = Some sz /\
  settings w2 !! (settingsName w, "Position") = Some pos /\
  In (Hook OnClose) (trace w2).

(** **** Sample windows *)

Definition sample (c : containerClass) (save bind : bool) : window :=
  {| cls := c; saveSize := save; savePosition := save; bindClose := bind;
     minSize := None; createOkButton := true; createCancelButton := true;
     hasToolbar := true; hasMenus := true;
     settingsName := "app.Windows"; topSizer := Some (300, 200)%Z;
     sizeTuple := (0, 0)%Z; positionTuple := (0, 0)%Z;
     closeHandler := false; settings := ∅; trace := [] |}.

(** A frame that saves its geometry and binds the close event. *)
Definition frame0 : window := sample ClsFrame true true.

(** A frame class that sets [saveSize] and [savePosition] and clears
    [bindClose]. *)
Definition unbound0 : window := sample ClsFrame true false.

End ContainerControls.

(** ** ceGUI/ContainerControls.py: the standard dialog, the buttons of a
    dialog, the geometry of a new window *)

Module Dialogs.
Import ContainerControls.

Definition set_topSizer (v : option (Z * Z)) (w : window) : window :=
  {| cls := cls w; saveSize := saveSize w; savePosition := savePosition w;
     bindClose := bindClose w; minSize := minSize w;
     createOkButton := createOkButton w;
     createCancelButton := createCancelButton w;
     hasToolbar := hasToolbar w; hasMenus := hasMenus w;
     settingsName := settingsName w; topSizer := v;
     sizeTuple := sizeTuple w; positionTuple := positionTuple w;
     closeHandler := closeHandler w; settings := settings w;
     trace := trace w |}.

(** *** class StandardDialog *)

Module StandardDialog.

Section Layout.

(** The sizer once the row of the two buttons is added under it, both
    given by the size a window takes when fitted. *)
Variable addButtonRow : Z * Z -> Z * Z.

(** Is the attribute [okButton] set: [Dialog._OnCreate], which runs
    before the layout, assigns it under [createOkButton], and nothing
    else of the module does. *)
Definition okButton (w : window) : bool := createOkButton w.

Definition cancelButton (w : window) : bool := createCancelButton w.

(** [StandardDialog._OnLayout]: the two buttons are read off the dialog
    and put in a row under the sizer, then the layout of [BaseContainer]
    follows. *)
Definition _OnLayout (topSizer : Z * Z) : M window unit :=
  w <- get ;;
  when (negb (okButton w)) (raise (AttributeError "okButton")) ;;
  when (negb (cancelButton w)) (raise (AttributeError "cancelButton")) ;;
  BaseContainer._OnLayout (addButtonRow topSizer).

(** [BaseContainer._OnCreate] as a standard dialog runs it: the layout
    step is the dialog's own [_OnLayout]. *)
Definition BaseContainer_OnCreate : M window unit :=
  w <- get ;;
  when (bindClose w) wx.BindCloseHandler ;;
  log (Hook OnCreate) ;;
  log (Hook OnLayout) ;;
  match topSizer w with
  | Some sizer => _OnLayout sizer
  | None => ret tt
  end ;;
  BaseContainer._RestoreSettings.

(** [Dialog._OnCreate] as a standard dialog runs it. *)
Definition _OnCreate : M window unit :=
  w <- get ;;
  when (createOkButton w) (log (Wx NewOkButton)) ;;
  when (createCancelButton w) (log (Wx NewCancelButton)) ;;
  BaseContainer_OnCreate.

(** The body of [StandardDialog.__init__(self, parent)]. *)
Definition __init__ : M window unit :=
  log (Wx WxDialogInit) ;;
  BaseContainer._Initialize _OnCreate.

(** A call of [StandardDialog.__init__] with [nargs] positional arguments
    after [self].  The signature takes [parent] alone: any other number
    of arguments is a [TypeError], raised before the body runs. *)
Definition call__init__ (nargs : nat) : M window unit :=
  if (nargs =? 1)%nat then __init__ else raise TypeError.

End Layout.

End StandardDialog.

(** The plain dialog whose layout hook returns the sizer of [w] with the
    button row already in it. *)
Definition withButtonRow (addButtonRow : Z * Z -> Z * Z) (w : window)
  : window :=
  set_topSizer (option_map addButtonRow (topSizer w)) w.

(** The events of a construction that fails in the layout step. *)
Definition untilLayout (w : window) : list event :=
  [Wx WxDialogInit] ++
  match minSize w with Some sz => [Trace.SetMinSize sz] | None => [] end ++
  opt (createOkButton w) [Wx NewOkButton] ++
  opt (createCancelButton w) [Wx NewCancelButton] ++
  opt (bindClose w) [Wx BindClose] ++
  [Hook OnCreate; Hook OnLayout].

(** **** The lifecycle of a window *)



(** **** Saving the settings from the buttons of a dialog *)

(** What [_SaveSettings] leaves in the window [w'] when it ran on [w]:
    the geometry written under its keys, each under its flag, then the
    save hook and the flush and nothing else; and a [Dialog], [Frame] or
    [Panel] created later in the same settings namespace over that store
    takes the geometry. *)
Definition saved (w w' : window) : Prop :=
  trace w' = trace w ++
    opt (saveSize w) [Trace.WriteSetting "Size" (sizeTuple w)] ++
    opt (savePosition w)
      [Trace.WriteSetting "Position" (positionTuple w)] ++
    [Hook SaveSettings; Wx SettingsFlush] /\
  (saveSize w = true ->
     settings w' !! (settingsName w, "Size") = Some (sizeTuple w)) /\
  (savePosition w = true ->
     settings w' !! (settingsName w, "Position")
       = Some (positionTuple w)) /\
  forall w3,
    settingsName w3 = settingsName w -> settings w3 = settings w' ->
    (saveSize w = true -> saveSize w3 = true ->
       sizeTuple (after construct w3) = sizeTuple w) /\
    (savePosition w = true -> savePosition w3 = true ->
       positionTuple (after construct w3) = positionTuple w).

(** **** The geometry of a window after construction *)

(** The size the layout step leaves: the sizer's, when the layout hook
    returns one and the class sets no minimum size. *)
Definition fittedSize (w : window) : Z * Z :=
  match topSizer w, minSize w with
  | Some sizer, None => sizer
  | _, _ => sizeTuple w
  end.

(** The size after geometry restore: the stored one, else the minimum
    size, else what the layout step left. *)
Definition constructedSize (w : window) : Z * Z :=
  if saveSize w then
    match settings w !! (settingsName w, "Size"), minSize w with
    | Some sz, _ => sz
    | None, Some m => m
    | None, None => fittedSize w
    end
  else fittedSize w.

Definition constructedPosition (w : window) : Z * Z :=
  if savePosition w then
    match settings w !! (settingsName w, "Position") with
    | Some pos => pos
    | None => positionTuple w
    end
  else positionTuple w.

(** **** Sample dialogs *)

(** A button row that adds 40 to the height of the sizer. *)
Definition buttonRow40 (s : Z * Z) : Z * Z := (fst s, (snd s + 40)%Z).

(** A standard dialog with a sizer to lay out and no Cancel button. *)
Definition okOnly : window :=
  {| cls := ClsDialog; saveSize := true; savePosition := true;
     bindClose := true; minSize := None;
     createOkButton := true; createCancelButton := false;
     hasToolbar := true; hasMenus := true;
     settingsName := "app.Windows"; topSizer := Some (300, 200)%Z;
     sizeTuple := (0, 0)%Z; positionTuple := (0, 0)%Z;
     closeHandler := false; settings := ∅; trace := [] |}.

End Dialogs.

(** ** The result-set library *)

Module ceDatabase.

(** A row of a result set: the attribute names of its class, the names
    of its primary-key attributes, and the attributes it holds. *)
Record Row := {
  attrNames : list string;
  pkAttrNames : list string;
  attrs : gmap string value
}.

(** [getattr(row, name)] *)
Definition getattr (row : Row) (name : string) : result value :=
  match attrs row !! name with
  | Some v => Ok v
  | None => Raise (AttributeError name)
  end.

(** [hasattr(row, name)] *)
Definition hasattr (row : Row) (name : string) : bool :=
  bool_decide (is_Some (attrs row !! name)).

(** [setattr(row, name, v)] *)
Definition setattr (row : Row) (name : string) (v : value) : Row :=
  {| attrNames := attrNames row; pkAttrNames := pkAttrNames row;
     attrs := <[name := v]> (attrs row) |}.

(** [[getattr(row, n) for n in names]] *)
Fixpoint getattrs (row : Row) (names : list string) : result (list value) :=
  match names with
  | [] => Ok []
  | n :: names' =>
      match getattr row n with
      | Raise e => Raise e
      | Ok v =>
          match getattrs row names' with
          | Raise e => Raise e
          | Ok vs => Ok (v :: vs)
          end
      end
  end.

(** A result set: the attribute names of its row class, its rows by
    handle, and the query behind it (the rows the database returns for
    the arguments of a retrieval). *)
Record DataSet := {
  rowAttrNames : list string;
  rowPkAttrNames : list string;
  rows : gmap nat Row;
  query : list value -> list Row
}.

Definition set_rows (v : gmap nat Row) (ds : DataSet) : DataSet :=
  {| rowAttrNames := rowAttrNames ds; rowPkAttrNames := rowPkAttrNames ds;
     rows := v; query := query ds |}.

(** The row class applied to [values]: a row of the data set's class
    holding them,
    in the order of the attribute names. *)
Definition rowClass (ds : DataSet) (values : list value) : Row :=
  {| attrNames := rowAttrNames ds; pkAttrNames := rowPkAttrNames ds;
     attrs := list_to_map (zip (rowAttrNames ds) values) |}.

(** Modelled from the spec: [DataSet.SetValue] is not part of the two
    source files.  It writes the value into the row stored under the
    handle, under the attribute name, and touches nothing else; a handle
    that is no key of [rows] is a [KeyError]. *)
Definition SetValue (ds : DataSet) (handle : nat) (attrName : string)
    (v : value) : result DataSet :=
  match rows ds !! handle with
  | Some row => Ok (set_rows (<[handle := setattr row attrName v]> (rows ds)) ds)
  | None => Raise (KeyError handle)
  end.

(** Modelled from the spec: [DataSet.InsertRow] is not part of the two
    source files.  It adds a row of the data set's class, every attribute
    [None], under a handle not in use (0 in an empty data set), and
    returns the handle. *)
Definition InsertRow (ds : DataSet) : nat * DataSet :=
  let handle := fresh (dom (rows ds)) in
  let row := rowClass ds (List.map (fun _ => VNone) (rowAttrNames ds)) in
  (handle, set_rows (<[handle := row]> (rows ds)) ds).

(** Modelled from the spec: [DataSet.Retrieve] is not part of the two
    source files.  It replaces the rows by those the query returns for
    the arguments, keyed 0, 1, and so on (a dict over enumerate, as
    [EditDialogChild.Retrieve] builds [rows] itself). *)
Definition Retrieve (ds : DataSet) (args : list value) : DataSet :=
  set_rows (map_seq 0 (query ds args)) ds.

End ceDatabase.

(** ** ceGUI/DataEditors.py: the editing dialogs *)

Module DataEditors.
Import ContainerControls ceDatabase.

(** A field widget: is it a [wx.TextCtrl], is the text control editable,
    and the value it shows. *)
Inductive widgetClass := TextCtrl | OtherControl.

Record Field := {
  widget : widgetClass;
  editable : bool;
  fieldValue : value
}.

(** The world of an editing dialog: the field widgets and the data sets,
    both by reference, the widget that has the focus, and the dialog's
    window (which carries the trace). *)
Record world := {
  fields : nat -> Field;
  dataSets : nat -> DataSet;
  focus : option nat;
  win : window
}.

Definition set_fields (v : nat -> Field) (w : world) : world :=
  {| fields := v; dataSets := dataSets w; focus := focus w; win := win w |}.

Definition set_dataSets (v : nat -> DataSet) (w : world) : world :=
  {| fields := fields w; dataSets := v; focus := focus w; win := win w |}.

Definition set_focus (v : option nat) (w : world) : world :=
  {| fields := fields w; dataSets := dataSets w; focus := v; win := win w |}.

Definition set_win (v : window) (w : world) : world :=
  {| fields := fields w; dataSets := dataSets w; focus := focus w; win := v |}.

Definition log (e : event) : M world unit :=
  zoom win set_win (ContainerControls.log e).

(** The trace of a world. *)
Definition events (w : world) : list event := trace (win w).

(** The rows of the data set behind a reference. *)
Definition rowsOf (w : world) (ds : nat) : gmap nat Row :=
  rows (dataSets w ds).

(** *** The toolkit's fields and the data sets, as the dialogs call them *)

Module field.

Definition GetValue (f : nat) : M world value :=
  gets (fun w => fieldValue (fields w f)).

(** [isinstance(field, wx.TextCtrl)] *)
Definition isTextCtrl (f : nat) : M world bool :=
  gets (fun w => match widget (fields w f) with
                 | TextCtrl => true
                 | OtherControl => false
                 end).

Definition IsEditable (f : nat) : M world bool :=
  gets (fun w => editable (fields w f)).

Definition SetValue (f : nat) (v : value) : M world unit :=
  log (FieldSetValue f v) ;;
  modify (fun w =>
    set_fields (<[f := {| widget := widget (fields w f);
                          editable := editable (fields w f);
                          fieldValue := v |}]> (fields w)) w).

Definition SetFocus (f : nat) : M world unit :=
  log (FieldSetFocus f) ;;
  modify (set_focus (Some f)).

End field.

Module dataSet.

(** [dataSet.rows[handle]] *)
Definition row (ds handle : nat) : M world Row :=
  w <- get ;;
  match rowsOf w ds !! handle with
  | Some r => ret r
  | None => raise (KeyError handle)
  end.

Definition SetValue (ds handle : nat) (attrName : string) (v : value)
  : M world unit :=
  w <- get ;;
  ds' <- lift_result (ceDatabase.SetValue (dataSets w ds) handle attrName v) ;;
  log (DataSetSetValue ds handle attrName v) ;;
  modify (fun w => set_dataSets (<[ds := ds']> (dataSets w)) w).

Definition Update (ds : nat) : M world unit :=
  log (DataSetUpdate ds).

Definition Retrieve (ds : nat) (args : list value) : M world unit :=
  log (DataSetRetrieve ds args) ;;
  modify (fun w =>
    set_dataSets (<[ds := ceDatabase.Retrieve (dataSets w ds) args]> (dataSets w)) w).

Definition InsertRow (ds : nat) : M world nat :=
  w <- get ;;
  let '(handle, ds') := ceDatabase.InsertRow (dataSets w ds) in
  log (DataSetInsertRow ds handle) ;;
  modify (fun w => set_dataSets (<[ds := ds']> (dataSets w)) w) ;;
  ret handle.

End dataSet.

(** *** class EditDialogColumn *)

(** A column binding: one attribute name, one field widget. *)
Record Column := {
  attrName : string;
  field : nat;
  required : bool
}.

Module EditDialogColumn.

Definition GetValue (self : Column) : M world value :=
  field.GetValue (field self).

Definition IsEditable (self : Column) : M world bool :=
  isText <- field.isTextCtrl (field self) ;;
  if isText then field.IsEditable (field self) else ret true.

Definition SetValue (self : Column) (row : Row) : M world unit :=
  value <- lift_result (getattr row (attrName self)) ;;
  field.SetValue (field self) value.

Definition Update (self : Column) (ds : nat) : M world unit :=
  value <- GetValue self ;;
  dataSet.SetValue ds 0 (attrName self) value.

Definition Verify (self : Column) : M world unit :=
  when (required self)
    (value <- field.GetValue (field self) ;;
     when (is_None value)
       (field.SetFocus (field self) ;;
        raise RequiredFieldHasNoValue)).

End EditDialogColumn.

(** The loop shared, line for line, by [EditDialog.__init__],
    [DataEditPanel._Initialize] and [DataEditPanel.Retrieve]: every column
    is set from the row, and the first editable field is remembered. *)
Definition setValues (columns : list Column) (row : Row)
  : M world (option nat) :=
  for_fold columns None (fun focusField column =>
    EditDialogColumn.SetValue column row ;;
    match focusField with
    | None =>
        isEditable <- EditDialogColumn.IsEditable column ;;
        ret (if isEditable then Some (field column) else None)
    | Some f => ret (Some f)
    end).

(** *** class DataEditPanel *)

Module DataEditPanel.

Record panel := {
  columns : list Column;
  dataSet : nat;
  updateCacheMethodName : option string
}.

Definition GetRow (self : panel) : M world Row :=
  dataSet.row (dataSet self) 0.

Definition OnPreUpdate (self : panel) : M world unit :=
  for_each (columns self) (fun column =>
    isEditable <- EditDialogColumn.IsEditable column ;;
    when isEditable
      (EditDialogColumn.Verify column ;;
       EditDialogColumn.Update column (dataSet self))).

Definition Retrieve (self : panel) : M world unit :=
  row <- dataSet.row (dataSet self) 0 ;;
  focusField <- setValues (columns self) row ;;
  match focusField with
  | Some f => field.SetFocus f
  | None => ret tt
  end.

(** [DataPanel.OnPostUpdate] with [DataEditPanel._OnPostUpdate]: the
    cache method is called on the panel's row. *)
Definition OnPostUpdate (self : panel) : M world unit :=
  match updateCacheMethodName self with
  | Some method =>
      GetRow self ;;
      log (CacheUpdateRow method (dataSet self) 0)
  | None => ret tt
  end.

End DataEditPanel.

(** A page of the notebook of an [EditDialogWithPanels]: a
    [DataEditPanel], or a [DataListPanel] with its list's data set. *)
Inductive page :=
| EditPage (p : DataEditPanel.panel)
| ListPage (listDataSet : nat) (updateCacheMethodName : option string).

Module page.

Definition OnPreUpdate (self : page) : M world unit :=
  match self with
  | EditPage p => DataEditPanel.OnPreUpdate p
  | ListPage _ _ => ret tt
  end.

(** For a list page, [DataPanel.OnPostUpdate] with
    [DataListPanel._OnPostUpdate] inside an edit dialog: the cache method
    is called on the list's data set. *)
Definition OnPostUpdate (self : page) : M world unit :=
  match self with
  | EditPage p => DataEditPanel.OnPostUpdate p
  | ListPage ds (Some method) => log (CacheUpdateDataSet method ds)
  | ListPage _ None => ret tt
  end.

End page.

(** *** The edit dialogs *)

Inductive dialogClass :=
| ClsEditDialogBase
| ClsEditDialog
| ClsEditDialogChild
| ClsEditDialogWithPanels.

#[global] Instance dialogClass_eq_dec : EqDecision dialogClass.
Proof. solve_decision. Defined.

(** An edit dialog: its class, its data set, the column bindings its
    create hook added (for [EditDialog] and [EditDialogChild]), the pages
    of its notebook (for [EditDialogWithPanels]), the item it was opened
    on, and the name of its cache method. *)
Record dialog := {
  dcls : dialogClass;
  dataSet : nat;
  columns : list Column;
  pages : list page;
  parentItem : option Row;
  updateCacheMethodName : option string
}.

Module EditDialogBase.

Definition _Update (self : dialog) : M world unit :=
  dataSet.Update (dataSet self).

Definition GetRow (self : dialog) : M world Row :=
  dataSet.row (dataSet self) 0.

Definition OnPostUpdate (self : dialog) : M world unit :=
  match updateCacheMethodName self with
  | Some method =>
      w <- get ;;
      for_each (map_to_list (rowsOf w (dataSet self))) (fun hr =>
        log (CacheUpdateRow method (dataSet self) (fst hr)))
  | None => ret tt
  end.

Definition OnPreUpdate (self : dialog) : M world unit := ret tt.

(** [OnOk], the three methods called being those of the dialog's own
    class; the calls of the two hooks are recorded. *)
Definition OnOk (self_OnPreUpdate self__Update self_OnPostUpdate : M world unit)
  : M world unit :=
  log (Hook Trace.OnPreUpdate) ;;
  self_OnPreUpdate ;;
  self__Update ;;
  log (Hook Trace.OnPostUpdate) ;;
  self_OnPostUpdate.

Definition Retrieve (self : dialog) : M world unit :=
  match parentItem self with
  | None =>
      dataSet.InsertRow (dataSet self) ;;
      log (Hook OnNewRow)
  | Some item =>
      args <- lift_result (getattrs item (pkAttrNames item)) ;;
      dataSet.Retrieve (dataSet self) args ;;
      w <- get ;;
      when (bool_decide (size (rowsOf w (dataSet self)) <> 1))
        (raise NoDataFound)
  end.

End EditDialogBase.

Module EditDialog.

Definition OnPreUpdate (self : dialog) : M world unit :=
  for_each (columns self) (fun column =>
    isEditable <- EditDialogColumn.IsEditable column ;;
    when isEditable
      (EditDialogColumn.Verify column ;;
       EditDialogColumn.Update column (dataSet self))).

End EditDialog.

Module EditDialogChild.

Definition _Update (self : dialog) : M world unit := ret tt.

Definition Retrieve (self : dialog) : M world unit :=
  match parentItem self with
  | Some item =>
      w <- get ;;
      values <- lift_result
        (getattrs item (rowAttrNames (dataSets w (dataSet self)))) ;;
      let row := rowClass (dataSets w (dataSet self)) values in
      modify (fun w =>
        set_dataSets
          (<[dataSet self :=
               set_rows (map_seq 0 [row]) (dataSets w (dataSet self))]>
             (dataSets w)) w)
  | None => EditDialogBase.Retrieve self
  end.

End EditDialogChild.

Module EditDialogWithPanels.

Definition OnPostUpdate (self : dialog) : M world unit :=
  for_each (pages self) page.OnPostUpdate.

Definition OnPreUpdate (self : dialog) : M world unit :=
  for_each (pages self) page.OnPreUpdate.

End EditDialogWithPanels.

(** **** Method resolution by the dialog's class *)

Definition OnPreUpdate (self : dialog) : M world unit :=
  match dcls self with
  | ClsEditDialogBase => EditDialogBase.OnPreUpdate self
  | ClsEditDialog | ClsEditDialogChild => EditDialog.OnPreUpdate self
  | ClsEditDialogWithPanels => EditDialogWithPanels.OnPreUpdate self
  end.

Definition _Update (self : dialog) : M world unit :=
  match dcls self with
  | ClsEditDialogChild => EditDialogChild._Update self
  | _ => EditDialogBase._Update self
  end.

Definition OnPostUpdate (self : dialog) : M world unit :=
  match dcls self with
  | ClsEditDialogWithPanels => EditDialogWithPanels.OnPostUpdate self
  | _ => EditDialogBase.OnPostUpdate self
  end.

Definition Retrieve (self : dialog) : M world unit :=
  match dcls self with
  | ClsEditDialogChild => EditDialogChild.Retrieve self
  | _ => EditDialogBase.Retrieve self
  end.

Definition OnOk (self : dialog) : M world unit :=
  EditDialogBase.OnOk (OnPreUpdate self) (_Update self) (OnPostUpdate self).

(** The handler of the OK button, [Dialog._OnOk]. *)
Definition _OnOk (self : dialog) : M world unit :=
  Dialog._OnOk win set_win (OnOk self).

(** [EditDialogBase.__init__]: the data set is retrieved, then the
    constructor of [StandardDialog] is called with two positional
    arguments, [parent] and [instanceName]. *)
Definition __init__ (addButtonRow : Z * Z -> Z * Z) (self : dialog)
  : M world unit :=
  Retrieve self ;;
  zoom win set_win (Dialogs.StandardDialog.call__init__ addButtonRow 2).

(** **** The commit of a list of bindings, described on the world *)

(** The value a column's widget shows. *)
Definition valueIn (w : world) (c : Column) : value :=
  fieldValue (fields w (field c)).

(** What [IsEditable] answers for a column. *)
Definition editableIn (w : world) (c : Column) : bool :=
  match widget (fields w (field c)) with
  | TextCtrl => editable (fields w (field c))
  | OtherControl => true
  end.

(** The world with one more event in its trace. *)
Definition emit (e : event) (w : world) : world :=
  set_win (set_trace (trace (win w) ++ [e]) (win w)) w.

(** The world with row [r] stored under [handle] in data set [ds]. *)
Definition store (ds handle : nat) (r : Row) (w : world) : world :=
  set_dataSets
    (<[ds := set_rows (<[handle := r]> (rowsOf w ds)) (dataSets w ds)]>
       (dataSets w)) w.

(** A binding as the commit meets it: a column and the data set its value
    goes to. *)
Definition binding : Type := Column * nat.

(** The body of the commit loop of [EditDialog.OnPreUpdate] and
    [DataEditPanel.OnPreUpdate], at one binding. *)
Definition commitStep (b : binding) : M world unit :=
  isEditable <- EditDialogColumn.IsEditable (fst b) ;;
  when isEditable
    (EditDialogColumn.Verify (fst b) ;;
     EditDialogColumn.Update (fst b) (snd b)).

Definition pageBindings (p : page) : list binding :=
  match p with
  | EditPage p =>
      List.map (fun c => (c, DataEditPanel.dataSet p)) (DataEditPanel.columns p)
  | ListPage _ _ => []
  end.

(** The bindings a dialog's pre-update goes through, in order. *)
Definition bindings (d : dialog) : list binding :=
  match dcls d with
  | ClsEditDialogBase => []
  | ClsEditDialog | ClsEditDialogChild =>
      List.map (fun c => (c, dataSet d)) (columns d)
  | ClsEditDialogWithPanels => flat_map pageBindings (pages d)
  end.

(** A binding passes validation: it is not editable, or not required, or
    its widget holds a value. *)
Definition passes (w : world) (b : binding) : Prop :=
  editableIn w (fst b) = true -> required (fst b) = true ->
  valueIn w (fst b) <> VNone.

(** The data set an editable binding writes to has a row under handle 0. *)
Definition hasRow (w : world) (b : binding) : Prop :=
  editableIn w (fst b) = true -> is_Some (rowsOf w (snd b) !! 0).

(** The write of one binding that passes validation. *)
Definition commitBinding (w : world) (b : binding) : world :=
  if editableIn w (fst b) then
    match rowsOf w (snd b) !! 0 with
    | Some r =>
        store (snd b) 0 (setattr r (attrName (fst b)) (valueIn w (fst b)))
          (emit (DataSetSetValue (snd b) 0 (attrName (fst b))
                   (valueIn w (fst b))) w)
    | None => w
    end
  else w.

(** The writes of a list of bindings, first to last. *)
Definition committed (bs : list binding) (w : world) : world :=
  foldl commitBinding w bs.

(** The events of those writes: one [SetValue] on the data set per
    editable binding. *)
Definition writes (w : world) (bs : list binding) : list event :=
  flat_map (fun b =>
    if editableIn w (fst b)
    then [DataSetSetValue (snd b) 0 (attrName (fst b)) (valueIn w (fst b))]
    else []) bs.

(** Is attribute [a] of row 0 of data set [ds] the target of an editable
    binding of the list. *)
Definition writtenTo (w : world) (bs : list binding) (ds : nat) (a : string)
  : Prop :=
  exists b, In b bs /\ editableIn w (fst b) = true /\
            snd b = ds /\ attrName (fst b) = a.

(** Row 0 of data set [ds] after the write of one binding. *)
Definition rowAfter (w : world) (ds : nat) (r : Row) (b : binding) : Row :=
  if editableIn w (fst b) && bool_decide (snd b = ds)
  then setattr r (attrName (fst b)) (valueIn w (fst b))
  else r.

(** **** The refresh of a list of columns, described on the world *)

(** The world with value [v] shown by field [f]. *)
Definition show (f : nat) (v : value) (w : world) : world :=
  set_fields
    (<[f := {| widget := widget (fields w f);
               editable := editable (fields w f);
               fieldValue := v |}]> (fields w)) w.

(** One column set from the row. *)
Definition refreshColumn (row : Row) (w : world) (c : Column) : world :=
  match attrs row !! attrName c with
  | Some v => show (field c) v (emit (FieldSetValue (field c) v) w)
  | None => w
  end.

(** The columns set from the row, first to last. *)
Definition refreshed (row : Row) (cols : list Column) (w : world) : world :=
  foldl (refreshColumn row) w cols.

(** The events of the refresh: one [SetValue] on a field per column. *)
Definition shows (row : Row) (cols : list Column) : list event :=
  flat_map (fun c =>
    match attrs row !! attrName c with
    | Some v => [FieldSetValue (field c) v]
    | None => []
    end) cols.

(** The field of the first editable column. *)
Definition firstEditable (w : world) (cols : list Column) : option nat :=
  match List.find (editableIn w) cols with
  | Some c => Some (field c)
  | None => None
  end.

(** The events a computation adds to the trace of [w]. *)
Definition emitted {A} (m : M world A) (w : world) : list event :=
  drop (length (events w)) (events (snd (m w))).

(** **** Refresh and commit, as properties of a list of bindings *)

(** Refresh of a panel whose row holds every bound attribute: the data
    sets are untouched, every column's attribute value is set on its
    widget, in order, and a widget no later column shares shows it. *)
Definition refresh_copies (p : DataEditPanel.panel) (w : world) : Prop :=
  forall row,
    rowsOf w (DataEditPanel.dataSet p) !! 0 = Some row ->
    Forall (fun c => is_Some (attrs row !! attrName c))
      (DataEditPanel.columns p) ->
    exists w', DataEditPanel.Retrieve p w = (Ok tt, w') /\
      dataSets w' = dataSets w /\
      (exists t, emitted (DataEditPanel.Retrieve p) w =
                   shows row (DataEditPanel.columns p) ++ t /\
                 forall f v, ~ In (FieldSetValue f v) t) /\
      forall pre c post,
        DataEditPanel.columns p = pre ++ c :: post ->
        Forall (fun c' => field c' <> field c) post ->
        attrs row !! attrName c = Some (valueIn w' c).

(** Commit by the computation [m] over the bindings [bs]: when every
    editable required binding holds a value, each editable binding's
    widget value is written to row 0 of its data set under its attribute
    name, in order, and nothing else in the data sets changes; and an
    editable required binding that holds [None], the ones before it
    passing, raises the required-field error. *)
Definition commit_writes (m : M world unit) (bs : list binding) (w : world)
  : Prop :=
  (Forall (passes w) bs -> Forall (hasRow w) bs ->
   exists w', m w = (Ok tt, w') /\
     emitted m w = writes w bs /\
     fields w' = fields w /\
     (forall ds h, h <> 0 -> rowsOf w' ds !! h = rowsOf w ds !! h) /\
     (forall ds r, rowsOf w ds !! 0 = Some r ->
        exists r', rowsOf w' ds !! 0 = Some r' /\
          (forall a, ~ writtenTo w bs ds a -> attrs r' !! a = attrs r !! a) /\
          (forall pre b post, bs = pre ++ b :: post ->
             editableIn w (fst b) = true -> snd b = ds ->
             ~ writtenTo w post ds (attrName (fst b)) ->
             attrs r' !! attrName (fst b) = Some (valueIn w (fst b))))) /\
  (forall pre b post, bs = pre ++ b :: post ->
     Forall (passes w) pre -> Forall (hasRow w) pre ->
     editableIn w (fst b) = true -> required (fst b) = true ->
     valueIn w (fst b) = VNone ->
     fst (m w) = Raise RequiredFieldHasNoValue).

(** A commit that met the editable required binding [b] holding [None]
    after the bindings [pre]: the required-field error is raised, the
    field of [b] has the focus, neither the update of a data set nor
    post-update was reached, and the data sets hold the writes of [pre]
    and are otherwise as before. *)
Definition commit_aborted (d : dialog) (w : world) (pre : list binding)
    (b : binding) : Prop :=
  exists w', _OnOk d w = (Raise RequiredFieldHasNoValue, w') /\
    focus w' = Some (field (fst b)) /\
    emitted (_OnOk d) w =
      Hook Trace.OnPreUpdate :: writes w pre ++
        [FieldSetFocus (field (fst b))] /\
    (forall ds, ~ In (DataSetUpdate ds) (emitted (_OnOk d) w)) /\
    ~ In (Hook Trace.OnPostUpdate) (emitted (_OnOk d) w) /\
    fields w' = fields w /\
    (forall ds h, h <> 0 -> rowsOf w' ds !! h = rowsOf w ds !! h) /\
    (forall ds, rowsOf w ds !! 0 = None -> rowsOf w' ds !! 0 = None) /\
    (forall ds r, rowsOf w ds !! 0 = Some r ->
       exists r', rowsOf w' ds !! 0 = Some r' /\
         (forall a, ~ writtenTo w pre ds a -> attrs r' !! a = attrs r !! a) /\
         (forall pre1 b1 pre2, pre = pre1 ++ b1 :: pre2 ->
            editableIn w (fst b1) = true -> snd b1 = ds ->
            ~ writtenTo w pre2 ds (attrName (fst b1)) ->
            attrs r' !! attrName (fst b1) = Some (valueIn w (fst b1)))).

(** Pre-update of [d] is the commit loop over the bindings [rest] alone:
    it validates and writes these, and nothing else. *)
Definition commits_only (d : dialog) (w : world) (rest : list binding)
  : Prop :=
  OnPreUpdate d w = for_each rest commitStep w /\
  (Forall (passes w) rest -> Forall (hasRow w) rest ->
   OnPreUpdate d w = (Ok tt, committed rest w) /\
   emitted (OnPreUpdate d) w = writes w rest).

(** Synchronizing from a row (one column, a list of columns, a panel) and
    reading or validating a column leave every data set as it is;
    [Update] changes row 0 of its data set at the column's attribute, and
    nothing else. *)
Definition writes_only_on_update (c : Column) (row : Row) (ds : nat)
    (cols : list Column) (p : DataEditPanel.panel) (w : world) : Prop :=
  dataSets (snd (EditDialogColumn.SetValue c row w)) = dataSets w /\
  dataSets (snd (setValues cols row w)) = dataSets w /\
  dataSets (snd (DataEditPanel.Retrieve p w)) = dataSets w /\
  dataSets (snd (EditDialogColumn.GetValue c w)) = dataSets w /\
  dataSets (snd (EditDialogColumn.IsEditable c w)) = dataSets w /\
  dataSets (snd (EditDialogColumn.Verify c w)) = dataSets w /\
  (forall ds' h, ds' <> ds \/ h <> 0 ->
     rowsOf (snd (EditDialogColumn.Update c ds w)) ds' !! h
       = rowsOf w ds' !! h) /\
  (forall r, rowsOf w ds !! 0 = Some r ->
     exists r',
       rowsOf (snd (EditDialogColumn.Update c ds w)) ds !! 0 = Some r' /\
       attrs r' !! attrName c = Some (valueIn w c) /\
       (forall a, a <> attrName c -> attrs r' !! a = attrs r !! a) /\
       attrNames r' = attrNames r /\ pkAttrNames r' = pkAttrNames r).

(** A relation between the world before a computation and the world
    after it, holding whatever the result (a value or an exception). *)
Definition keeps {A} (R : world -> world -> Prop) (m : M world A) : Prop :=
  forall w, R w (snd (m w)).

(** A computation leaves the data sets as they are. *)
Definition sameData (w w' : world) : Prop := dataSets w' = dataSets w.

(** **** The commit on OK *)

(** The three steps of the commit. *)
Definition is_commit_step (e : event) : bool :=
  match e with
  | Hook Trace.OnPreUpdate | Hook Trace.OnPostUpdate | DataSetUpdate _ => true
  | _ => false
  end.

Definition commitSteps (t : list event) : list event :=
  List.filter is_commit_step t.

(** A computation adds no commit step to the trace. *)
Definition quiet (w w' : world) : Prop :=
  exists t, events w' = events w ++ t /\ commitSteps t = [].

(** Does the pre-update of the dialog return, once [OnOk] has entered it. *)
Definition preUpdateReturns (d : dialog) (w : world) : bool :=
  match fst (OnPreUpdate d (emit (Hook Trace.OnPreUpdate) w)) with
  | Ok _ => true
  | Raise _ => false
  end.

(** The commit steps of one OK: pre-update; then, when it returns, the
    update of the data set (none in an [EditDialogChild]) and post-update. *)
Definition stepsOnOk (d : dialog) (w : world) : list event :=
  Hook Trace.OnPreUpdate ::
  if preUpdateReturns d w then
    match dcls d with
    | ClsEditDialogChild => []
    | _ => [DataSetUpdate (dataSet d)]
    end ++ [Hook Trace.OnPostUpdate]
  else [].

(** The property as the specification states it, for one dialog: the
    three steps, each once, in order. *)
Definition three_steps_once (d : dialog) (w : world) : Prop :=
  commitSteps (emitted (_OnOk d) w) =
    [Hook Trace.OnPreUpdate; DataSetUpdate (dataSet d);
     Hook Trace.OnPostUpdate].

(** The property as the specification states it, for one dialog: a
    required binding that holds no value makes the commit raise, focus
    the binding's field, and leave the data set unupdated and its rows
    unchanged. *)
Definition aborts_unchanged (d : dialog) (w : world) : Prop :=
  (exists b, In b (bindings d) /\ required (fst b) = true /\
             valueIn w (fst b) = VNone) ->
  fst (_OnOk d w) = Raise RequiredFieldHasNoValue /\
  (exists b, In b (bindings d) /\ required (fst b) = true /\
             valueIn w (fst b) = VNone /\
             focus (snd (_OnOk d w)) = Some (field (fst b))) /\
  (forall ds, ~ In (DataSetUpdate ds) (emitted (_OnOk d) w)) /\
  rowsOf (snd (_OnOk d w)) (dataSet d) = rowsOf w (dataSet d).

(** **** Opening a dialog *)

(** The property as the specification states it, for one dialog opened
    on an item: the data set is retrieved by the item's primary-key
    values, and the error is raised exactly when the rows are not one. *)
Definition retrieves_by_key (d : dialog) (w : world) : Prop :=
  forall item, parentItem d = Some item ->
  exists args, getattrs item (pkAttrNames item) = Ok args /\
    In (DataSetRetrieve (dataSet d) args) (emitted (Retrieve d) w) /\
    (fst (Retrieve d w) = Raise NoDataFound <->
     size (rowsOf (snd (Retrieve d w)) (dataSet d)) <> 1).

(** Without a parent item a new row is inserted, under a handle not in
    use, the new-row hook runs, and nothing is raised. *)
Definition inserts_new_row (d : dialog) (w : world) : Prop :=
  parentItem d = None ->
  exists w' handle, Retrieve d w = (Ok tt, w') /\
    emitted (Retrieve d) w =
      [DataSetInsertRow (dataSet d) handle; Hook OnNewRow] /\
    rowsOf w (dataSet d) !! handle = None /\
    rowsOf w' (dataSet d) =
      <[handle := rowClass (dataSets w (dataSet d))
                    (List.map (fun _ => VNone)
                       (rowAttrNames (dataSets w (dataSet d))))]>
        (rowsOf w (dataSet d)).

(** A dialog that is no [EditDialogChild], opened on an item that holds
    its primary-key attributes: one retrieval by their values, and the
    error exactly when the rows retrieved are not one. *)
Definition retrieves_one_row (d : dialog) (w : world) : Prop :=
  forall item args,
    parentItem d = Some item -> dcls d <> ClsEditDialogChild ->
    getattrs item (pkAttrNames item) = Ok args ->
    emitted (Retrieve d) w = [DataSetRetrieve (dataSet d) args] /\
    rowsOf (snd (Retrieve d w)) (dataSet d) =
      map_seq 0 (query (dataSets w (dataSet d)) args) /\
    (size (rowsOf (snd (Retrieve d w)) (dataSet d)) = 1 ->
       fst (Retrieve d w) = Ok tt) /\
    (size (rowsOf (snd (Retrieve d w)) (dataSet d)) <> 1 ->
       fst (Retrieve d w) = Raise NoDataFound).

(** An [EditDialogChild] opened on an item that holds the data set's
    attributes: no retrieval, one row copied from the item, no error. *)
Definition child_copies_item (d : dialog) (w : world) : Prop :=
  forall item values,
    parentItem d = Some item -> dcls d = ClsEditDialogChild ->
    getattrs item (rowAttrNames (dataSets w (dataSet d))) = Ok values ->
    exists w', Retrieve d w = (Ok tt, w') /\
      emitted (Retrieve d) w = [] /\
      rowsOf w' (dataSet d) =
        {[0 := rowClass (dataSets w (dataSet d)) values]}.

(** **** Sample dialogs *)

Module Samples.

Definition person : Row :=
  {| attrNames := ["id"; "name"; "email"]; pkAttrNames := ["id"];
     attrs := {["id" := VInt 7; "name" := VStr "Bob";
                "email" := VStr "bob@example.org"]} |}.

(** A data set holding [person]; its query finds [person] under key 7. *)
Definition people : DataSet :=
  {| rowAttrNames := ["id"; "name"; "email"]; rowPkAttrNames := ["id"];
     rows := {[0 := person]};
     query := fun args =>
       if bool_decide (args = [VInt 7]) then [person] else [] |}.

(** Field 0 shows "Ann", field 1 is an empty editable text control, and
    every other field is an empty read-only text control. *)
Definition world0 : world :=
  {| fields := fun f =>
       match f with
       | 0 => {| widget := TextCtrl; editable := true;
                 fieldValue := VStr "Ann" |}
       | 1 => {| widget := TextCtrl; editable := true; fieldValue := VNone |}
       | _ => {| widget := TextCtrl; editable := false; fieldValue := VNone |}
       end;
     dataSets := fun _ => people;
     focus := None;
     win := sample ClsDialog true true |}.

Definition nameColumn : Column :=
  {| attrName := "name"; field := 0; required := false |}.

Definition emailColumn : Column :=
  {| attrName := "email"; field := 1; required := true |}.

Definition idColumn : Column :=
  {| attrName := "id"; field := 2; required := true |}.

Definition dialogOf (c : dialogClass) (cols : list Column) : dialog :=
  {| dcls := c; dataSet := 0; columns := cols; pages := [];
     parentItem := Some person; updateCacheMethodName := None |}.

(** A name that was edited, followed by a required email left empty. *)
Definition editPerson : dialog :=
  dialogOf ClsEditDialog [nameColumn; emailColumn].

(** A required id shown in a read-only field that is empty. *)
Definition viewId : dialog := dialogOf ClsEditDialog [idColumn].

(** A read-only required id, then the edited name. *)
Definition renamePerson : dialog :=
  dialogOf ClsEditDialog [idColumn; nameColumn].

(** An [EditDialogChild] on the name. *)
Definition childPerson : dialog :=
  dialogOf ClsEditDialogChild [nameColumn].

(** A dialog opened without a parent item. *)
Definition newPerson : dialog :=
  {| dcls := ClsEditDialog; dataSet := 0; columns := [nameColumn];
     pages := []; parentItem := None; updateCacheMethodName := None |}.

(** A panel on the person's name and email. *)
Definition personPanel : DataEditPanel.panel :=
  {| DataEditPanel.columns := [nameColumn; emailColumn];
     DataEditPanel.dataSet := 0;
     DataEditPanel.updateCacheMethodName := None |}.

End Samples.

End DataEditors.

(** ** ceGUI/DataEditors.py: the data list and its panel *)

Module DataLists.
Import ceDatabase.

(** What [ShowModal] returns. *)
Inductive modalResult := ID_OK | ID_CANCEL.

#[global] Instance modalResult_eq_dec : EqDecision modalResult.
Proof. solve_decision. Defined.

(** An editing window as the list panel meets it: whether it has a method
    [IsEditingCanceled] and what it answers, what [ShowModal] returns, and
    the dialog's data set as it stands when [ShowModal] has returned. *)
Record editWindow := {
  IsEditingCanceled : option bool;
  modal : modalResult;
  dialogDataSet : DataSet
}.

(** A list panel: the name of its edit dialog, whether it sits inside an
    edit dialog, and the window registry ([OpenWindow], by dialog name and
    parent item), which may raise. *)
Record listPanel := {
  editDialogName : option string;
  isPartOfEditDialog : bool;
  windows : string -> option Row -> result editWindow
}.

(** The world of a list panel: the list's data set, the handle of the row
    behind each item, the selected item indexes, and the trace. *)
Record listWorld := {
  listDataSet : DataSet;
  rowHandles : list nat;
  selectedItemIndexes : list nat;
  listTrace : list event
}.

Definition set_listDataSet (v : DataSet) (w : listWorld) : listWorld :=
  {| listDataSet := v; rowHandles := rowHandles w;
     selectedItemIndexes := selectedItemIndexes w;
     listTrace := listTrace w |}.

Definition set_rowHandles (v : list nat) (w : listWorld) : listWorld :=
  {| listDataSet := listDataSet w; rowHandles := v;
     selectedItemIndexes := selectedItemIndexes w;
     listTrace := listTrace w |}.

Definition set_listTrace (v : list event) (w : listWorld) : listWorld :=
  {| listDataSet := listDataSet w; rowHandles := rowHandles w;
     selectedItemIndexes := selectedItemIndexes w;
     listTrace := v |}.

Definition log (e : event) : M listWorld unit :=
  modify (fun w => set_listTrace (listTrace w ++ [e]) w).

(** The rows of the list's data set. *)
Definition listRows (w : listWorld) : gmap nat Row := rows (listDataSet w).

(** *** The list control and its data set, as the panel calls them

    An item of the list is a row object of the list's data set; it is
    referred to by its handle. *)

Module list.

(** [self.list.dataSet.rows[handle]] *)
Definition row (handle : nat) : M listWorld Row :=
  w <- get ;;
  match listRows w !! handle with
  | Some r => ret r
  | None => raise (KeyError handle)
  end.

Definition GetSelectedItemIndexes : M listWorld (list nat) :=
  gets selectedItemIndexes.

(** Modelled from the spec: [List.GetItem] is not part of the two source
    files.  The item at an index is the row of the list's data set stored
    under the handle [rowHandles] gives for the index (as
    [DataListPanel.OnItemActivated] finds it). *)
Definition GetItem (itemIndex : nat) : M listWorld nat :=
  w <- get ;;
  handle <- index (rowHandles w) itemIndex ;;
  row handle ;;
  ret handle.

(** Modelled from the spec: [List.AppendItem] is not part of the two
    source files.  A new row of the list's data set becomes the last item
    of the list; the item is returned. *)
Definition AppendItem : M listWorld nat :=
  w <- get ;;
  let '(handle, ds') := InsertRow (listDataSet w) in
  log (ListAppendItem handle) ;;
  modify (set_listDataSet ds') ;;
  modify (fun w => set_rowHandles (rowHandles w ++ [handle]) w) ;;
  ret handle.

(** [setattr(item, attrName, value)] *)
Definition setattr (item : nat) (attrName : string) (v : value)
  : M listWorld unit :=
  r <- row item ;;
  log (ListSetAttr item attrName v) ;;
  modify (fun w =>
    set_listDataSet
      (set_rows (<[item := ceDatabase.setattr r attrName v]> (listRows w))
         (listDataSet w)) w).

(** [self.list.dataSet.SetValue(handle, attrName, value)] *)
Definition SetValue (handle : nat) (attrName : string) (v : value)
  : M listWorld unit :=
  w <- get ;;
  ds' <- lift_result (ceDatabase.SetValue (listDataSet w) handle attrName v) ;;
  log (ListSetValue handle attrName v) ;;
  modify (set_listDataSet ds').

Definition ClearChanges : M listWorld unit := log ListClearChanges.

Definition Refresh : M listWorld unit := log ListRefresh.

End list.

(** *** class DataListPanel *)

Module DataListPanel.

Definition _UpdateListItem (item : nat) (row : Row) (itemIndex : option nat)
  : M listWorld unit :=
  itemRow <- list.row item ;;
  for_each (attrNames itemRow) (fun attrName =>
    if negb (hasattr row attrName) then ret tt
    else
      value <- lift_result (getattr row attrName) ;;
      match itemIndex with
      | None => list.setattr item attrName value
      | Some itemIndex =>
          w <- get ;;
          handle <- index (rowHandles w) itemIndex ;;
          list.SetValue handle attrName value
      end).

(** [dialog.dataSet.rows[0]] *)
Definition dialogRow {S} (dialog : editWindow) : M S Row :=
  match rows (dialogDataSet dialog) !! 0 with
  | Some r => ret r
  | None => raise (KeyError 0)
  end.

Definition _OnEditItem (self : listPanel) (item itemIndex : nat)
    (dialog : editWindow) : M listWorld unit :=
  row <- dialogRow dialog ;;
  _UpdateListItem item row (Some itemIndex) ;;
  when (negb (isPartOfEditDialog self)) list.ClearChanges ;;
  list.Refresh.

Definition _OnInsertItems (self : listPanel) (dialog : editWindow)
  : M listWorld unit :=
  row <- dialogRow dialog ;;
  item <- list.AppendItem ;;
  _UpdateListItem item row None ;;
  when (negb (isPartOfEditDialog self)) list.ClearChanges ;;
  list.Refresh.

Definition GetEditWindow (self : listPanel) (item : option nat)
  : M listWorld (option editWindow) :=
  match editDialogName self with
  | Some name =>
      parentItem <- match item with
                    | Some handle => r <- list.row handle ;; ret (Some r)
                    | None => ret None
                    end ;;
      log (OpenWindow name) ;;
      dialog <- lift_result (windows self name parentItem) ;;
      ret (Some dialog)
  | None => ret None
  end.

Definition EditItem (self : listPanel) (item itemIndex : nat)
  : M listWorld unit :=
  dialog <- GetEditWindow self (Some item) ;;
  match dialog with
  | None => ret tt
  | Some dialog =>
      log ShowModal ;;
      when (bool_decide (modal dialog = ID_OK))
        (_OnEditItem self item itemIndex dialog) ;;
      log Destroy
  end.

Definition InsertItems (self : listPanel) : M listWorld unit :=
  dialog <- GetEditWindow self None ;;
  match dialog with
  | None => ret tt
  | Some dialog =>
      when (match IsEditingCanceled dialog with
            | None => true
            | Some canceled => negb canceled
            end)
        (log ShowModal ;;
         when (bool_decide (modal dialog = ID_OK))
           (_OnInsertItems self dialog)) ;;
      log Destroy
  end.

End DataListPanel.

(** *** class DataList *)

Module DataList.

Definition CanEditItem (parent : listPanel) (item : nat) : bool :=
  match editDialogName parent with Some _ => true | None => false end.

Definition OnEditItem (parent : listPanel) (item itemIndex : nat)
  : M listWorld unit :=
  DataListPanel.EditItem parent item itemIndex.

Definition _OnEditItem (parent : listPanel) : M listWorld unit :=
  itemIndexes <- list.GetSelectedItemIndexes ;;
  when (bool_decide (length itemIndexes = 1))
    (itemIndex <- index itemIndexes 0 ;;
     item <- list.GetItem itemIndex ;;
     when (CanEditItem parent item) (OnEditItem parent item itemIndex)).

End DataList.

(** One round of the loop of [_UpdateListItem]. *)
Definition updateAttr (item : nat) (row : Row) (itemIndex : option nat)
    (attrName : string) : M listWorld unit :=
  if negb (hasattr row attrName) then ret tt
  else
    value <- lift_result (getattr row attrName) ;;
    match itemIndex with
    | None => list.setattr item attrName value
    | Some itemIndex =>
        w <- get ;;
        handle <- index (rowHandles w) itemIndex ;;
        list.SetValue handle attrName value
    end.

(** The item index, when there is one, is that of the item. *)
Definition indexOf (w : listWorld) (item : nat) (itemIndex : option nat) : Prop :=
  match itemIndex with
  | Some i => rowHandles w !! i = Some item
  | None => True
  end.

(** The list world with one more event in its trace. *)
Definition emit (e : event) (w : listWorld) : listWorld :=
  set_listTrace (listTrace w ++ [e]) w.

(** The list world with row [r] stored under [handle]. *)
Definition store (handle : nat) (r : Row) (w : listWorld) : listWorld :=
  set_listDataSet (set_rows (<[handle := r]> (listRows w)) (listDataSet w)) w.

(** The events a computation adds to the trace of a list world. *)
Definition emitted {A} (m : M listWorld A) (w : listWorld) : list event :=
  drop (length (listTrace w)) (listTrace (snd (m w))).

(** **** Merging a row into an item, described on rows *)

(** One attribute of the item taken from the row, when the row has it. *)
Definition mergeAttr (row acc : Row) (a : string) : Row :=
  match attrs row !! a with
  | Some v => setattr acc a v
  | None => acc
  end.

(** The item after every attribute it carries was taken from the row. *)
Definition mergedRow (row itemRow : Row) : Row :=
  foldl (mergeAttr row) itemRow (attrNames itemRow).

(** The row [itemRow'] holds, for every attribute the item carries and
    the row has, the row's value, and is otherwise as [itemRow]. *)
Definition merged (row itemRow itemRow' : Row) : Prop :=
  (forall a v, In a (attrNames itemRow) -> attrs row !! a = Some v ->
     attrs itemRow' !! a = Some v) /\
  (forall a, ~ In a (attrNames itemRow) \/ attrs row !! a = None ->
     attrs itemRow' !! a = attrs itemRow !! a).

(** **** Insert and edit on a list panel *)

(** The edit of the item [item] at index [itemIndex], confirmed: the row
    of the dialog is merged into the item's row in the list's data set,
    no other row changes, and the list is refreshed before the dialog is
    destroyed. *)
Definition edit_merges (self : listPanel) (w : listWorld)
    (item itemIndex : nat) : Prop :=
  forall name itemRow dialog row,
    editDialogName self = Some name ->
    rowHandles w !! itemIndex = Some item ->
    listRows w !! item = Some itemRow ->
    windows self name (Some itemRow) = Ok dialog ->
    modal dialog = ID_OK ->
    rows (dialogDataSet dialog) !! 0 = Some row ->
    exists w' itemRow',
      DataListPanel.EditItem self item itemIndex w = (Ok tt, w') /\
      listRows w' !! item = Some itemRow' /\
      merged row itemRow itemRow' /\
      (forall h, h <> item -> listRows w' !! h = listRows w !! h) /\
      rowHandles w' = rowHandles w /\
      exists t, emitted (DataListPanel.EditItem self item itemIndex) w =
                  t ++ [ListRefresh; Destroy].

(** The edit, not confirmed: the list's data set and its items are as
    before, and the list is not refreshed. *)
Definition edit_cancelled (self : listPanel) (w : listWorld)
    (item itemIndex : nat) : Prop :=
  forall name itemRow dialog,
    editDialogName self = Some name ->
    listRows w !! item = Some itemRow ->
    windows self name (Some itemRow) = Ok dialog ->
    modal dialog <> ID_OK ->
    exists w',
      DataListPanel.EditItem self item itemIndex w = (Ok tt, w') /\
      listDataSet w' = listDataSet w /\
      rowHandles w' = rowHandles w /\
      emitted (DataListPanel.EditItem self item itemIndex) w =
        [OpenWindow name; ShowModal; Destroy].

(** The insert, confirmed: a new row of the list's data set becomes the
    last item, the row of the dialog is merged into it, no other row
    changes, and the list is refreshed. *)
Definition insert_merges (self : listPanel) (w : listWorld) : Prop :=
  forall name dialog row,
    editDialogName self = Some name ->
    windows self name None = Ok dialog ->
    IsEditingCanceled dialog <> Some true ->
    modal dialog = ID_OK ->
    rows (dialogDataSet dialog) !! 0 = Some row ->
    exists w' handle itemRow',
      DataListPanel.InsertItems self w = (Ok tt, w') /\
      listRows w !! handle = None /\
      rowHandles w' = rowHandles w ++ [handle] /\
      listRows w' !! handle = Some itemRow' /\
      merged row
        (rowClass (listDataSet w)
           (List.map (fun _ => VNone) (rowAttrNames (listDataSet w))))
        itemRow' /\
      (forall h, h <> handle -> listRows w' !! h = listRows w !! h) /\
      exists t, emitted (DataListPanel.InsertItems self) w =
                  t ++ [ListRefresh; Destroy].

(** The insert, not confirmed (editing cancelled before the dialog is
    shown, or the dialog not closed with OK): the list's data set and its
    items are as before, and the list is not refreshed. *)
Definition insert_cancelled (self : listPanel) (w : listWorld) : Prop :=
  forall name dialog,
    editDialogName self = Some name ->
    windows self name None = Ok dialog ->
    IsEditingCanceled dialog = Some true \/ modal dialog <> ID_OK ->
    exists w',
      DataListPanel.InsertItems self w = (Ok tt, w') /\
      listDataSet w' = listDataSet w /\
      rowHandles w' = rowHandles w /\
      ~ In ListRefresh (emitted (DataListPanel.InsertItems self) w).

(** **** The edit action of the list *)

(** Unless exactly one item is selected the edit action returns with the
    world as it was: no window was opened, nothing changed. *)
Definition edit_needs_one_selected (parent : listPanel) (w : listWorld)
  : Prop :=
  length (selectedItemIndexes w) <> 1 ->
  DataList._OnEditItem parent w = (Ok tt, w).

(** With exactly one item selected the read of the first selected index
    succeeds, and the action goes on with that index. *)
Definition selected_index_is_safe (parent : listPanel) (w : listWorld)
  : Prop :=
  length (selectedItemIndexes w) = 1 ->
  exists itemIndex,
    selectedItemIndexes w = [itemIndex] /\
    index (selectedItemIndexes w) 0 w = (Ok itemIndex, w) /\
    DataList._OnEditItem parent w =
      (item <- list.GetItem itemIndex ;;
       when (DataList.CanEditItem parent item)
         (DataList.OnEditItem parent item itemIndex)) w.

(** **** A sample list *)

Module Samples.

Definition ann : Row :=
  {| attrNames := ["id"; "name"]; pkAttrNames := ["id"];
     attrs := {["id" := VInt 1; "name" := VStr "Ann"]} |}.

Definition bob : Row :=
  {| attrNames := ["id"; "name"]; pkAttrNames := ["id"];
     attrs := {["id" := VInt 2; "name" := VStr "Bob"]} |}.

(** The row an edit dialog leaves: Bob renamed, with one attribute more
    than the list's items carry. *)
Definition robert : Row :=
  {| attrNames := ["id"; "name"; "email"]; pkAttrNames := ["id"];
     attrs := {["id" := VInt 2; "name" := VStr "Robert";
                "email" := VStr "rob@example.org"]} |}.

Definition listOf (rs : list Row) : DataSet :=
  {| rowAttrNames := ["id"; "name"]; rowPkAttrNames := ["id"];
     rows := map_seq 0 rs; query := fun _ => rs |}.

(** A dialog that ends with [result] and holds [robert]. *)
Definition dialogEnding (result : modalResult) : editWindow :=
  {| IsEditingCanceled := None; modal := result;
     dialogDataSet := listOf [robert] |}.

Definition panelWith (result : modalResult) : listPanel :=
  {| editDialogName := Some "EditPerson"; isPartOfEditDialog := false;
     windows := fun _ _ => Ok (dialogEnding result) |}.

(** A list of two items with the given selection. *)
Definition listWith (selection : list nat) : listWorld :=
  {| listDataSet := listOf [ann; bob]; rowHandles := [0; 1];
     selectedItemIndexes := selection; listTrace := [] |}.

End Samples.

End DataLists.

(** ** Laying out labelled fields: [BaseContainer.CreateFieldLayout] and
    the layout hooks of the editing windows *)

Module FieldLayout.

(** The toolkit's flag and orientation words. *)
Definition ALIGN_CENTER_VERTICAL : Z := 0x0800.
Definition EXPAND : Z := 0x2000.
Definition ALL : Z := 0x00F0.
Definition RIGHT : Z := 0x0020.
Definition HORIZONTAL : Z := 0x0004.
Definition VERTICAL : Z := 0x0008.

(** A control is known by its identity. *)
Definition control := nat.

(** A horizontal or vertical box of controls: its orientation and the
    controls added, each with its proportion, flag and border. *)
Record ControlBox := {
  boxOrient : Z;
  boxControls : list (control * Z * Z * Z)
}.

(** What [Add] puts into a grid sizer: a control, or a box of controls. *)
Inductive item :=
| Window (c : control)
| Sizer (s : ControlBox).

(** A grid sizer as these methods build it: its construction arguments,
    its growable columns and the items added, each with its flag. *)
Record FlexGridSizer := {
  rows : Z;
  cols : Z;
  vgap : Z;
  hgap : Z;
  growableCols : list Z;
  children : list (item * Z)
}.

Definition newFlexGridSizer (rows cols vgap hgap : Z) : FlexGridSizer :=
  {| rows := rows; cols := cols; vgap := vgap; hgap := hgap;
     growableCols := []; children := [] |}.

Definition AddGrowableCol (idx : Z) (sizer : FlexGridSizer) : FlexGridSizer :=
  {| rows := rows sizer; cols := cols sizer; vgap := vgap sizer;
     hgap := hgap sizer; growableCols := growableCols sizer ++ [idx];
     children := children sizer |}.

Definition Add (i : item) (flag : Z) (sizer : FlexGridSizer)
  : FlexGridSizer :=
  {| rows := rows sizer; cols := cols sizer; vgap := vgap sizer;
     hgap := hgap sizer; growableCols := growableCols sizer;
     children := children sizer ++ [(i, flag)] |}.

(** A box sizer holding grids: its orientation and the grids added, each
    with its flag and border. *)
Record BoxSizer := {
  orient : Z;
  boxChildren : list (FlexGridSizer * Z * Z)
}.

(** [enumerate], counting from [n]. *)
Fixpoint enumerate_from {A} (n : Z) (l : list A) : list (Z * A) :=
  match l with
  | [] => []
  | x :: l => (n, x) :: enumerate_from (n + 1) l
  end.

Definition enumerate {A} (l : list A) : list (Z * A) := enumerate_from 0 l.

(** [BaseContainer.CreateFieldLayout]; the division is that of integers. *)
Definition CreateFieldLayout (controls : list control) : FlexGridSizer :=
  let numRows := (Z.of_nat (length controls) / 2)%Z in
  let sizer := newFlexGridSizer numRows 2 5 5 in
  let sizer := AddGrowableCol 1 sizer in
  fold_left
    (fun sizer '(index, control) =>
       let flag := ALIGN_CENTER_VERTICAL in
       let flag := if (index mod 2 =? 1)%Z then Z.lor flag EXPAND else flag in
       Add (Window control) flag sizer)
    (enumerate controls) sizer.

(** The classes of a column of an edit dialog, by the [Layout] they run:
    that of [EditDialogColumn], or that of [FileNameEditDialogColumn],
    which [DirNameEditDialogColumn] inherits. *)
Inductive columnClass := ClsEditDialogColumn | ClsFileNameEditDialogColumn.

#[global] Instance columnClass_eq_dec : EqDecision columnClass.
Proof. solve_decision. Defined.

(** The controls of a column: its label and its field, and for a file
    name column its button. *)
Record Column := {
  ccls : columnClass;
  label : control;
  field : control;
  button : control
}.

Module EditDialogColumn.

Definition Layout (self : Column) (sizer : FlexGridSizer) : FlexGridSizer :=
  let sizer := Add (Window (label self)) ALIGN_CENTER_VERTICAL sizer in
  Add (Window (field self)) (Z.lor ALIGN_CENTER_VERTICAL EXPAND) sizer.

End EditDialogColumn.

Module FileNameEditDialogColumn.

Definition Layout (self : Column) (sizer : FlexGridSizer) : FlexGridSizer :=
  let fileNameSizer :=
    {| boxOrient := HORIZONTAL;
       boxControls :=
         [(field self, 1%Z,
           Z.lor (Z.lor ALIGN_CENTER_VERTICAL EXPAND) RIGHT, 5%Z);
          (button self, 0%Z, ALIGN_CENTER_VERTICAL, 0%Z)] |} in
  let sizer := Add (Window (label self)) ALIGN_CENTER_VERTICAL sizer in
  Add (Sizer fileNameSizer) (Z.lor ALIGN_CENTER_VERTICAL EXPAND) sizer.

End FileNameEditDialogColumn.

(** [column.Layout(sizer)], by the class of the column. *)
Definition Layout (self : Column) (sizer : FlexGridSizer) : FlexGridSizer :=
  match ccls self with
  | ClsEditDialogColumn => EditDialogColumn.Layout self sizer
  | ClsFileNameEditDialogColumn => FileNameEditDialogColumn.Layout self sizer
  end.

(** [EditDialog.GetFieldsSizer] and [EditDialog.OnLayout];
    [DataEditPanel] defines both by the same code. *)
Module EditDialog.

Definition GetFieldsSizer (columns : list Column) : FlexGridSizer :=
  let sizer := newFlexGridSizer (Z.of_nat (length columns)) 2 5 5 in
  AddGrowableCol 1 sizer.

Definition OnLayout (columns : list Column) : BoxSizer :=
  let fieldsSizer := GetFieldsSizer columns in
  let fieldsSizer :=
    fold_left (fun sizer column => Layout column sizer)
      columns fieldsSizer in
  {| orient := VERTICAL;
     boxChildren := [(fieldsSizer, Z.lor ALL EXPAND, 5%Z)] |}.

End EditDialog.

(** The labels and fields of the columns, as the arguments of
    [CreateFieldLayout]: label, field, label, field, ... *)
Definition controlsOf (columns : list Column) : list control :=
  flat_map (fun c => [label c; field c]) columns.

(** What a column puts in the second cell of its row: its field, or for
    a file name column the box of its field and its button. *)
Definition fieldCell (c : Column) : item :=
  match ccls c with
  | ClsEditDialogColumn => Window (field c)
  | ClsFileNameEditDialogColumn =>
      Sizer {| boxOrient := HORIZONTAL;
               boxControls :=
                 [(field c, 1%Z,
                   Z.lor (Z.lor ALIGN_CENTER_VERTICAL EXPAND) RIGHT, 5%Z);
                  (button c, 0%Z, ALIGN_CENTER_VERTICAL, 0%Z)] |}
  end.

(** The two cells of each column, row by row. *)
Definition cellsOf (columns : list Column) : list (item * Z) :=
  flat_map (fun c =>
              [(Window (label c), ALIGN_CENTER_VERTICAL);
               (fieldCell c, Z.lor ALIGN_CENTER_VERTICAL EXPAND)]) columns.

(** Does a flag word hold all bits of another. *)
Definition hasFlag (flag bits : Z) : bool := (Z.land flag bits =? bits)%Z.

End FieldLayout.

(** ** ceGUI/DataEditors.py: the other actions of a data list *)

Module DataListActions.
Import ceDatabase DataLists.

(** What the confirmation prompt returns. *)
Inductive answer := ID_YES | ID_NO.

#[global] Instance answer_eq_dec : EqDecision answer.
Proof. solve_decision. Defined.

(** *** class DataListPanel *)

Module DataListPanel.

(** [OnItemActivated]; [itemIndex] is the index the event carries. *)
Definition OnItemActivated (self : listPanel) (itemIndex : nat)
  : M listWorld unit :=
  w <- get ;;
  handle <- index (rowHandles w) itemIndex ;;
  list.row handle ;;
  DataLists.DataListPanel.EditItem self handle itemIndex.

Section DeleteItems.

(** [List.DeleteItem(itemIndex, refresh = False)] and the [Update()] of
    the list's data set are defined outside the two source files;
    [response] is what the confirmation prompt answers. *)
Variable list_DeleteItem : nat -> M listWorld unit.
Variable dataSet_Update : M listWorld unit.
Variable response : answer.

(** [DeleteItems]: the selected indexes are read once, before the loop,
    and gone through last to first. *)
Definition DeleteItems (self : listPanel) (items : list nat)
  : M listWorld unit :=
  let delete :=
    itemIndexes <- list.GetSelectedItemIndexes ;;
    for_each (rev itemIndexes) list_DeleteItem ;;
    when (negb (isPartOfEditDialog self)) dataSet_Update ;;
    list.Refresh in
  if negb (isPartOfEditDialog self) then
    log ShowModal ;;
    log Destroy ;;
    if bool_decide (response <> ID_YES) then ret tt else delete
  else delete.

End DeleteItems.

End DataListPanel.

(** *** class DataList *)

Module DataList.

Definition CanDeleteItems (items : list nat) : bool := true.

Definition CanInsertItems (parent : listPanel) : bool :=
  match editDialogName parent with Some _ => true | None => false end.

Definition CanRefreshItems (parent : listPanel) : bool :=
  negb (isPartOfEditDialog parent).

(** The enabled state of the four entries of the context menu. *)
Record menuEntries := {
  refreshMenuItem : bool;
  insertMenuItem : bool;
  deleteMenuItem : bool;
  editMenuItem : bool
}.

(** [OnContextMenu], by the state in which the menu pops up; [items] is
    what [GetSelectedItems] returned. *)
Definition OnContextMenu (parent : listPanel) (items : list nat)
  : menuEntries :=
  let deleteEnabled := (0 <? length items)%nat && CanDeleteItems items in
  let editEnabled :=
    (length items =? 1)%nat &&
    match items with
    | item :: _ => DataLists.DataList.CanEditItem parent item
    | [] => false
    end in
  {| refreshMenuItem := CanRefreshItems parent;
     insertMenuItem := CanInsertItems parent;
     deleteMenuItem := deleteEnabled;
     editMenuItem := editEnabled |}.

Definition OnInsertItems (parent : listPanel) : M listWorld unit :=
  DataLists.DataListPanel.InsertItems parent.

Definition _OnInsertItems (parent : listPanel) : M listWorld unit :=
  when (CanInsertItems parent) (OnInsertItems parent).

Section ListControl.

(** [List.GetItem(itemIndex)], [List.GetSelectedItems()] and
    [List.Retrieve()] are defined outside the two source files, as are
    the two methods [DeleteItems] calls. *)
Variable list_GetItem : nat -> M listWorld nat.
Variable list_GetSelectedItems : M listWorld (list nat).
Variable list_Retrieve : M listWorld unit.
Variable list_DeleteItem : nat -> M listWorld unit.
Variable dataSet_Update : M listWorld unit.
Variable response : answer.

(** [_OnEditItem], with [List.GetItem] left open. *)
Definition _OnEditItem (parent : listPanel) : M listWorld unit :=
  itemIndexes <- list.GetSelectedItemIndexes ;;
  when (bool_decide (length itemIndexes = 1))
    (itemIndex <- index itemIndexes 0 ;;
     item <- list_GetItem itemIndex ;;
     when (DataLists.DataList.CanEditItem parent item)
       (DataLists.DataList.OnEditItem parent item itemIndex)).

Definition OnRefresh : M listWorld unit := list_Retrieve.

Definition _OnRefresh (parent : listPanel) : M listWorld unit :=
  when (CanRefreshItems parent) OnRefresh.

Definition OnDeleteItems (parent : listPanel) (items : list nat)
  : M listWorld unit :=
  DataListPanel.DeleteItems list_DeleteItem dataSet_Update response
    parent items.

Definition _OnDeleteItems (parent : listPanel) : M listWorld unit :=
  items <- list_GetSelectedItems ;;
  when (CanDeleteItems items) (OnDeleteItems parent items).

End ListControl.

End DataList.

(** The items left when those at the selected positions are taken out,
    positions counted from [k]. *)
Fixpoint keep_from (k : nat) (sel : list nat) (l : list nat) : list nat :=
  match l with
  | [] => []
  | h :: l' =>
      if bool_decide (k ∈ sel) then keep_from (S k) sel l'
      else h :: keep_from (S k) sel l'
  end.

Definition unselected (sel l : list nat) : list nat := keep_from 0 sel l.

(** What is assumed of [List.GetItem]: at an index of the list, behind
    which the data set holds a row, it returns the item (the row, known
    by its handle) and changes nothing. *)
Definition gets_item (list_GetItem : nat -> M listWorld nat) : Prop :=
  forall i handle w,
    rowHandles w !! i = Some handle -> is_Some (listRows w !! handle) ->
    list_GetItem i w = (Ok handle, w).

(** What is assumed of [List.DeleteItem]: at an index of the list it
    returns, and the item at that index is gone from the list. *)
Definition deletes_item (list_DeleteItem : nat -> M listWorld unit) : Prop :=
  forall i w, i < length (rowHandles w) ->
    exists w', list_DeleteItem i w = (Ok tt, w') /\
      rowHandles w' = delete i (rowHandles w).

(** What is assumed of the data set's [Update]: it returns and leaves
    the items of the list alone. *)
Definition keeps_items (dataSet_Update : M listWorld unit) : Prop :=
  forall w, exists w', dataSet_Update w = (Ok tt, w') /\
    rowHandles w' = rowHandles w.

(** **** Samples *)

(** A [DeleteItem] that takes the item out of the list and nothing more. *)
Definition dropItem (i : nat) : M listWorld unit :=
  modify (fun w => set_rowHandles (delete i (rowHandles w)) w).

(** A list of five items of which the second and the fourth are
    selected. *)
Definition fiveItems : listWorld :=
  {| listDataSet := Samples.listOf [];
     rowHandles := [10; 11; 12; 13; 14];
     selectedItemIndexes := [1; 3]; listTrace := [] |}.

End DataListActions.

(** ** ceGUI/DataEditors.py: opening an edit dialog, and refresh and
    commit taken together *)

Module EditWindows.
Import ContainerControls ceDatabase DataEditors.

Module EditDialog.

(** [EditDialog.__init__]: the constructor of [EditDialogBase] (the
    retrieval, then the constructor of the window, whose create hook adds
    the columns), then every column is set from row 0 and the first
    editable field takes the focus. *)
Definition __init__ (addButtonRow : Z * Z -> Z * Z) (self : dialog)
  : M world unit :=
  DataEditors.__init__ addButtonRow self ;;
  row <- EditDialogBase.GetRow self ;;
  focusField <- setValues (columns self) row ;;
  match focusField with
  | Some f => field.SetFocus f
  | None => ret tt
  end.

End EditDialog.

(** The columns a refresh from [row] gets through: those before the
    first one whose attribute the row does not hold. *)
Fixpoint reached (row : Row) (cols : list Column) : list Column :=
  match cols with
  | [] => []
  | c :: cols' =>
      match attrs row !! attrName c with
      | Some _ => c :: reached row cols'
      | None => []
      end
  end.

(** The attribute the refresh stops at. *)
Fixpoint missing (row : Row) (cols : list Column) : option string :=
  match cols with
  | [] => None
  | c :: cols' =>
      match attrs row !! attrName c with
      | Some _ => missing row cols'
      | None => Some (attrName c)
      end
  end.

(** The value the last column bound to field [f] sets on it. *)
Fixpoint lastShown (row : Row) (cols : list Column) (f : nat)
  : option value :=
  match cols with
  | [] => None
  | c :: cols' =>
      match lastShown row cols' f with
      | Some v => Some v
      | None =>
          if bool_decide (field c = f) then attrs row !! attrName c
          else None
      end
  end.

(** Two worlds show the same: the same widgets, the same focus, the same
    data sets. *)
Definition sameView (w w' : world) : Prop :=
  (forall f, fields w' f = fields w f) /\
  focus w' = focus w /\
  dataSets w' = dataSets w.

(** Every editable column of the list shows what row 0 of the data set
    holds under its attribute. *)
Definition inSync (w : world) (bs : list binding) : Prop :=
  forall b, In b bs -> editableIn w (fst b) = true ->
    exists row, rowsOf w (snd b) !! 0 = Some row /\
      attrs row !! attrName (fst b) = Some (valueIn w (fst b)).

(** A dialog opened on an item the sample query does not find. *)
Definition stranger : Row :=
  {| attrNames := ["id"]; pkAttrNames := ["id"];
     attrs := {["id" := VInt 8]} |}.

Definition editStranger : dialog :=
  {| dcls := ClsEditDialog; dataSet := 0; columns := [Samples.nameColumn];
     pages := []; parentItem := Some stranger;
     updateCacheMethodName := None |}.

End EditWindows.

(** ** ceGUI/DataEditors.py: the file name column *)

Module FileNames.
Import DataLists.

(** [s.endswith(suffix)] *)
Definition endswith (s suffix : string) : bool :=
  (String.length suffix <=? String.length s)%nat &&
  String.eqb
    (String.substring (String.length s - String.length suffix)
       (String.length suffix) s)
    suffix.

Module FileNameEditDialogColumn.

Section OnSelectFileName.

(** [os.path.normcase] and [os.path.split], and the file dialog: what
    [ShowModal] and [GetPath] return for the wildcard, the default
    directory and the default file the dialog is created with. *)
Variable normcase : string -> string.
Variable split : string -> string * string.
Variable FileDialog : string -> string -> string -> modalResult * string.

Definition GetDefaultDirAndFileName (currentValue : option string)
  : string * string :=
  match currentValue with
  | None => ("", "")
  | Some v => split v
  end.

(** [OnSelectFileName], over the value of the column's field (a string
    or [None]); [extension] is the class attribute. *)
Definition OnSelectFileName (extension : option string)
  : M (option string) unit :=
  currentValue <- get ;;
  let '(dir, fileName) := GetDefaultDirAndFileName currentValue in
  let wildcard :=
    match extension with
    | Some e => String.append "*" e
    | None => "*.*"
    end in
  let '(result, path) := FileDialog wildcard dir fileName in
  when (bool_decide (result = ID_OK))
    (let fileName := path in
     let fileName :=
       match extension with
       | Some e =>
           let normalizedFileName := normcase fileName in
           if negb (endswith normalizedFileName e)
           then String.append fileName e
           else fileName
       | None => fileName
       end in
     modify (fun _ => Some fileName)).

End OnSelectFileName.

End FileNameEditDialogColumn.

(** A file dialog in which the user picks "/tmp/notes" and confirms. *)
Definition picksNotes (wildcard dir file : string) : modalResult * string :=
  (ID_OK, "/tmp/notes").

(** A split that is good enough to open the dialog somewhere. *)
Definition noSplit (path : string) : string * string := ("", path).

End FileNames.

(** ** ceGUI/DataEditors.py: retrieval in a grid edit window and its
    sub-windows *)

Module GridWindows.
Import ceDatabase.

(** The calls a retrieval makes outside the two source files: the
    question whether to go on ([ContinueQuery], a method of the frame),
    the retrieval of the grid with its arguments, and the retrieve hook. *)
Inductive gridEvent :=
| ContinueQuery (window : nat)
| GridRetrieve (window : nat) (args : list value)
| OnRetrieve (window : nat).

#[global] Instance gridEvent_eq_dec : EqDecision gridEvent.
Proof. solve_decision. Defined.

(** A grid edit window: its identity, the names [retrievalAttrNames]
    splits into, the row its grid reports as current, and for each of its
    sub-windows the window it holds ([None] when [subWindow.window] is
    not true: never opened, or gone). *)
#[warnings="-register-all"] Inductive gridWindow :=
| GridWindow (id : nat) (retrievalAttrNames : option (list string))
    (currentRow : Row) (subWindows : list (option gridWindow)).

Definition windowId (self : gridWindow) : nat :=
  match self with GridWindow id _ _ _ => id end.

Definition log (e : gridEvent) : M (list gridEvent) unit :=
  modify (fun t => t ++ [e]).

Module GridEditWindow.

(** [GetRetrievalArgs]; [parentRow] is [self.GetParent().GetCurrentRow()]. *)
Definition GetRetrievalArgs (retrievalAttrNames : option (list string))
    (parentRow : Row) : result (list value) :=
  match retrievalAttrNames with
  | None => Ok []
  | Some names => getattrs parentRow names
  end.

Section Retrieve.

(** What [ContinueQuery] answers for a window. *)
Variable continues : nat -> bool.

(** [Retrieve], with the loop of [RetrieveSubWindows] inside. *)
Fixpoint Retrieve (parentRow : Row) (self : gridWindow)
    (continueQuery : bool) {struct self} : M (list gridEvent) unit :=
  match self with
  | GridWindow id names row subWindows =>
      stop <- (if continueQuery
               then log (ContinueQuery id) ;; ret (negb (continues id))
               else ret false) ;;
      if (stop : bool) then ret tt
      else
        args <- lift_result (GetRetrievalArgs names parentRow) ;;
        log (GridRetrieve id args) ;;
        (fix RetrieveSubWindows (subWindows : list (option gridWindow))
           : M (list gridEvent) unit :=
           match subWindows with
           | [] => ret tt
           | window :: rest =>
               match window with
               | None => ret tt
               | Some window => Retrieve row window false
               end ;;
               RetrieveSubWindows rest
           end) subWindows ;;
        log (OnRetrieve id)
  end.

(** [RetrieveSubWindows] *)
Definition RetrieveSubWindows (self : gridWindow) : M (list gridEvent) unit :=
  match self with
  | GridWindow _ _ row subWindows =>
      for_each subWindows (fun window =>
        match window with
        | None => ret tt
        | Some window => Retrieve row window false
        end)
  end.

End Retrieve.

End GridEditWindow.

(** The windows open under the sub-windows of a window. *)
Definition under {A} (f : gridWindow -> list A)
    (subWindows : list (option gridWindow)) : list A :=
  flat_map (fun window =>
              match window with
              | Some window => f window
              | None => []
              end) subWindows.

(** The windows open under a window, itself first, each before the
    windows under it. *)
Fixpoint openWindows (self : gridWindow) : list nat :=
  match self with
  | GridWindow id _ _ subWindows => id :: under openWindows subWindows
  end.

(** The same windows, each after the windows under it. *)
Fixpoint closingOrder (self : gridWindow) : list nat :=
  match self with
  | GridWindow id _ _ subWindows => under closingOrder subWindows ++ [id]
  end.

(** Every open window under [self] finds its retrieval attributes in the
    current row of its parent. *)
Fixpoint retrievable (parentRow : Row) (self : gridWindow) : Prop :=
  match self with
  | GridWindow _ names row subWindows =>
      (exists args,
         GridEditWindow.GetRetrievalArgs names parentRow = Ok args) /\
      fold_right (fun window rest =>
                    match window with
                    | Some window => retrievable row window /\ rest
                    | None => rest
                    end) True subWindows
  end.

(** The windows whose grid a trace retrieves, in order. *)
Definition retrieved (t : list gridEvent) : list nat :=
  flat_map (fun e => match e with GridRetrieve w _ => [w] | _ => [] end) t.

(** The windows a trace asks about. *)
Definition asked (t : list gridEvent) : list nat :=
  flat_map (fun e => match e with ContinueQuery w => [w] | _ => [] end) t.

(** The windows whose retrieve hook a trace runs. *)
Definition hooked (t : list gridEvent) : list nat :=
  flat_map (fun e => match e with OnRetrieve w => [w] | _ => [] end) t.

(** A computation adds events to the trace, none of them the question
    whether to go on. *)
Definition silent {A} (m : M (list gridEvent) A) : Prop :=
  forall t, exists d, snd (m t) = t ++ d /\ asked d = [].

(** A window with two sub-windows, the first of which is open and has an
    open sub-window of its own. *)
Definition orders : gridWindow :=
  GridWindow 1 None
    {| attrNames := ["id"]; pkAttrNames := ["id"];
       attrs := {["id" := VInt 7]} |}
    [Some (GridWindow 2 (Some ["id"])
             {| attrNames := ["line"]; pkAttrNames := ["line"];
                attrs := {["line" := VInt 3]} |}
             [Some (GridWindow 3 (Some ["line"])
                      {| attrNames := []; pkAttrNames := [];
                         attrs := ∅ |} [])]);
     None].

End GridWindows.

(* ===================================================================== *)
(** * Part II: properties                                                 *)
(* ===================================================================== *)

Module ContainerControlsProps.
Import ContainerControls.

Lemma filter_snoc (f : event -> bool) (t : list event) (e : event) :
  List.filter f (t ++ [e]) = List.filter f t ++ (if f e then [e] else []).
Proof. rewrite List.filter_app. reflexivity. Qed.

(** Evaluate the monad, the toolkit and the record plumbing; the methods
    of the container classes stay folded. *)
Ltac run_term t :=
  eval cbv [BaseControl.ReadSetting BaseControl.WriteSetting
       BaseControl._Initialize
       wx.SetMinSize wx.SetSize wx.SetPosition wx.GetSizeTuple
       wx.GetPositionTuple wx.SizerFit wx.BindCloseHandler
       log bind ret get gets modify when
       set_trace set_sizeTuple set_positionTuple set_closeHandler
       set_settings moved
       cls saveSize savePosition bindClose minSize createOkButton
       createCancelButton hasToolbar hasMenus settingsName topSizer
       sizeTuple positionTuple closeHandler settings trace snd fst] in t.

Ltac run :=
  match goal with
  | |- exists w', ?m ?w = _ /\ _ =>
      let t := run_term (m w) in change (m w) with t
  end.

Ltac fields :=
  cbn [cls saveSize savePosition bindClose minSize createOkButton
       createCancelButton hasToolbar hasMenus settingsName topSizer
       sizeTuple positionTuple closeHandler settings trace].

Ltac lists :=
  unfold lifecycle; fields; rewrite ?filter_snoc; cbn [is_lifecycle];
  rewrite <- ?app_assoc; cbn [app opt orb]; rewrite ?app_nil_r.

Ltac same_class H :=
  unfold classOf in *; fields; cbn [cls saveSize savePosition bindClose
    minSize createOkButton createCancelButton hasToolbar hasMenus
    settingsName topSizer] in H; exact H.

(** Geometry restore returns, adds its reads and its hook, and leaves the
    stored geometry in the window. *)
Lemma restore_settings_spec (w : window) :
  exists w', BaseContainer._RestoreSettings w = (Ok tt, w') /\
    lifecycle (trace w') = lifecycle (trace w) ++
      opt (saveSize w) [Trace.ReadSetting "Size"] ++
      opt (savePosition w) [Trace.ReadSetting "Position"] ++
      [Hook RestoreSettings] /\
    closeHandler w' = closeHandler w /\
    settings w' = settings w /\
    classOf w' = classOf w /\
    geometry_restored w w'.
Proof.
  destruct w as [c ss sp bc ms ok ca tb mn ns ts sz pos ch st tr].
  unfold BaseContainer._RestoreSettings, geometry_restored.
  destruct (st !! (ns, "Size")) eqn:E1, (st !! (ns, "Position")) eqn:E2.
  all: destruct ss, sp, ms; run; rewrite ?E1, ?E2.
  all: eexists; (split; [reflexivity|]).
  all: lists; repeat split; try reflexivity; intros; congruence.
Qed.

Lemma base_OnCreate_spec (w : window) :
  exists w', BaseContainer._OnCreate w = (Ok tt, w') /\
    lifecycle (trace w') = lifecycle (trace w) ++
      [Hook OnCreate; Hook OnLayout] ++
      opt (saveSize w) [Trace.ReadSetting "Size"] ++
      opt (savePosition w) [Trace.ReadSetting "Position"] ++
      [Hook RestoreSettings] /\
    closeHandler w' = bindClose w || closeHandler w /\
    settings w' = settings w /\
    classOf w' = classOf w /\
    geometry_restored w w'.
Proof.
  destruct w as [c ss sp bc ms ok ca tb mn ns ts sz pos ch st tr].
  unfold BaseContainer._OnCreate, BaseContainer._OnLayout.
  destruct bc, ts as [sizer|], ms as [m|]; run.
  all: match goal with |- context [BaseContainer._RestoreSettings ?w1] =>
         destruct (restore_settings_spec w1)
           as (w2 & -> & Ht & Hc & Hs & Hk & Hg) end.
  all: exists w2; (split; [reflexivity|]).
  all: rewrite Ht, Hc, Hs; lists.
  all: repeat split; try reflexivity; try apply Hg; same_class Hk.
Qed.

(** Construction returns; it adds the lifecycle sequence, binds the close
    handler when [bindClose] is set, and restores the stored geometry. *)
Lemma construct_spec (w : window) :
  exists w', construct w = (Ok tt, w') /\
    lifecycle (trace w') = lifecycle (trace w) ++ lifecycle_spec w /\
    closeHandler w' = bindClose w || closeHandler w /\
    settings w' = settings w /\
    classOf w' = classOf w /\
    geometry_restored w w'.
Proof.
  destruct w as [c ss sp bc ms ok ca tb mn ns ts sz pos ch st tr].
  unfold construct, Dialog.__init__, Frame.__init__, Panel.__init__,
    BaseContainer._Initialize, Dialog._OnCreate, Frame._OnCreate,
    lifecycle_spec.
  destruct c, ms as [m|], ok, ca, tb, mn; run.
  all: match goal with |- context [BaseContainer._OnCreate ?w1] =>
         destruct (base_OnCreate_spec w1)
           as (w2 & -> & Ht & Hc & Hs & Hk & Hg) end.
  all: exists w2; (split; [reflexivity|]).
  all: rewrite Ht, Hc, Hs; lists; cbn [construction].
  all: repeat split; try reflexivity; try apply Hg; same_class Hk.
Qed.

Lemma close_bound (w1 : window) :
  closeHandler w1 = true ->
  exists w2, close w1 = (Ok tt, w2) /\
    trace w2 = trace w1 ++
      opt (saveSize w1) [Trace.WriteSetting "Size" (sizeTuple w1)] ++
      opt (savePosition w1)
        [Trace.WriteSetting "Position" (positionTuple w1)] ++
      [Hook SaveSettings; Wx SettingsFlush; Hook OnClose; Wx EventSkip] /\
    (saveSize w1 = true ->
       settings w2 !! (settingsName w1, "Size") = Some (sizeTuple w1)) /\
    (savePosition w1 = true ->
       settings w2 !! (settingsName w1, "Position")
         = Some (positionTuple w1)).
Proof.
  destruct w1 as [c ss sp bc ms ok ca tb mn ns ts sz pos ch st tr].
  cbn [closeHandler]. intros ->.
  unfold close, BaseContainer._OnClose, BaseContainer._SaveSettings.
  destruct ss, sp; run.
  all: eexists; (split; [reflexivity|]).
  all: fields; rewrite <- ?app_assoc; cbn [app opt].
  all: repeat split; try reflexivity; try discriminate; intros _.
  all: rewrite ?lookup_insert_eq; try reflexivity.
  rewrite lookup_insert_ne by (intros [=]). apply lookup_insert_eq.
Qed.

(** C7, as amended.  For every window whose class sets [bindClose], so
    that construction binds the close handler: closing the window writes
    its size under "Size" when [saveSize] is set and its position under
    "Position" when [savePosition] is set, in the window's settings
    namespace, then runs the save hook, flushes the store, and only then
    fires the close hook; and a window created afterwards in the same
    namespace reads the same keys during geometry restore and takes the
    stored size and position. *)
Theorem close_persists_geometry (w : window) (sz pos : Z * Z) :
  bindClose w = true ->
  close_saves w sz pos /\ restore_reads w sz pos.
Proof.
  intros Hb.
  destruct (construct_spec w) as (w' & E & _ & Hc & _ & Hk & _).
  assert (Ea : after construct w = w') by (unfold after; rewrite E; reflexivity).
  rewrite Hb in Hc. cbn [orb] in Hc.
  unfold classOf in Hk.
  injection Hk as _ Hss Hsp _ _ _ _ _ _ Hns _.
  assert (Hsaves : close_saves w sz pos).
  { unfold close_saves, shown. rewrite Ea.
    destruct (close_bound (moved sz pos w')) as (w2 & E2 & Ht & H1 & H2).
    { destruct w'; exact Hc. }
    exists w2. split; [exact E2|].
    replace (saveSize (moved sz pos w')) with (saveSize w) in *
      by (destruct w'; symmetry; exact Hss).
    replace (savePosition (moved sz pos w')) with (savePosition w) in *
      by (destruct w'; symmetry; exact Hsp).
    replace (settingsName (moved sz pos w')) with (settingsName w) in *
      by (destruct w'; symmetry; exact Hns).
    replace (sizeTuple (moved sz pos w')) with sz in *
      by (destruct w'; reflexivity).
    replace (positionTuple (moved sz pos w')) with pos in *
      by (destruct w'; reflexivity).
    auto. }
  split; [exact Hsaves|].
  destruct Hsaves as (w2 & E2 & _ & H1 & H2).
  intros w3 Hn3 Hs3.
  unfold after in Hs3 at 1. rewrite E2 in Hs3. cbn [snd] in Hs3.
  destruct (construct_spec w3) as (w3' & E3 & Ht3 & _ & _ & _ & Hg1 & Hg2).
  assert (Ea3 : after construct w3 = w3')
    by (unfold after; rewrite E3; reflexivity).
  rewrite Ea3.
  assert (Hin : forall e, In e (lifecycle_spec w3) -> In e (trace w3')).
  { intros e He.
    assert (Hl : In e (lifecycle (trace w3'))).
    { rewrite Ht3. apply in_or_app. right. exact He. }
    unfold lifecycle in Hl. apply List.filter_In in Hl. apply Hl. }
  split; intros Hw Hw3.
  - split.
    + apply Hin. unfold lifecycle_spec. rewrite Hw3.
      destruct (minSize w3), (cls w3), (hasToolbar w3), (hasMenus w3),
        (savePosition w3); cbn; tauto.
    + apply Hg1; [exact Hw3|]. rewrite Hs3, Hn3. apply H1, Hw.
  - split.
    + apply Hin. unfold lifecycle_spec. rewrite Hw3.
      destruct (minSize w3), (cls w3), (hasToolbar w3), (hasMenus w3),
        (saveSize w3); cbn; tauto.
    + apply Hg2; [exact Hw3|]. rewrite Hs3, Hn3. apply H2, Hw.
Qed.

(** The amended C7 at a frame that binds the close event and saves both
    its size and its position. *)
Lemma close_persists_geometry_witness :
  bindClose frame0 = true /\
  (close_saves frame0 (640, 480)%Z (10, 20)%Z /\
   restore_reads frame0 (640, 480)%Z (10, 20)%Z).
Proof.
  split; [reflexivity|].
  apply (close_persists_geometry frame0 (640, 480)%Z (10, 20)%Z).
  reflexivity.
Defined.

(** C7 as stated fails at a frame whose class sets [saveSize] and
    [savePosition] and clears [bindClose]: no handler is bound, closing
    writes neither key and does not fire the close hook. *)
Lemma close_unbound_persists_nothing :
  ~ persists_on_close unbound0 (640, 480)%Z (10, 20)%Z.
Proof.
  unfold persists_on_close. intros H.
  destruct (H eq_refl eq_refl) as (HS & _).
  vm_compute in HS. discriminate HS.
Qed.

End ContainerControlsProps.

Module DataEditorsProps.
Import ContainerControls ceDatabase DataEditors.

Section Keeps.
Context (R : world -> world -> Prop) (Rrefl : forall w, R w w)
  (Rtrans : forall a b c, R a b -> R b c -> R a c).

Lemma keeps_ret {A} (a : A) : keeps R (ret a).
Proof. intros w. apply Rrefl. Qed.

Lemma keeps_raise {A} e : keeps R (@raise world A e).
Proof. intros w. apply Rrefl. Qed.

Lemma keeps_gets {A} (f : world -> A) : keeps R (gets f).
Proof. intros w. apply Rrefl. Qed.

Lemma keeps_get : keeps R get.
Proof. intros w. apply Rrefl. Qed.

Lemma keeps_lift {A} (r : result A) : keeps R (lift_result r).
Proof. intros w. apply Rrefl. Qed.

Lemma keeps_bind {A B} (m : M world A) (k : A -> M world B) :
  keeps R m -> (forall a, keeps R (k a)) -> keeps R (bind m k).
Proof.
  intros Hm Hk w. unfold bind. specialize (Hm w).
  destruct (m w) as [[a|e] w1]; cbn [snd] in *; [|exact Hm].
  eapply Rtrans; [exact Hm|]. apply Hk.
Qed.

Lemma keeps_when (b : bool) (m : M world unit) :
  keeps R m -> keeps R (when b m).
Proof. destruct b; [auto|]. intros _. apply keeps_ret. Qed.

Lemma keeps_for_each {A} (l : list A) (body : A -> M world unit) :
  (forall x, keeps R (body x)) -> keeps R (for_each l body).
Proof.
  intros Hb. induction l as [|x l IH]; cbn [for_each].
  - apply keeps_ret.
  - apply keeps_bind; auto.
Qed.

Lemma keeps_for_fold {A B} (l : list A) (body : B -> A -> M world B) acc :
  (forall b x, keeps R (body b x)) -> keeps R (for_fold l acc body).
Proof.
  intros Hb. revert acc. induction l as [|x l IH]; intros acc; cbn [for_fold].
  - apply keeps_ret.
  - apply keeps_bind; auto.
Qed.

End Keeps.

(** *** The primitives, run *)

Lemma log_emit (e : event) (w : world) : log e w = (Ok tt, emit e w).
Proof. reflexivity. Qed.

Lemma IsEditable_run (c : Column) (w : world) :
  EditDialogColumn.IsEditable c w = (Ok (editableIn w c), w).
Proof.
  unfold EditDialogColumn.IsEditable, editableIn, field.isTextCtrl,
    field.IsEditable, bind, gets, ret.
  destruct (widget (fields w (field c))); reflexivity.
Qed.

Lemma commitStep_skip (b : binding) (w : world) :
  editableIn w (fst b) = false -> commitStep b w = (Ok tt, w).
Proof.
  intros H. unfold commitStep, bind. rewrite IsEditable_run, H. reflexivity.
Qed.

Lemma commitStep_pass (b : binding) (w : world) :
  editableIn w (fst b) = true -> passes w b -> hasRow w b ->
  commitStep b w = (Ok tt, commitBinding w b).
Proof.
  intros He Hp Hr. specialize (Hp He). destruct (Hr He) as [r Hrow].
  unfold commitStep, commitBinding, bind. rewrite IsEditable_run, He, Hrow.
  unfold valueIn in *. cbn [when].
  unfold EditDialogColumn.Verify, EditDialogColumn.Update,
    EditDialogColumn.GetValue, field.GetValue, dataSet.SetValue,
    ceDatabase.SetValue, bind, gets, get, when, lift_result, modify, ret.
  unfold rowsOf in Hrow.
  destruct (required (fst b)).
  - destruct (fieldValue (fields w (field (fst b)))) eqn:Ev;
      [exfalso; apply Hp; reflexivity| |]; cbn [is_None];
      rewrite Hrow, log_emit, ?Ev; reflexivity.
  - rewrite Hrow, log_emit. reflexivity.
Qed.

Lemma commitStep_fail (b : binding) (w : world) :
  editableIn w (fst b) = true -> required (fst b) = true ->
  valueIn w (fst b) = VNone ->
  commitStep b w =
    (Raise RequiredFieldHasNoValue,
     set_focus (Some (field (fst b))) (emit (FieldSetFocus (field (fst b))) w)).
Proof.
  intros He Hq Hv. unfold commitStep, bind. rewrite IsEditable_run, He.
  unfold valueIn in Hv. cbn [when].
  unfold EditDialogColumn.Verify, field.GetValue, field.SetFocus,
    bind, gets, when, raise, modify.
  rewrite Hq, Hv. reflexivity.
Qed.

(** *** What a write keeps *)

Lemma editableIn_fields (w w' : world) (c : Column) :
  fields w' = fields w -> editableIn w' c = editableIn w c.
Proof. unfold editableIn. intros ->. reflexivity. Qed.

Lemma valueIn_fields (w w' : world) (c : Column) :
  fields w' = fields w -> valueIn w' c = valueIn w c.
Proof. unfold valueIn. intros ->. reflexivity. Qed.

Lemma commitBinding_fields (w : world) (b : binding) :
  fields (commitBinding w b) = fields w.
Proof.
  unfold commitBinding.
  destruct (editableIn w (fst b)); [|reflexivity].
  destruct (rowsOf w (snd b) !! 0); reflexivity.
Qed.

Lemma commitBinding_focus (w : world) (b : binding) :
  focus (commitBinding w b) = focus w.
Proof.
  unfold commitBinding.
  destruct (editableIn w (fst b)); [|reflexivity].
  destruct (rowsOf w (snd b) !! 0); reflexivity.
Qed.

Lemma committed_fields (bs : list binding) (w : world) :
  fields (committed bs w) = fields w.
Proof.
  revert w. induction bs as [|b bs IH]; intros w; [reflexivity|].
  cbn. unfold committed in IH. rewrite IH. apply commitBinding_fields.
Qed.

Lemma committed_focus (bs : list binding) (w : world) :
  focus (committed bs w) = focus w.
Proof.
  revert w. induction bs as [|b bs IH]; intros w; [reflexivity|].
  cbn. unfold committed in IH. rewrite IH. apply commitBinding_focus.
Qed.

Lemma rowsOf_store (w : world) (ds handle : nat) (r : Row) (ds' h : nat) :
  rowsOf (store ds handle r w) ds' !! h =
    if decide (ds = ds' /\ handle = h) then Some r else rowsOf w ds' !! h.
Proof.
  unfold store, rowsOf. cbn [dataSets set_dataSets].
  destruct (decide (ds = ds')) as [<-|Hne].
  - rewrite fn_lookup_insert. cbn [rows set_rows].
    destruct (decide (handle = h)) as [<-|Hh].
    + rewrite lookup_insert_eq. rewrite decide_True by auto. reflexivity.
    + rewrite lookup_insert_ne by exact Hh.
      rewrite decide_False by (intros [_ ?]; auto). reflexivity.
  - rewrite fn_lookup_insert_ne by exact Hne.
    rewrite decide_False by (intros [? _]; auto). reflexivity.
Qed.

Lemma commitBinding_row0 (w : world) (b : binding) (ds : nat) :
  is_Some (rowsOf w ds !! 0) -> is_Some (rowsOf (commitBinding w b) ds !! 0).
Proof.
  intros H. unfold commitBinding.
  destruct (editableIn w (fst b)); [|exact H].
  destruct (rowsOf w (snd b) !! 0) eqn:E; [|exact H].
  rewrite rowsOf_store. destruct (decide _); [eauto|exact H].
Qed.

Lemma passes_fields (w w' : world) (b : binding) :
  fields w' = fields w -> passes w b -> passes w' b.
Proof.
  unfold passes. intros Hf H.
  rewrite (editableIn_fields _ _ _ Hf), (valueIn_fields _ _ _ Hf). exact H.
Qed.

Lemma hasRow_commit (w : world) (b b' : binding) :
  hasRow w b' -> hasRow (commitBinding w b) b'.
Proof.
  unfold hasRow. intros H He.
  rewrite (editableIn_fields _ _ _ (commitBinding_fields w b)) in He.
  apply commitBinding_row0, H, He.
Qed.

(** *** The commit loop *)

Lemma for_each_app {A} (l1 l2 : list A) (body : A -> M world unit) (w : world) :
  for_each (l1 ++ l2) body w = (for_each l1 body ;; for_each l2 body) w.
Proof.
  revert w. induction l1 as [|x l1 IH]; intros w; cbn [for_each app].
  - reflexivity.
  - unfold bind. destruct (body x w) as [[[]|e] w1]; [|reflexivity].
    rewrite IH. reflexivity.
Qed.

Lemma commit_loop_pass (bs : list binding) (w : world) :
  Forall (passes w) bs -> Forall (hasRow w) bs ->
  for_each bs commitStep w = (Ok tt, committed bs w).
Proof.
  revert w. induction bs as [|b bs IH]; intros w Hp Hr; [reflexivity|].
  inversion Hp as [|? ? Hp1 Hp2]; subst. inversion Hr as [|? ? Hr1 Hr2]; subst.
  cbn [for_each committed foldl]. unfold bind.
  assert (E : commitStep b w = (Ok tt, commitBinding w b)).
  { destruct (editableIn w (fst b)) eqn:He.
    - apply commitStep_pass; assumption.
    - rewrite commitStep_skip by exact He.
      unfold commitBinding. rewrite He. reflexivity. }
  rewrite E. apply IH.
  - eapply List.Forall_impl; [|exact Hp2]. intros b'.
    apply passes_fields, commitBinding_fields.
  - eapply List.Forall_impl; [|exact Hr2]. intros b'. apply hasRow_commit.
Qed.

Lemma commit_loop_fail (pre post : list binding) (b : binding) (w : world) :
  Forall (passes w) pre -> Forall (hasRow w) pre ->
  editableIn w (fst b) = true -> required (fst b) = true ->
  valueIn w (fst b) = VNone ->
  for_each (pre ++ b :: post) commitStep w =
    (Raise RequiredFieldHasNoValue,
     set_focus (Some (field (fst b)))
       (emit (FieldSetFocus (field (fst b))) (committed pre w))).
Proof.
  intros Hp Hr He Hq Hv. rewrite for_each_app. unfold bind at 1.
  rewrite commit_loop_pass by assumption.
  cbn [for_each]. unfold bind.
  rewrite commitStep_fail; [reflexivity| | exact Hq |].
  - rewrite (editableIn_fields w) by apply committed_fields. exact He.
  - rewrite (valueIn_fields w) by apply committed_fields. exact Hv.
Qed.

Lemma commitStep_fields (b : binding) : keeps (fun w w' => fields w' = fields w) (commitStep b).
Proof.
  intros w. destruct (editableIn w (fst b)) eqn:He.
  - unfold commitStep, bind. rewrite IsEditable_run, He. cbn [when].
    unfold EditDialogColumn.Verify, EditDialogColumn.Update,
      EditDialogColumn.GetValue, field.GetValue, field.SetFocus,
      dataSet.SetValue, ceDatabase.SetValue,
      bind, gets, get, when, lift_result, modify, ret, raise.
    destruct (required (fst b));
      [destruct (is_None (fieldValue (fields w (field (fst b)))))|];
      try reflexivity.
    all: destruct (rows (dataSets w (snd b)) !! 0); reflexivity.
  - rewrite commitStep_skip by exact He. reflexivity.
Qed.

Lemma commit_loop_skip (pre post : list binding) (b : binding) (w : world) :
  editableIn w (fst b) = false ->
  for_each (pre ++ b :: post) commitStep w =
    for_each (pre ++ post) commitStep w.
Proof.
  intros He. rewrite !for_each_app. unfold bind.
  pose proof (keeps_for_each (fun w w' => fields w' = fields w)
    ltac:(reflexivity) ltac:(intros; congruence) pre commitStep
    commitStep_fields w) as Hf.
  destruct (for_each pre commitStep w) as [[[]|e] w1]; [|reflexivity].
  cbn [snd] in Hf. cbn [for_each]. unfold bind.
  rewrite commitStep_skip; [reflexivity|].
  rewrite (editableIn_fields w) by exact Hf. exact He.
Qed.

(** *** What the writes leave in the data sets *)

Lemma commitBinding_other (w : world) (b : binding) (ds h : nat) :
  h <> 0 -> rowsOf (commitBinding w b) ds !! h = rowsOf w ds !! h.
Proof.
  intros Hh. unfold commitBinding.
  destruct (editableIn w (fst b)); [|reflexivity].
  destruct (rowsOf w (snd b) !! 0); [|reflexivity].
  rewrite rowsOf_store. rewrite decide_False by (intros [_ ?]; auto).
  reflexivity.
Qed.

Lemma commitBinding_none (w : world) (b : binding) (ds : nat) :
  rowsOf w ds !! 0 = None -> rowsOf (commitBinding w b) ds !! 0 = None.
Proof.
  intros Hn. unfold commitBinding.
  destruct (editableIn w (fst b)); [|exact Hn].
  destruct (rowsOf w (snd b) !! 0) eqn:E; [|exact Hn].
  rewrite rowsOf_store. destruct (decide _) as [[<- _]|_]; [|exact Hn].
  congruence.
Qed.

Lemma commitBinding_row (w : world) (b : binding) (ds : nat) (r : Row) :
  rowsOf w ds !! 0 = Some r ->
  rowsOf (commitBinding w b) ds !! 0 = Some (rowAfter w ds r b).
Proof.
  intros Hr. unfold commitBinding, rowAfter.
  destruct (editableIn w (fst b)); cbn [andb]; [|exact Hr].
  destruct (rowsOf w (snd b) !! 0) eqn:E.
  - rewrite rowsOf_store. destruct (decide _) as [[Hd _]|Hn].
    + rewrite bool_decide_true by exact Hd. subst ds.
      cbn in Hr. unfold rowsOf in *. congruence.
    + rewrite bool_decide_false by (intros ?; apply Hn; auto). exact Hr.
  - rewrite bool_decide_false; [exact Hr|]. intros <-. congruence.
Qed.

Lemma rowAfter_fields (w w' : world) (ds : nat) (r : Row) (b : binding) :
  fields w' = fields w -> rowAfter w' ds r b = rowAfter w ds r b.
Proof.
  intros Hf. unfold rowAfter.
  rewrite (editableIn_fields w w'), (valueIn_fields w w') by exact Hf.
  reflexivity.
Qed.

Lemma committed_other (bs : list binding) (w : world) (ds h : nat) :
  h <> 0 -> rowsOf (committed bs w) ds !! h = rowsOf w ds !! h.
Proof.
  intros Hh. revert w. induction bs as [|b bs IH]; intros w; [reflexivity|].
  cbn. unfold committed in IH. rewrite IH. apply commitBinding_other, Hh.
Qed.

Lemma committed_none (bs : list binding) (w : world) (ds : nat) :
  rowsOf w ds !! 0 = None -> rowsOf (committed bs w) ds !! 0 = None.
Proof.
  revert w. induction bs as [|b bs IH]; intros w Hn; [exact Hn|].
  cbn. apply IH, commitBinding_none, Hn.
Qed.

Lemma committed_row (bs : list binding) (w : world) (ds : nat) (r : Row) :
  rowsOf w ds !! 0 = Some r ->
  rowsOf (committed bs w) ds !! 0 = Some (foldl (rowAfter w ds) r bs).
Proof.
  revert w r. induction bs as [|b bs IH]; intros w r Hr; [exact Hr|].
  cbn. unfold committed in IH.
  rewrite (IH _ _ (commitBinding_row w b ds r Hr)).
  f_equal. generalize (rowAfter w ds r b). clear -bs.
  induction bs as [|b' bs IH]; intros r0; [reflexivity|].
  cbn. rewrite (rowAfter_fields w) by apply commitBinding_fields. apply IH.
Qed.

(** The row-class attributes survive, and an attribute no editable
    binding targets keeps its value. *)
Lemma rows_written_frame (w : world) (ds : nat) (bs : list binding) (r : Row) :
  attrNames (foldl (rowAfter w ds) r bs) = attrNames r /\
  pkAttrNames (foldl (rowAfter w ds) r bs) = pkAttrNames r /\
  forall a, ~ writtenTo w bs ds a ->
    attrs (foldl (rowAfter w ds) r bs) !! a = attrs r !! a.
Proof.
  revert r. induction bs as [|b bs IH]; intros r.
  - repeat split; reflexivity.
  - cbn [foldl]. destruct (IH (rowAfter w ds r b)) as (H1 & H2 & H3).
    assert (Hn : attrNames (rowAfter w ds r b) = attrNames r)
      by (unfold rowAfter; destruct (_ && _); reflexivity).
    assert (Hk : pkAttrNames (rowAfter w ds r b) = pkAttrNames r)
      by (unfold rowAfter; destruct (_ && _); reflexivity).
    split; [congruence|]. split; [congruence|].
    intros a Ha. rewrite H3.
    + unfold rowAfter.
      destruct (editableIn w (fst b)) eqn:He; cbn [andb]; [|reflexivity].
      destruct (bool_decide (snd b = ds)) eqn:Hd; [|reflexivity].
      apply bool_decide_eq_true in Hd.
      cbn [setattr attrs]. apply lookup_insert_ne. intros Heq.
      apply Ha. exists b. cbn [In]. auto.
    + intros (b' & Hin & Hrest). apply Ha. exists b'. cbn [In]. auto.
Qed.

(** A written attribute holds the widget's value, unless a later binding
    writes the same attribute. *)
Lemma rows_written_value (w : world) (ds : nat) (pre post : list binding)
    (b : binding) (r : Row) :
  editableIn w (fst b) = true -> snd b = ds ->
  ~ writtenTo w post ds (attrName (fst b)) ->
  attrs (foldl (rowAfter w ds) r (pre ++ b :: post)) !! attrName (fst b)
    = Some (valueIn w (fst b)).
Proof.
  intros He Hd Hlast. rewrite foldl_app. cbn [foldl].
  destruct (rows_written_frame w ds post
    (rowAfter w ds (foldl (rowAfter w ds) r pre) b)) as (_ & _ & H3).
  rewrite H3 by exact Hlast.
  unfold rowAfter at 1. rewrite He, bool_decide_true by exact Hd.
  cbn [andb setattr attrs]. apply lookup_insert_eq.
Qed.

Lemma writes_fields (w w' : world) (bs : list binding) :
  fields w' = fields w -> writes w' bs = writes w bs.
Proof.
  intros Hf. unfold writes. induction bs as [|b bs IH]; [reflexivity|].
  cbn [flat_map]. rewrite IH.
  rewrite (editableIn_fields w w'), (valueIn_fields w w') by exact Hf.
  reflexivity.
Qed.

Lemma committed_events (bs : list binding) (w : world) :
  Forall (hasRow w) bs -> events (committed bs w) = events w ++ writes w bs.
Proof.
  revert w. induction bs as [|b bs IH]; intros w Hr.
  - cbn. rewrite app_nil_r. reflexivity.
  - inversion Hr as [|? ? Hr1 Hr2]; subst. cbn [committed foldl].
    unfold committed in IH. rewrite IH.
    + rewrite (writes_fields w) by apply commitBinding_fields.
      cbn [writes flat_map]. rewrite app_assoc. f_equal.
      unfold commitBinding. destruct (editableIn w (fst b)) eqn:He.
      * destruct (Hr1 He) as [r ->]. reflexivity.
      * rewrite app_nil_r. reflexivity.
    + eapply List.Forall_impl; [|exact Hr2]. intros b'. apply hasRow_commit.
Qed.

(** *** Pre-update is the commit loop over the dialog's bindings *)

Lemma for_each_map {A B} (f : A -> B) (l : list A) (body : B -> M world unit)
    (w : world) :
  for_each (List.map f l) body w = for_each l (fun x => body (f x)) w.
Proof.
  revert w. induction l as [|x l IH]; intros w; cbn [for_each List.map].
  - reflexivity.
  - unfold bind. destruct (body (f x) w) as [[[]|e] w1]; [apply IH|reflexivity].
Qed.

Lemma pages_OnPreUpdate (ps : list page) (w : world) :
  for_each ps page.OnPreUpdate w = for_each (flat_map pageBindings ps) commitStep w.
Proof.
  revert w. induction ps as [|p ps IH]; intros w; [reflexivity|].
  cbn [for_each flat_map]. rewrite for_each_app. unfold bind.
  assert (E : page.OnPreUpdate p w = for_each (pageBindings p) commitStep w).
  { destruct p as [p|]; [|reflexivity].
    cbn [page.OnPreUpdate pageBindings]. rewrite for_each_map. reflexivity. }
  rewrite E. destruct (for_each (pageBindings p) commitStep w) as [[[]|e] w1];
    [apply IH|reflexivity].
Qed.

Lemma OnPreUpdate_bindings (d : dialog) (w : world) :
  OnPreUpdate d w = for_each (bindings d) commitStep w.
Proof.
  unfold OnPreUpdate, bindings. destruct (dcls d).
  - reflexivity.
  - unfold EditDialog.OnPreUpdate. rewrite for_each_map. reflexivity.
  - unfold EditDialog.OnPreUpdate. rewrite for_each_map. reflexivity.
  - apply pages_OnPreUpdate.
Qed.

Lemma emitted_app {A} (m : M world A) (w : world) (t : list event) :
  events (snd (m w)) = events w ++ t -> emitted m w = t.
Proof. unfold emitted. intros ->. apply drop_app_length. Qed.

Lemma not_in_writes (w : world) (bs : list binding) (e : event) :
  (forall ds h a v, e <> DataSetSetValue ds h a v) -> ~ In e (writes w bs).
Proof.
  intros He. unfold writes. rewrite in_flat_map. intros (b & _ & Hin).
  destruct (editableIn w (fst b)); cbn in Hin; [|exact Hin].
  destruct Hin as [<-|[]]. eapply He. reflexivity.
Qed.

(** C1, as amended.  When a required binding whose field is editable
    holds [None], the bindings before it passing validation, the commit
    raises the required-field error at that binding, sets the focus to
    its field, and is aborted: neither the update of the data set nor
    post-update is reached.  The editable bindings before it have been
    written into row 0 of their data sets; every other attribute and
    every other row is unchanged. *)
Theorem required_empty_aborts_commit (d : dialog) (w : world)
    (pre post : list binding) (b : binding) :
  bindings d = pre ++ b :: post ->
  Forall (passes w) pre -> Forall (hasRow w) pre ->
  editableIn w (fst b) = true -> required (fst b) = true ->
  valueIn w (fst b) = VNone ->
  commit_aborted d w pre b.
Proof.
  intros Hb Hp Hr He Hq Hv. unfold commit_aborted.
  set (w0 := emit (Hook Trace.OnPreUpdate) w).
  set (w' := set_focus (Some (field (fst b)))
               (emit (FieldSetFocus (field (fst b))) (committed pre w0))).
  assert (E : _OnOk d w = (Raise RequiredFieldHasNoValue, w')).
  { unfold _OnOk, Dialog._OnOk, OnOk, EditDialogBase.OnOk, bind.
    rewrite log_emit. fold w0. rewrite OnPreUpdate_bindings, Hb.
    rewrite (commit_loop_fail pre post b w0); [reflexivity|..]; assumption. }
  assert (Ev : events w' = events w ++
      Hook Trace.OnPreUpdate :: writes w pre ++ [FieldSetFocus (field (fst b))]).
  { subst w'. change (events (committed pre w0) ++ [FieldSetFocus (field (fst b))]
      = events w ++ Hook Trace.OnPreUpdate :: writes w pre ++
          [FieldSetFocus (field (fst b))]).
    rewrite committed_events by exact Hr.
    change (events w0) with (events w ++ [Hook Trace.OnPreUpdate]).
    change (writes w0 pre) with (writes w pre).
    rewrite <- !app_assoc. reflexivity. }
  assert (Em : emitted (_OnOk d) w =
      Hook Trace.OnPreUpdate :: writes w pre ++ [FieldSetFocus (field (fst b))]).
  { apply emitted_app. rewrite E. exact Ev. }
  exists w'. split; [exact E|]. split; [reflexivity|]. split; [exact Em|].
  rewrite Em. repeat split.
  - intros ds [Hx|Hx]; [discriminate|]. apply in_app_or in Hx.
    destruct Hx as [Hx|[Hx|[]]]; [|discriminate].
    revert Hx. apply not_in_writes. discriminate.
  - intros [Hx|Hx]; [discriminate|]. apply in_app_or in Hx.
    destruct Hx as [Hx|[Hx|[]]]; [|discriminate].
    revert Hx. apply not_in_writes. discriminate.
  - subst w'. change (fields (committed pre w0) = fields w0).
    apply committed_fields.
  - intros ds h Hh. subst w'.
    change (rowsOf (committed pre w0) ds !! h = rowsOf w0 ds !! h).
    apply committed_other, Hh.
  - intros ds Hn. subst w'.
    change (rowsOf (committed pre w0) ds !! 0 = None).
    apply committed_none. exact Hn.
  - intros ds r Hrow. exists (foldl (rowAfter w0 ds) r pre). split.
    + subst w'. change (rowsOf (committed pre w0) ds !! 0 =
        Some (foldl (rowAfter w0 ds) r pre)).
      apply committed_row. exact Hrow.
    + split.
      * intros a Ha. apply (rows_written_frame w0 ds pre r). exact Ha.
      * intros pre1 b1 pre2 -> He1 Hd Hl.
        apply (rows_written_value w0 ds pre1 pre2 b1 r); assumption.
Qed.

(** C9.  A binding whose field is not editable is skipped entirely by
    pre-update: pre-update is the commit loop over the other bindings, so
    the binding is never validated (required and empty, it raises
    nothing) and its widget value is never written to the data set. *)
Theorem noneditable_binding_skipped (d : dialog) (w : world)
    (pre post : list binding) (b : binding) :
  bindings d = pre ++ b :: post ->
  editableIn w (fst b) = false ->
  commits_only d w (pre ++ post).
Proof.
  intros Hb He. unfold commits_only.
  assert (E : OnPreUpdate d w = for_each (pre ++ post) commitStep w).
  { rewrite OnPreUpdate_bindings, Hb. apply commit_loop_skip, He. }
  split; [exact E|]. intros Hp Hr.
  assert (E2 : OnPreUpdate d w = (Ok tt, committed (pre ++ post) w)).
  { rewrite E. apply commit_loop_pass; assumption. }
  split; [exact E2|]. apply emitted_app. rewrite E2.
  apply committed_events, Hr.
Qed.

(** *** Synchronizing a widget leaves the data sets alone *)

Lemma sameData_refl (w : world) : sameData w w.
Proof. reflexivity. Qed.

Lemma sameData_trans (a b c : world) : sameData a b -> sameData b c -> sameData a c.
Proof. unfold sameData. congruence. Qed.

Ltac frame_data :=
  repeat first
    [ apply (keeps_bind _ sameData_trans); [|intros ?]
    | apply (keeps_ret _ sameData_refl)
    | apply (keeps_raise _ sameData_refl)
    | apply (keeps_gets _ sameData_refl)
    | apply (keeps_get _ sameData_refl)
    | apply (keeps_lift _ sameData_refl)
    | apply (keeps_when _ sameData_refl)
    | apply (keeps_for_fold _ sameData_refl sameData_trans); intros ? ?
    | apply (keeps_for_each _ sameData_refl sameData_trans); intros ?
    | (intros ?; reflexivity)
    | match goal with
      | |- keeps _ (match ?x with _ => _ end) => destruct x
      end ].

Lemma field_SetValue_data (f : nat) (v : value) : keeps sameData (field.SetValue f v).
Proof. intros w. reflexivity. Qed.

Lemma field_SetFocus_data (f : nat) : keeps sameData (field.SetFocus f).
Proof. intros w. reflexivity. Qed.

Lemma SetValue_data (c : Column) (row : Row) :
  keeps sameData (EditDialogColumn.SetValue c row).
Proof. unfold EditDialogColumn.SetValue. frame_data. Qed.

Lemma IsEditable_data (c : Column) : keeps sameData (EditDialogColumn.IsEditable c).
Proof.
  unfold EditDialogColumn.IsEditable, field.isTextCtrl, field.IsEditable.
  frame_data.
Qed.

Lemma Verify_data (c : Column) : keeps sameData (EditDialogColumn.Verify c).
Proof. unfold EditDialogColumn.Verify, field.GetValue. frame_data. Qed.

Lemma setValues_data (cols : list Column) (row : Row) :
  keeps sameData (setValues cols row).
Proof.
  unfold setValues. frame_data.
Qed.

Lemma Retrieve_data (p : DataEditPanel.panel) : keeps sameData (DataEditPanel.Retrieve p).
Proof.
  unfold DataEditPanel.Retrieve, dataSet.row. frame_data.
Qed.

(** What [Update] leaves in the world. *)
Lemma Update_run (c : Column) (ds : nat) (w : world) :
  EditDialogColumn.Update c ds w =
    match rowsOf w ds !! 0 with
    | Some r =>
        (Ok tt, store ds 0 (setattr r (attrName c) (valueIn w c))
                  (emit (DataSetSetValue ds 0 (attrName c) (valueIn w c)) w))
    | None => (Raise (KeyError 0), w)
    end.
Proof.
  unfold EditDialogColumn.Update, EditDialogColumn.GetValue, field.GetValue,
    dataSet.SetValue, ceDatabase.SetValue, bind, gets, get, lift_result,
    modify, rowsOf, valueIn.
  destruct (rows (dataSets w ds) !! 0); reflexivity.
Qed.

(** C6.  Synchronizing a widget from the row ([SetValue], the refresh
    loop, the refresh of a panel) leaves the row and its data set
    unchanged, and so do reading and validating a column; the row is
    written by [Update] alone, which changes the binding's own attribute
    of row 0 and no other attribute, row or data set. *)
Theorem binding_writes_only_on_update (c : Column) (row : Row) (ds : nat)
    (cols : list Column) (p : DataEditPanel.panel) (w : world) :
  writes_only_on_update c row ds cols p w.
Proof.
  unfold writes_only_on_update.
  split; [apply SetValue_data|]. split; [apply setValues_data|].
  split; [apply Retrieve_data|]. split; [reflexivity|].
  split; [apply IsEditable_data|]. split; [apply Verify_data|].
  rewrite Update_run. split.
  - intros ds' h Hne. destruct (rowsOf w ds !! 0) eqn:E; [|reflexivity].
    cbn [snd]. rewrite rowsOf_store. rewrite decide_False; [reflexivity|].
    intros [? ?]. destruct Hne; congruence.
  - intros r Hr. rewrite Hr. cbn [snd].
    exists (setattr r (attrName c) (valueIn w c)). split.
    + rewrite rowsOf_store. rewrite decide_True by auto. reflexivity.
    + cbn [setattr attrs attrNames pkAttrNames]. split.
      * apply lookup_insert_eq.
      * split; [|split; reflexivity]. intros a Ha.
        apply lookup_insert_ne. congruence.
Qed.

(** *** The refresh loop *)

Lemma SetValue_run (c : Column) (row : Row) (w : world) (v : value) :
  attrs row !! attrName c = Some v ->
  EditDialogColumn.SetValue c row w = (Ok tt, refreshColumn row w c).
Proof.
  intros Hv. unfold EditDialogColumn.SetValue, refreshColumn, getattr,
    lift_result, bind. rewrite Hv. reflexivity.
Qed.

Lemma editableIn_show (f : nat) (v : value) (w : world) (c : Column) :
  editableIn (show f v w) c = editableIn w c.
Proof.
  unfold editableIn, show. cbn [fields set_fields].
  destruct (decide (f = field c)) as [->|Hne].
  - rewrite fn_lookup_insert. reflexivity.
  - rewrite fn_lookup_insert_ne by exact Hne. reflexivity.
Qed.

Lemma editableIn_refreshColumn (row : Row) (w : world) (c c' : Column) :
  editableIn (refreshColumn row w c) c' = editableIn w c'.
Proof.
  unfold refreshColumn. destruct (attrs row !! attrName c); [|reflexivity].
  rewrite editableIn_show. reflexivity.
Qed.

Lemma firstEditable_refreshColumn (row : Row) (w : world) (c : Column)
    (cols : list Column) :
  firstEditable (refreshColumn row w c) cols = firstEditable w cols.
Proof.
  unfold firstEditable. induction cols as [|c' cols IH]; [reflexivity|].
  cbn [List.find]. rewrite editableIn_refreshColumn.
  destruct (editableIn w c'); [reflexivity|exact IH].
Qed.

Lemma setValues_loop (row : Row) (cols : list Column) (acc : option nat)
    (w : world) :
  Forall (fun c => is_Some (attrs row !! attrName c)) cols ->
  for_fold cols acc (fun focusField column =>
    EditDialogColumn.SetValue column row ;;
    match focusField with
    | None =>
        isEditable <- EditDialogColumn.IsEditable column ;;
        ret (if isEditable then Some (field column) else None)
    | Some f => ret (Some f)
    end) w =
  (Ok (match acc with Some f => Some f | None => firstEditable w cols end),
   refreshed row cols w).
Proof.
  revert acc w. induction cols as [|c cols IH]; intros acc w Ha.
  - destruct acc; reflexivity.
  - inversion Ha as [|? ? [v Hv] Ha']; subst.
    cbn [for_fold refreshed foldl]. unfold bind at 1 2.
    rewrite (SetValue_run c row w v Hv).
    destruct acc as [f|].
    + unfold ret at 1. rewrite IH by exact Ha'. reflexivity.
    + unfold bind at 1. rewrite IsEditable_run. unfold ret at 1.
      rewrite IH by exact Ha'. rewrite editableIn_refreshColumn.
      unfold firstEditable at 2. cbn [List.find].
      destruct (editableIn w c); [reflexivity|].
      rewrite firstEditable_refreshColumn. reflexivity.
Qed.

Lemma refreshed_data (row : Row) (cols : list Column) (w : world) :
  dataSets (refreshed row cols w) = dataSets w.
Proof.
  revert w. induction cols as [|c cols IH]; intros w; [reflexivity|].
  cbn. unfold refreshed in IH. rewrite IH. unfold refreshColumn.
  destruct (attrs row !! attrName c); reflexivity.
Qed.

Lemma refreshed_events (row : Row) (cols : list Column) (w : world) :
  events (refreshed row cols w) = events w ++ shows row cols.
Proof.
  revert w. induction cols as [|c cols IH]; intros w.
  - cbn. rewrite app_nil_r. reflexivity.
  - cbn [refreshed foldl shows flat_map]. unfold refreshed in IH.
    rewrite IH. rewrite app_assoc. f_equal.
    unfold refreshColumn. destruct (attrs row !! attrName c).
    + reflexivity.
    + rewrite app_nil_r. reflexivity.
Qed.

Lemma refreshColumn_other (row : Row) (w : world) (c : Column) (f : nat) :
  field c <> f -> fields (refreshColumn row w c) f = fields w f.
Proof.
  intros Hne. unfold refreshColumn.
  destruct (attrs row !! attrName c); [|reflexivity].
  unfold show. cbn [fields set_fields].
  rewrite fn_lookup_insert_ne by exact Hne. reflexivity.
Qed.

Lemma refreshed_other (row : Row) (cols : list Column) (w : world) (f : nat) :
  Forall (fun c => field c <> f) cols ->
  fields (refreshed row cols w) f = fields w f.
Proof.
  revert w. induction cols as [|c cols IH]; intros w Hn; [reflexivity|].
  inversion Hn; subst. cbn. unfold refreshed in IH. rewrite IH by assumption.
  apply refreshColumn_other. assumption.
Qed.

Lemma refreshed_value (row : Row) (pre post : list Column) (c : Column)
    (w : world) (v : value) :
  attrs row !! attrName c = Some v ->
  Forall (fun c' => field c' <> field c) post ->
  valueIn (refreshed row (pre ++ c :: post) w) c = v.
Proof.
  intros Hv Hn. unfold valueIn, refreshed. rewrite foldl_app. cbn [foldl].
  fold (refreshed row post (refreshColumn row (foldl (refreshColumn row) w pre) c)).
  rewrite refreshed_other by exact Hn.
  unfold refreshColumn. rewrite Hv. unfold show. cbn [fields set_fields].
  rewrite fn_lookup_insert. reflexivity.
Qed.

Lemma Retrieve_run (p : DataEditPanel.panel) (w : world) (row : Row) :
  rowsOf w (DataEditPanel.dataSet p) !! 0 = Some row ->
  Forall (fun c => is_Some (attrs row !! attrName c)) (DataEditPanel.columns p) ->
  DataEditPanel.Retrieve p w =
    (Ok tt,
     match firstEditable w (DataEditPanel.columns p) with
     | Some f =>
         set_focus (Some f)
           (emit (FieldSetFocus f) (refreshed row (DataEditPanel.columns p) w))
     | None => refreshed row (DataEditPanel.columns p) w
     end).
Proof.
  intros Hr Ha. unfold DataEditPanel.Retrieve, dataSet.row, bind at 1 2.
  unfold get. rewrite Hr. unfold ret at 1. unfold bind, setValues.
  rewrite setValues_loop by exact Ha.
  destruct (firstEditable w (DataEditPanel.columns p)); reflexivity.
Qed.

Lemma commit_writes_loop (m : M world unit) (bs : list binding) (w : world) :
  m w = for_each bs commitStep w -> commit_writes m bs w.
Proof.
  intros Hm. split.
  - intros Hp Hr.
    assert (E : m w = (Ok tt, committed bs w))
      by (rewrite Hm; apply commit_loop_pass; assumption).
    exists (committed bs w). split; [exact E|]. split.
    { apply emitted_app. rewrite E. apply committed_events, Hr. }
    split; [apply committed_fields|].
    split; [intros ds h Hh; apply committed_other, Hh|].
    intros ds r Hrow. exists (foldl (rowAfter w ds) r bs).
    split; [apply committed_row, Hrow|]. split.
    + intros a Ha. apply (rows_written_frame w ds bs r). exact Ha.
    + intros pre b post -> He Hd Hl.
      apply (rows_written_value w ds pre post b r); assumption.
  - intros pre b post -> Hp Hr He Hq Hv.
    rewrite Hm, (commit_loop_fail pre post b w) by assumption. reflexivity.
Qed.

Lemma not_in_shows_tail (f : nat) (v : value) (x : nat) :
  ~ In (FieldSetValue f v) [FieldSetFocus x].
Proof. intros [H|[]]. discriminate H. Qed.

(** C5.  For the column bindings of an edit panel or an edit dialog:
    refresh sets, for each binding in order, the bound attribute's value
    from the current row on the binding's widget; commit reads each
    editable widget's value, validates the required ones (raising the
    required-field error at an empty one), and writes each editable
    binding's value into row 0 of the data set under the binding's
    attribute name. *)
Theorem refresh_and_commit (p : DataEditPanel.panel) (d : dialog) (w : world) :
  refresh_copies p w /\
  commit_writes (DataEditPanel.OnPreUpdate p) (pageBindings (EditPage p)) w /\
  commit_writes (OnPreUpdate d) (bindings d) w.
Proof.
  split; [|split].
  - intros row Hr Ha.
    pose proof (Retrieve_run p w row Hr Ha) as E.
    pose proof (Retrieve_data p w) as Hd. unfold sameData in Hd.
    eexists. split; [exact E|]. rewrite E in Hd. cbn [snd] in Hd.
    split; [exact Hd|]. split.
    + destruct (firstEditable w (DataEditPanel.columns p)) as [f|].
      * exists [FieldSetFocus f]. split; [|intros; apply not_in_shows_tail].
        apply emitted_app. rewrite E. cbn [snd].
        change (events (refreshed row (DataEditPanel.columns p) w) ++
                  [FieldSetFocus f] = events w ++
                  shows row (DataEditPanel.columns p) ++ [FieldSetFocus f]).
        rewrite refreshed_events, <- app_assoc. reflexivity.
      * exists []. split; [|intros ? ? []].
        apply emitted_app. rewrite E. cbn [snd].
        rewrite refreshed_events, app_nil_r. reflexivity.
    + intros pre c post Hc Hn.
      assert (Hin : is_Some (attrs row !! attrName c)).
      { rewrite List.Forall_forall in Ha. apply Ha. rewrite Hc.
        apply in_or_app. right. left. reflexivity. }
      destruct Hin as [v Hv]. rewrite Hv. f_equal. symmetry.
      rewrite Hc.
      destruct (firstEditable w (pre ++ c :: post));
        apply (refreshed_value row pre post c w v Hv Hn).
  - apply commit_writes_loop. cbn [pageBindings].
    unfold DataEditPanel.OnPreUpdate. rewrite for_each_map. reflexivity.
  - apply commit_writes_loop, OnPreUpdate_bindings.
Qed.

(** *** Nothing but [OnOk] itself takes a commit step *)

Lemma quiet_refl (w : world) : quiet w w.
Proof. exists []. split; [rewrite app_nil_r|]; reflexivity. Qed.

Lemma quiet_trans (a b c : world) : quiet a b -> quiet b c -> quiet a c.
Proof.
  intros (t1 & E1 & H1) (t2 & E2 & H2). exists (t1 ++ t2). split.
  - rewrite E2, E1, app_assoc. reflexivity.
  - unfold commitSteps in *. rewrite List.filter_app, H1, H2. reflexivity.
Qed.

Ltac quiet_leaf :=
  intros ?;
  first [ exists []; split; [rewrite app_nil_r; reflexivity|reflexivity]
        | eexists [_]; split; reflexivity ].

Ltac frame_quiet :=
  repeat first
    [ apply (keeps_bind _ quiet_trans); [|intros ?]
    | apply (keeps_ret _ quiet_refl)
    | apply (keeps_raise _ quiet_refl)
    | apply (keeps_gets _ quiet_refl)
    | apply (keeps_get _ quiet_refl)
    | apply (keeps_lift _ quiet_refl)
    | apply (keeps_when _ quiet_refl)
    | apply (keeps_for_fold _ quiet_refl quiet_trans); intros ? ?
    | apply (keeps_for_each _ quiet_refl quiet_trans); intros ?
    | quiet_leaf
    | match goal with
      | |- keeps _ (match ?x with _ => _ end) => destruct x
      end ].

Lemma commitStep_quiet (b : binding) : keeps quiet (commitStep b).
Proof.
  unfold commitStep, EditDialogColumn.IsEditable, field.isTextCtrl,
    field.IsEditable, EditDialogColumn.Verify, EditDialogColumn.Update,
    EditDialogColumn.GetValue, field.GetValue, field.SetFocus,
    dataSet.SetValue.
  frame_quiet.
Qed.

Lemma OnPreUpdate_quiet (d : dialog) : keeps quiet (OnPreUpdate d).
Proof.
  intros w. rewrite OnPreUpdate_bindings.
  apply (keeps_for_each _ quiet_refl quiet_trans). apply commitStep_quiet.
Qed.

Lemma OnPostUpdate_quiet (d : dialog) : keeps quiet (OnPostUpdate d).
Proof.
  unfold OnPostUpdate, EditDialogBase.OnPostUpdate,
    EditDialogWithPanels.OnPostUpdate.
  destruct (dcls d); frame_quiet.
  unfold page.OnPostUpdate, DataEditPanel.OnPostUpdate,
    DataEditPanel.GetRow, dataSet.row.
  frame_quiet.
Qed.

Lemma SaveSettings_quiet :
  keeps quiet (zoom win set_win BaseContainer._SaveSettings).
Proof.
  intros [fs dss fo wi].
  destruct wi as [c ss sp bc ms ok ca tb mn ns ts sz pos ch st tr].
  exists (opt ss [Trace.WriteSetting "Size" sz] ++
          opt sp [Trace.WriteSetting "Position" pos] ++
          [Hook SaveSettings; Wx SettingsFlush]).
  destruct ss, sp; split; try reflexivity.
  all: cbv [zoom win set_win BaseContainer._SaveSettings events snd
    BaseControl.WriteSetting wx.GetSizeTuple wx.GetPositionTuple
    ContainerControls.log bind ret get gets modify when
    set_trace set_settings saveSize savePosition sizeTuple positionTuple
    settingsName settings trace opt].
  all: rewrite <- ?app_assoc; reflexivity.
Qed.

Lemma commitSteps_app (t1 t2 : list event) :
  commitSteps (t1 ++ t2) = commitSteps t1 ++ commitSteps t2.
Proof. apply List.filter_app. Qed.

(** C4, as amended.  On OK an edit dialog enters pre-update first and
    once.  When pre-update returns, the update of the data set follows
    once (an [EditDialogChild] updates nothing) and then post-update is
    entered once; when pre-update raises, neither follows.  No other
    commit step occurs. *)
Theorem commit_steps_on_ok (d : dialog) (w : world) :
  commitSteps (emitted (_OnOk d) w) = stepsOnOk d w.
Proof.
  unfold stepsOnOk, preUpdateReturns.
  set (w0 := emit (Hook Trace.OnPreUpdate) w).
  destruct (OnPreUpdate_quiet d w0) as (t1 & E1 & H1).
  assert (E0 : events w0 = events w ++ [Hook Trace.OnPreUpdate]) by reflexivity.
  unfold emitted, _OnOk, Dialog._OnOk, OnOk, EditDialogBase.OnOk.
  unfold bind at 1 2. rewrite log_emit. fold w0. unfold bind at 1.
  destruct (OnPreUpdate d w0) as [[[]|e] w1]; cbn [fst snd] in *.
  2:{ rewrite E1, E0, <- app_assoc, drop_app_length.
      cbn [app]. change (commitSteps (Hook Trace.OnPreUpdate :: t1))
        with (Hook Trace.OnPreUpdate :: commitSteps t1).
      rewrite H1. reflexivity. }
  set (upd := match dcls d with
              | ClsEditDialogChild => []
              | _ => [DataSetUpdate (dataSet d)]
              end).
  assert (Hu : exists w2, _Update d w1 = (Ok tt, w2) /\
                 events w2 = events w1 ++ upd).
  { unfold _Update, EditDialogBase._Update, EditDialogChild._Update,
      dataSet.Update, upd.
    destruct (dcls d); eexists; (split; [reflexivity|]);
      try reflexivity; rewrite app_nil_r; reflexivity. }
  destruct Hu as (w2 & Eu & Hw2). unfold bind at 1. rewrite Eu.
  unfold bind at 1. rewrite log_emit.
  set (w3 := emit (Hook Trace.OnPostUpdate) w2).
  assert (E3 : events w3 = events w2 ++ [Hook Trace.OnPostUpdate]) by reflexivity.
  destruct (OnPostUpdate_quiet d w3) as (t4 & E4 & H4).
  assert (Hsteps : forall t5, commitSteps t5 = [] ->
    commitSteps (Hook Trace.OnPreUpdate :: t1 ++ upd ++
                 Hook Trace.OnPostUpdate :: t4 ++ t5) =
    Hook Trace.OnPreUpdate :: upd ++ [Hook Trace.OnPostUpdate]).
  { intros t5 H5.
    change (Hook Trace.OnPreUpdate :: t1 ++ upd ++
            Hook Trace.OnPostUpdate :: t4 ++ t5)
      with ([Hook Trace.OnPreUpdate] ++ t1 ++ upd ++
            [Hook Trace.OnPostUpdate] ++ t4 ++ t5).
    rewrite !commitSteps_app, H1, H4, H5.
    unfold upd. destruct (dcls d); reflexivity. }
  destruct (OnPostUpdate d w3) as [[[]|e] w4]; cbn [fst snd] in *.
  - destruct (SaveSettings_quiet w4) as (t5 & E5 & H5).
    destruct (zoom win set_win BaseContainer._SaveSettings w4) as [r5 w5].
    cbn [snd] in *.
    rewrite E5, E4, E3, Hw2, E1, E0, <- !app_assoc, drop_app_length.
    apply Hsteps, H5.
  - rewrite E4, E3, Hw2, E1, E0, <- !app_assoc, drop_app_length.
    rewrite <- (app_nil_r t4). apply Hsteps. reflexivity.
Qed.

(** *** Opening a dialog *)

Lemma size_map_seq {A} (start : nat) (xs : list A) :
  size (map_seq start xs : gmap nat A) = length xs.
Proof.
  revert start. induction xs as [|x xs IH]; intros start; cbn [map_seq length].
  - apply map_size_empty.
  - rewrite map_size_insert_None by apply map_seq_cons_disjoint.
    rewrite IH. reflexivity.
Qed.

Lemma insert_new_row (d : dialog) (w : world) :
  parentItem d = None ->
  exists w' handle, EditDialogBase.Retrieve d w = (Ok tt, w') /\
    events w' = events w ++
      [DataSetInsertRow (dataSet d) handle; Hook OnNewRow] /\
    rowsOf w (dataSet d) !! handle = None /\
    rowsOf w' (dataSet d) =
      <[handle := rowClass (dataSets w (dataSet d))
                    (List.map (fun _ => VNone)
                       (rowAttrNames (dataSets w (dataSet d))))]>
        (rowsOf w (dataSet d)).
Proof.
  intros Hp. unfold EditDialogBase.Retrieve. rewrite Hp.
  eexists. exists (fresh (dom (rowsOf w (dataSet d)))).
  split; [reflexivity|]. split.
  - cbn. rewrite <- app_assoc. reflexivity.
  - split.
    + apply not_elem_of_dom, is_fresh.
    + unfold rowsOf. cbn [snd dataSets set_dataSets].
      cbv [bind dataSet.InsertRow get InsertRow log zoom modify ret snd fst
           ContainerControls.log dataSets set_dataSets set_win win].
      rewrite fn_lookup_insert. reflexivity.
Qed.

(** C2, as amended.  An edit dialog opened without a parent item inserts
    a new row and raises nothing.  An edit dialog other than an
    [EditDialogChild], opened on a parent item, retrieves its data set by
    the item's primary-key attribute values and raises the no-data error
    exactly when the rows retrieved are not exactly one.  An
    [EditDialogChild] opened on a parent item retrieves nothing: its data
    set gets one row, copied from the item, and no error is raised. *)
Theorem opening_retrieves (d : dialog) (w : world) :
  inserts_new_row d w /\ retrieves_one_row d w /\ child_copies_item d w.
Proof.
  split; [|split].
  - intros Hp.
    assert (E : Retrieve d w = EditDialogBase.Retrieve d w).
    { unfold Retrieve, EditDialogChild.Retrieve. rewrite Hp.
      destruct (dcls d); reflexivity. }
    destruct (insert_new_row d w Hp) as (w' & h & Er & Ev & Hn & Hrows).
    exists w', h. rewrite E. split; [exact Er|].
    split; [|split; assumption].
    apply emitted_app. rewrite E, Er. exact Ev.
  - intros item args Hp Hc Ha.
    assert (E : Retrieve d w = EditDialogBase.Retrieve d w)
      by (unfold Retrieve; destruct (dcls d); congruence).
    unfold emitted. rewrite E. unfold EditDialogBase.Retrieve.
    rewrite Hp, Ha.
    cbv [bind lift_result dataSet.Retrieve get log zoom modify snd fst
         ContainerControls.log].
    set (w1 := set_dataSets _ _).
    assert (Hrows : rowsOf w1 (dataSet d) =
                    map_seq 0 (query (dataSets w (dataSet d)) args)).
    { unfold rowsOf, w1. cbn [dataSets set_dataSets set_win].
      rewrite fn_lookup_insert. reflexivity. }
    assert (Hev : events w1 = events w ++ [DataSetRetrieve (dataSet d) args])
      by reflexivity.
    unfold when, raise, ret.
    destruct (bool_decide (size (rowsOf w1 (dataSet d)) <> 1)) eqn:Hs;
      cbn [fst snd]; rewrite Hev, drop_app_length, Hrows.
    + apply bool_decide_eq_true in Hs. rewrite Hrows in Hs.
      repeat split; try reflexivity. intros Hx. contradiction.
    + apply bool_decide_eq_false in Hs. rewrite Hrows in Hs.
      repeat split; try reflexivity. intros Hx. contradiction.
  - intros item values Hp Hc Hv.
    unfold emitted, Retrieve, EditDialogChild.Retrieve. rewrite Hc, Hp.
    cbv [bind get lift_result]. rewrite Hv.
    eexists. split; [reflexivity|]. cbn [snd]. split.
    + change (drop (length (events w)) (events w) = []).
      apply drop_all.
    + unfold rowsOf. cbv [modify snd dataSets set_dataSets].
      rewrite fn_lookup_insert. cbn [rows set_rows].
      apply map_seq_singleton.
Qed.

(** *** The properties at the sample dialogs *)

Import Samples.

Lemma world0_row : rowsOf world0 0 !! 0 = Some person.
Proof. reflexivity. Qed.

(** The amended C1 at [editPerson]: the edited name is written, then the
    empty required email aborts the commit. *)
Lemma required_empty_aborts_commit_witness :
  bindings editPerson = [(nameColumn, 0)] ++ (emailColumn, 0) :: [] /\
  Forall (passes world0) [(nameColumn, 0)] /\
  Forall (hasRow world0) [(nameColumn, 0)] /\
  editableIn world0 emailColumn = true /\
  required emailColumn = true /\
  valueIn world0 emailColumn = VNone /\
  commit_aborted editPerson world0 [(nameColumn, 0)] (emailColumn, 0).
Proof.
  assert (Hp : Forall (passes world0) [(nameColumn, 0)]).
  { constructor; [|constructor]. intros _ Hq. discriminate Hq. }
  assert (Hr : Forall (hasRow world0) [(nameColumn, 0)]).
  { constructor; [|constructor]. intros _. exists person. reflexivity. }
  split; [reflexivity|]. split; [exact Hp|]. split; [exact Hr|].
  split; [reflexivity|]. split; [reflexivity|]. split; [reflexivity|].
  apply (required_empty_aborts_commit editPerson world0
           [(nameColumn, 0)] [] (emailColumn, 0));
    first [reflexivity | assumption].
Defined.

(** C1 as stated fails twice.  At [editPerson] the commit raises, but the
    name written before the empty email stays in the row.  At [viewId]
    the required field is empty and read-only, and the commit goes
    through. *)
Lemma required_empty_counterexample :
  ~ aborts_unchanged editPerson world0 /\ ~ aborts_unchanged viewId world0.
Proof.
  split; intros H.
  - destruct H as (_ & _ & _ & Hrows).
    + exists (emailColumn, 0). split; [right; left; reflexivity|].
      split; reflexivity.
    + apply (f_equal (fun m : gmap nat Row =>
                        match m !! 0 with
                        | Some r => attrs r !! "name"
                        | None => None
                        end)) in Hrows.
      vm_compute in Hrows. discriminate Hrows.
  - destruct H as (Hraise & _).
    + exists (idColumn, 0). split; [left; reflexivity|].
      split; reflexivity.
    + vm_compute in Hraise. discriminate Hraise.
Qed.

(** C4 as stated fails at [childPerson]: an [EditDialogChild] confirmed
    with OK runs pre-update and post-update and never updates the data
    set. *)
Lemma child_commit_counterexample :
  dcls childPerson = ClsEditDialogChild /\
  commitSteps (emitted (_OnOk childPerson) world0) =
    [Hook Trace.OnPreUpdate; Hook Trace.OnPostUpdate] /\
  ~ three_steps_once childPerson world0.
Proof.
  split; [reflexivity|]. split; [vm_compute; reflexivity|].
  unfold three_steps_once. intros H. vm_compute in H. discriminate H.
Qed.

(** C2 as stated fails at [childPerson]: opened on a parent item, an
    [EditDialogChild] retrieves nothing. *)
Lemma child_retrieve_counterexample :
  parentItem childPerson = Some person /\
  emitted (Retrieve childPerson) world0 = [] /\
  ~ retrieves_by_key childPerson world0.
Proof.
  split; [reflexivity|]. split; [vm_compute; reflexivity|].
  intros H. destruct (H person eq_refl) as (args & _ & Hin & _).
  vm_compute in Hin. exact Hin.
Qed.

(** The amended C2 at [editPerson], opened on [person], whose key 7 the
    query resolves to one row. *)
Lemma opening_retrieves_witness :
  parentItem editPerson = Some person /\
  dcls editPerson <> ClsEditDialogChild /\
  getattrs person (pkAttrNames person) = Ok [VInt 7] /\
  parentItem newPerson = None /\
  (inserts_new_row newPerson world0 /\
   retrieves_one_row editPerson world0).
Proof.
  split; [reflexivity|]. split; [discriminate|]. split; [reflexivity|].
  split; [reflexivity|]. split.
  - apply (opening_retrieves newPerson world0).
  - apply (opening_retrieves editPerson world0).
Defined.

(** C5 at the sample panel and at [renamePerson]. *)
Lemma refresh_and_commit_witness :
  rowsOf world0 0 !! 0 = Some person /\
  Forall (fun c => is_Some (attrs person !! attrName c))
    (DataEditPanel.columns personPanel) /\
  Forall (passes world0) (bindings renamePerson) /\
  Forall (hasRow world0) (bindings renamePerson) /\
  (refresh_copies personPanel world0 /\
   commit_writes (DataEditPanel.OnPreUpdate personPanel)
     (pageBindings (EditPage personPanel)) world0 /\
   commit_writes (OnPreUpdate renamePerson) (bindings renamePerson) world0).
Proof.
  split; [reflexivity|]. split.
  { repeat constructor; eexists; reflexivity. }
  split.
  { repeat constructor; intros He Hq; discriminate. }
  split.
  { repeat constructor; intros _; exists person; reflexivity. }
  apply (refresh_and_commit personPanel renamePerson world0).
Defined.

(** C6 at the name column of the sample world. *)
Lemma binding_writes_only_on_update_witness :
  rowsOf world0 0 !! 0 = Some person /\
  writes_only_on_update nameColumn person 0 [nameColumn; emailColumn]
    personPanel world0.
Proof.
  split; [reflexivity|].
  apply (binding_writes_only_on_update nameColumn person 0
           [nameColumn; emailColumn] personPanel world0).
Defined.

(** C9 at [renamePerson]: the required id is empty in a read-only field;
    pre-update commits the name alone. *)
Lemma noneditable_binding_skipped_witness :
  bindings renamePerson = [] ++ (idColumn, 0) :: [(nameColumn, 0)] /\
  editableIn world0 idColumn = false /\
  required idColumn = true /\
  valueIn world0 idColumn = VNone /\
  commits_only renamePerson world0 ([] ++ [(nameColumn, 0)]).
Proof.
  split; [reflexivity|]. split; [reflexivity|]. split; [reflexivity|].
  split; [reflexivity|].
  apply (noneditable_binding_skipped renamePerson world0
           [] [(nameColumn, 0)] (idColumn, 0)); reflexivity.
Defined.

End DataEditorsProps.

Module DataListsProps.
Import ceDatabase DataLists.

Lemma bind_ok {S A B} (m : M S A) (k : A -> M S B) (s s1 : S) (a : A) :
  m s = (Ok a, s1) -> bind m k s = k a s1.
Proof. intros E. unfold bind. rewrite E. reflexivity. Qed.

Lemma bind_assoc {S A B C} (m : M S A) (k1 : A -> M S B) (k2 : B -> M S C)
    (s : S) :
  bind (bind m k1) k2 s = bind m (fun a => bind (k1 a) k2) s.
Proof. unfold bind. destruct (m s) as [[a|e] s1]; reflexivity. Qed.

Lemma row_run (h : nat) (w : listWorld) (r : Row) :
  listRows w !! h = Some r -> list.row h w = (Ok r, w).
Proof. intros E. unfold list.row, bind, get. rewrite E. reflexivity. Qed.

Lemma mergeAttr_names (row acc : Row) (a : string) :
  attrNames (mergeAttr row acc a) = attrNames acc.
Proof. unfold mergeAttr. destruct (attrs row !! a); reflexivity. Qed.

Lemma updateAttr_run (item : nat) (row : Row) (itemIndex : option nat)
    (a : string) (w : listWorld) (r : Row) :
  listRows w !! item = Some r -> indexOf w item itemIndex ->
  exists w', updateAttr item row itemIndex a w = (Ok tt, w') /\
    listDataSet w' =
      set_rows (<[item := mergeAttr row r a]> (listRows w)) (listDataSet w) /\
    rowHandles w' = rowHandles w /\
    exists t, listTrace w' = listTrace w ++ t /\ ~ In ListRefresh t.
Proof.
  intros Hr Hi. unfold updateAttr, hasattr, mergeAttr, getattr.
  destruct (attrs row !! a) as [v|] eqn:Ea.
  - rewrite bool_decide_true by eauto. cbn [negb].
    destruct itemIndex as [i|]; cbn [indexOf] in Hi.
    + unfold bind, lift_result, get, index. rewrite Hi.
      unfold ret, list.SetValue, bind, get, lift_result, ceDatabase.SetValue.
      unfold listRows in Hr. rewrite Hr. cbn.
      eexists. split; [reflexivity|]. cbn. split; [reflexivity|].
      split; [reflexivity|]. eexists [_]. split; [reflexivity|].
      intros [H|[]]. discriminate H.
    + unfold bind at 1, lift_result. unfold list.setattr.
      rewrite (bind_ok _ _ _ _ _ (row_run item w r Hr)). cbn.
      eexists. split; [reflexivity|]. cbn. split; [reflexivity|].
      split; [reflexivity|]. eexists [_]. split; [reflexivity|].
      intros [H|[]]. discriminate H.
  - rewrite bool_decide_false by (intros [? ?]; discriminate). cbn [negb].
    exists w. split; [reflexivity|]. split.
    + rewrite insert_id by exact Hr. destruct w as [[] ? ? ?]. reflexivity.
    + split; [reflexivity|]. exists []. split; [|intros []].
      rewrite app_nil_r. reflexivity.
Qed.

Lemma update_loop (item : nat) (row : Row) (itemIndex : option nat)
    (names : list string) (w : listWorld) (r : Row) :
  listRows w !! item = Some r -> indexOf w item itemIndex ->
  exists w', for_each names (updateAttr item row itemIndex) w = (Ok tt, w') /\
    listDataSet w' =
      set_rows (<[item := foldl (mergeAttr row) r names]> (listRows w))
        (listDataSet w) /\
    rowHandles w' = rowHandles w /\
    exists t, listTrace w' = listTrace w ++ t /\ ~ In ListRefresh t.
Proof.
  revert w r. induction names as [|a names IH]; intros w r Hr Hi.
  - exists w. split; [reflexivity|]. split.
    + cbn [foldl]. rewrite insert_id by exact Hr.
      destruct w as [[] ? ? ?]. reflexivity.
    + split; [reflexivity|]. exists []. split; [|intros []].
      rewrite app_nil_r. reflexivity.
  - destruct (updateAttr_run item row itemIndex a w r Hr Hi)
      as (w1 & E1 & Hd1 & Hh1 & t1 & Ht1 & Hn1).
    assert (Hr1 : listRows w1 !! item = Some (mergeAttr row r a)).
    { unfold listRows. rewrite Hd1. cbn [rows set_rows].
      apply lookup_insert_eq. }
    assert (Hi1 : indexOf w1 item itemIndex).
    { destruct itemIndex; cbn [indexOf] in *; [rewrite Hh1|]; exact Hi. }
    destruct (IH w1 _ Hr1 Hi1) as (w' & E & Hd & Hh & t & Ht & Hn).
    exists w'. cbn [for_each]. rewrite (bind_ok _ _ _ _ _ E1).
    split; [exact E|]. split.
    + rewrite Hd. unfold listRows. rewrite Hd1. cbn [rows set_rows foldl].
      rewrite insert_insert_eq. reflexivity.
    + split; [congruence|]. exists (t1 ++ t). split.
      * rewrite Ht, Ht1, app_assoc. reflexivity.
      * intros Hx. apply in_app_or in Hx. tauto.
Qed.

Lemma mergedRow_merged (row r : Row) (names : list string) :
  (forall a v, attrs row !! a = Some v ->
     attrs r !! a = Some v \/ In a names ->
     attrs (foldl (mergeAttr row) r names) !! a = Some v) /\
  (forall a, ~ In a names \/ attrs row !! a = None ->
     attrs (foldl (mergeAttr row) r names) !! a = attrs r !! a).
Proof.
  revert r. induction names as [|n names IH]; intros r.
  - split; [|reflexivity]. intros a v _ [H|[]]. exact H.
  - destruct (IH (mergeAttr row r n)) as [IH1 IH2]. cbn [foldl]. split.
    + intros a v Ha Hor. apply IH1; [exact Ha|].
      destruct Hor as [Hr|[Hn|Hin]]; [|left|right; exact Hin].
      * left. unfold mergeAttr. destruct (attrs row !! n) as [vn|] eqn:En;
          [|exact Hr]. cbn [setattr attrs].
        destruct (decide (n = a)) as [->|Hne].
        -- rewrite lookup_insert_eq. congruence.
        -- rewrite lookup_insert_ne by exact Hne. exact Hr.
      * subst n. unfold mergeAttr. rewrite Ha. cbn [setattr attrs].
        apply lookup_insert_eq.
    + intros a Hor. rewrite IH2.
      * unfold mergeAttr. destruct (attrs row !! n) as [vn|] eqn:En;
          [|reflexivity]. cbn [setattr attrs].
        apply lookup_insert_ne. intros ->.
        destruct Hor as [Hn|Hn]; [apply Hn; left; reflexivity|congruence].
      * destruct Hor as [Hn|Hn]; [left|right; exact Hn].
        intros Hin. apply Hn. right. exact Hin.
Qed.

Lemma merged_fold (row r : Row) :
  merged row r (foldl (mergeAttr row) r (attrNames r)).
Proof.
  destruct (mergedRow_merged row r (attrNames r)) as [H1 H2]. split.
  - intros a v Hin Ha. apply H1; [exact Ha|right; exact Hin].
  - exact H2.
Qed.

Lemma UpdateListItem_run (item : nat) (row : Row) (itemIndex : option nat)
    (w : listWorld) (r : Row) :
  listRows w !! item = Some r -> indexOf w item itemIndex ->
  exists w', DataListPanel._UpdateListItem item row itemIndex w = (Ok tt, w') /\
    listDataSet w' =
      set_rows (<[item := foldl (mergeAttr row) r (attrNames r)]> (listRows w))
        (listDataSet w) /\
    rowHandles w' = rowHandles w /\
    exists t, listTrace w' = listTrace w ++ t /\ ~ In ListRefresh t.
Proof.
  intros Hr Hi. unfold DataListPanel._UpdateListItem.
  rewrite (bind_ok _ _ _ _ _ (row_run item w r Hr)).
  apply (update_loop item row itemIndex (attrNames r) w r Hr Hi).
Qed.

Lemma log_run (e : event) (w : listWorld) : log e w = (Ok tt, emit e w).
Proof. reflexivity. Qed.

Lemma list_emitted_app {A} (m : M listWorld A) (w : listWorld) (t : list event) :
  listTrace (snd (m w)) = listTrace w ++ t -> emitted m w = t.
Proof. unfold emitted. intros ->. apply drop_app_length. Qed.

Lemma tail_run (self : listPanel) (w : listWorld) :
  exists t,
    (when (negb (isPartOfEditDialog self)) list.ClearChanges ;; list.Refresh) w
      = (Ok tt, set_listTrace (listTrace w ++ t ++ [ListRefresh]) w).
Proof.
  unfold list.ClearChanges, list.Refresh.
  destruct (isPartOfEditDialog self); cbn [negb when].
  - exists []. reflexivity.
  - exists [ListClearChanges]. unfold bind. rewrite log_run.
    rewrite log_run. unfold emit, set_listTrace.
    cbn [listTrace listDataSet rowHandles selectedItemIndexes].
    rewrite <- app_assoc. reflexivity.
Qed.

Lemma GetEditWindow_run (self : listPanel) (w : listWorld) (name : string)
    (item : option nat) (parentItem : option Row) (dialog : editWindow) :
  editDialogName self = Some name ->
  match item with
  | Some h => exists r, listRows w !! h = Some r /\ parentItem = Some r
  | None => parentItem = None
  end ->
  windows self name parentItem = Ok dialog ->
  DataListPanel.GetEditWindow self item w =
    (Ok (Some dialog), emit (OpenWindow name) w).
Proof.
  intros Hn Hi Hw. unfold DataListPanel.GetEditWindow. rewrite Hn.
  destruct item as [h|].
  - destruct Hi as (r & Hr & ->).
    unfold bind at 1 2. rewrite (row_run h w r Hr).
    unfold ret at 1. unfold bind. rewrite log_run.
    unfold lift_result. rewrite Hw. reflexivity.
  - subst parentItem. unfold bind, ret at 1. rewrite log_run.
    unfold lift_result. rewrite Hw. reflexivity.
Qed.

Lemma dialogRow_run (dialog : editWindow) (row : Row) (w : listWorld) :
  rows (dialogDataSet dialog) !! 0 = Some row ->
  DataListPanel.dialogRow dialog w = (Ok row, w).
Proof. intros E. unfold DataListPanel.dialogRow. rewrite E. reflexivity. Qed.

Ltac step E := rewrite (bind_ok _ _ _ _ _ E); cbv beta.

Lemma OnEditItem_run (self : listPanel) (item itemIndex : nat)
    (dialog : editWindow) (row r : Row) (w : listWorld) :
  rows (dialogDataSet dialog) !! 0 = Some row ->
  listRows w !! item = Some r ->
  rowHandles w !! itemIndex = Some item ->
  exists w' t, DataListPanel._OnEditItem self item itemIndex dialog w = (Ok tt, w') /\
    listDataSet w' =
      set_rows (<[item := foldl (mergeAttr row) r (attrNames r)]> (listRows w))
        (listDataSet w) /\
    rowHandles w' = rowHandles w /\
    listTrace w' = listTrace w ++ t ++ [ListRefresh].
Proof.
  intros Hrow Hr Hi. unfold DataListPanel._OnEditItem.
  step (dialogRow_run dialog row w Hrow).
  destruct (UpdateListItem_run item row (Some itemIndex) w r Hr Hi)
    as (w3 & E3 & Hd3 & Hh3 & t3 & Ht3 & _).
  step E3. destruct (tail_run self w3) as (t4 & E4). rewrite E4.
  eexists. exists (t3 ++ t4). split; [reflexivity|].
  cbn [listDataSet rowHandles listTrace set_listTrace].
  split; [exact Hd3|]. split; [exact Hh3|].
  rewrite Ht3, <- !app_assoc. reflexivity.
Qed.

Lemma AppendItem_run (w : listWorld) :
  list.AppendItem w =
    (Ok (fresh (dom (listRows w))),
     set_rowHandles (rowHandles w ++ [fresh (dom (listRows w))])
       (store (fresh (dom (listRows w)))
          (rowClass (listDataSet w)
             (List.map (fun _ => VNone) (rowAttrNames (listDataSet w))))
          (emit (ListAppendItem (fresh (dom (listRows w)))) w))).
Proof. reflexivity. Qed.

Lemma OnInsertItems_run (self : listPanel) (dialog : editWindow) (row : Row)
    (w : listWorld) :
  rows (dialogDataSet dialog) !! 0 = Some row ->
  let handle := fresh (dom (listRows w)) in
  let newRow := rowClass (listDataSet w)
                  (List.map (fun _ => VNone) (rowAttrNames (listDataSet w))) in
  exists w' t, DataListPanel._OnInsertItems self dialog w = (Ok tt, w') /\
    listDataSet w' =
      set_rows (<[handle := foldl (mergeAttr row) newRow (attrNames newRow)]>
                  (listRows w)) (listDataSet w) /\
    rowHandles w' = rowHandles w ++ [handle] /\
    listTrace w' = listTrace w ++ t ++ [ListRefresh].
Proof.
  intros Hrow handle newRow. unfold DataListPanel._OnInsertItems.
  step (dialogRow_run dialog row w Hrow).
  step (AppendItem_run w). fold handle newRow.
  set (w3 := set_rowHandles _ _).
  assert (Hr3 : listRows w3 !! handle = Some newRow).
  { unfold listRows, w3. cbn. apply lookup_insert_eq. }
  destruct (UpdateListItem_run handle row None w3 newRow Hr3 I)
    as (w4 & E4 & Hd4 & Hh4 & t4 & Ht4 & _).
  step E4. destruct (tail_run self w4) as (t5 & E5). rewrite E5.
  eexists. exists ([ListAppendItem handle] ++ t4 ++ t5).
  split; [reflexivity|].
  cbn [listDataSet rowHandles listTrace set_listTrace].
  split.
  - rewrite Hd4. unfold listRows, w3. cbn.
    rewrite insert_insert_eq. reflexivity.
  - split; [rewrite Hh4; reflexivity|].
    rewrite Ht4. unfold w3. cbn. rewrite <- !app_assoc. reflexivity.
Qed.

(** C8.  On a list panel, when the modal editing dialog is confirmed,
    each attribute the list item carries and the dialog's row has is
    copied into the item's row of the list's data set (the item edited,
    or a new last item on insert), no other row changes, and the list is
    refreshed; when the dialog is not confirmed, the data set and the
    items are unchanged and the list is not refreshed. *)
Theorem confirmed_edit_is_merged (self : listPanel) (w : listWorld)
    (item itemIndex : nat) :
  edit_merges self w item itemIndex /\
  edit_cancelled self w item itemIndex /\
  insert_merges self w /\
  insert_cancelled self w.
Proof.
  split; [|split; [|split]].
  - intros name itemRow dialog row Hn Hi Hr Hw Hm Hrow.
    unfold emitted, DataListPanel.EditItem.
    step (GetEditWindow_run self w name (Some item) (Some itemRow) dialog Hn
            (ex_intro _ itemRow (conj Hr eq_refl)) Hw).
    step (log_run ShowModal (emit (OpenWindow name) w)).
    rewrite Hm, bool_decide_true by reflexivity. cbn [when].
    set (w2 := emit ShowModal (emit (OpenWindow name) w)).
    destruct (OnEditItem_run self item itemIndex dialog row itemRow w2 Hrow Hr Hi)
      as (w3 & t & E3 & Hd3 & Hh3 & Ht3).
    step E3. rewrite log_run. cbn [snd].
    exists (emit Destroy w3), (foldl (mergeAttr row) itemRow (attrNames itemRow)).
    split; [reflexivity|].
    unfold listRows. cbn [listDataSet emit set_listTrace rowHandles listTrace].
    rewrite Hd3. cbn [rows set_rows]. split; [apply lookup_insert_eq|].
    split; [apply merged_fold|]. split.
    { intros h Hh. rewrite lookup_insert_ne by congruence. reflexivity. }
    split; [exact Hh3|].
    exists ([OpenWindow name; ShowModal] ++ t).
    rewrite Ht3. unfold w2. cbn [listTrace emit set_listTrace].
    rewrite <- !app_assoc. rewrite drop_app_length.
    cbn [app]. rewrite <- ?app_assoc. reflexivity.
  - intros name itemRow dialog Hn Hr Hw Hm.
    unfold DataListPanel.EditItem, emitted.
    step (GetEditWindow_run self w name (Some item) (Some itemRow) dialog Hn
            (ex_intro _ itemRow (conj Hr eq_refl)) Hw).
    step (log_run ShowModal (emit (OpenWindow name) w)).
    rewrite bool_decide_false by exact Hm. cbn [when].
    eexists. split; [reflexivity|]. cbn.
    split; [reflexivity|]. split; [reflexivity|].
    rewrite <- !app_assoc. rewrite drop_app_length. reflexivity.
  - intros name dialog row Hn Hw Hc Hm Hrow.
    unfold emitted, DataListPanel.InsertItems.
    step (GetEditWindow_run self w name None None dialog Hn eq_refl Hw).
    assert (Hgo : match IsEditingCanceled dialog with
                  | Some canceled => negb canceled
                  | None => true
                  end = true).
    { destruct (IsEditingCanceled dialog) as [[]|]; try reflexivity.
      exfalso. apply Hc. reflexivity. }
    rewrite Hgo. cbn [when]. rewrite bind_assoc.
    step (log_run ShowModal (emit (OpenWindow name) w)).
    rewrite Hm, bool_decide_true by reflexivity. cbn [when].
    set (w2 := emit ShowModal (emit (OpenWindow name) w)).
    destruct (OnInsertItems_run self dialog row w2 Hrow)
      as (w3 & t & E3 & Hd3 & Hh3 & Ht3).
    change (listRows w2) with (listRows w) in *.
    change (listDataSet w2) with (listDataSet w) in *.
    change (rowHandles w2) with (rowHandles w) in *.
    set (handle := fresh (dom (listRows w))) in *.
    set (newRow := rowClass (listDataSet w)
                     (List.map (fun _ => VNone) (rowAttrNames (listDataSet w)))) in *.
    step E3. rewrite log_run. cbn [snd].
    exists (emit Destroy w3), handle,
      (foldl (mergeAttr row) newRow (attrNames newRow)).
    split; [reflexivity|].
    split; [apply not_elem_of_dom, is_fresh|].
    cbn [rowHandles emit set_listTrace]. split; [exact Hh3|].
    unfold listRows at 1 3. cbn [listDataSet emit set_listTrace].
    rewrite Hd3. cbn [rows set_rows]. split; [apply lookup_insert_eq|].
    split; [apply merged_fold|]. split.
    { intros h Hh. unfold listRows. cbn [listDataSet emit set_listTrace].
      rewrite Hd3. cbn [rows set_rows].
      rewrite lookup_insert_ne by congruence. reflexivity. }
    exists ([OpenWindow name; ShowModal] ++ t).
    cbn [listTrace emit set_listTrace]. rewrite Ht3. unfold w2.
    cbn [listTrace emit set_listTrace].
    rewrite <- !app_assoc. rewrite drop_app_length.
    cbn [app]. rewrite <- ?app_assoc. reflexivity.
  - intros name dialog Hn Hw Hc.
    unfold DataListPanel.InsertItems, emitted.
    step (GetEditWindow_run self w name None None dialog Hn eq_refl Hw).
    destruct (IsEditingCanceled dialog) as [[]|] eqn:Ec; cbn [negb when].
    + eexists. split; [reflexivity|]. cbn.
      split; [reflexivity|]. split; [reflexivity|].
      rewrite <- !app_assoc, drop_app_length.
      intros [H|[H|[]]]; discriminate H.
    + destruct Hc as [Hc|Hc]; [discriminate Hc|].
      rewrite bind_assoc.
      step (log_run ShowModal (emit (OpenWindow name) w)).
      rewrite bool_decide_false by exact Hc. cbn [when].
      eexists. split; [reflexivity|]. cbn.
      split; [reflexivity|]. split; [reflexivity|].
      rewrite <- !app_assoc, drop_app_length.
      intros [H|[H|[H|[]]]]; discriminate H.
    + destruct Hc as [Hc|Hc]; [discriminate Hc|].
      rewrite bind_assoc.
      step (log_run ShowModal (emit (OpenWindow name) w)).
      rewrite bool_decide_false by exact Hc. cbn [when].
      eexists. split; [reflexivity|]. cbn.
      split; [reflexivity|]. split; [reflexivity|].
      rewrite <- !app_assoc, drop_app_length.
      intros [H|[H|[H|[]]]]; discriminate H.
Qed.

(** C10.  The edit action of a data list is a no-op unless exactly one
    item is selected: with no item or with two or more selected,
    [_OnEditItem] returns with the world unchanged, so no edit window was
    opened; with exactly one selected, the read of the sole selected
    index succeeds and the action goes on with it. *)
Theorem edit_action_guard (parent : listPanel) (w : listWorld) :
  edit_needs_one_selected parent w /\ selected_index_is_safe parent w.
Proof.
  split.
  - intros Hl. unfold DataList._OnEditItem, list.GetSelectedItemIndexes,
      bind, gets.
    rewrite bool_decide_false by exact Hl. reflexivity.
  - intros Hl. destruct (selectedItemIndexes w) as [|i [|j l]] eqn:Es;
      try discriminate Hl.
    exists i. split; [reflexivity|]. split; [reflexivity|].
    unfold DataList._OnEditItem, list.GetSelectedItemIndexes.
    unfold bind at 1, gets. rewrite Es. reflexivity.
Qed.

Import Samples.

(** C8 at the sample list: Bob, the second item, is edited, and the
    dialog is confirmed holding [robert]. *)
Lemma confirmed_edit_is_merged_witness :
  editDialogName (panelWith ID_OK) = Some "EditPerson" /\
  rowHandles (listWith [1]) !! 1 = Some 1 /\
  listRows (listWith [1]) !! 1 = Some bob /\
  windows (panelWith ID_OK) "EditPerson" (Some bob) = Ok (dialogEnding ID_OK) /\
  modal (dialogEnding ID_OK) = ID_OK /\
  rows (dialogDataSet (dialogEnding ID_OK)) !! 0 = Some robert /\
  (edit_merges (panelWith ID_OK) (listWith [1]) 1 1 /\
   edit_cancelled (panelWith ID_OK) (listWith [1]) 1 1 /\
   insert_merges (panelWith ID_OK) (listWith [1]) /\
   insert_cancelled (panelWith ID_OK) (listWith [1])).
Proof.
  split; [reflexivity|]. split; [reflexivity|]. split; [reflexivity|].
  split; [reflexivity|]. split; [reflexivity|]. split; [reflexivity|].
  apply (confirmed_edit_is_merged (panelWith ID_OK) (listWith [1]) 1 1).
Defined.

(** C10 at the sample list, with two items selected and with one. *)
Lemma edit_action_guard_witness :
  length (selectedItemIndexes (listWith [0; 1])) <> 1 /\
  length (selectedItemIndexes (listWith [1])) = 1 /\
  edit_needs_one_selected (panelWith ID_OK) (listWith [0; 1]) /\
  selected_index_is_safe (panelWith ID_OK) (listWith [1]).
Proof.
  split; [discriminate|]. split; [reflexivity|]. split.
  - exact (proj1 (edit_action_guard (panelWith ID_OK) (listWith [0; 1]))).
  - exact (proj2 (edit_action_guard (panelWith ID_OK) (listWith [1]))).
Defined.

End DataListsProps.

Module DialogsProps.
Import ContainerControls ContainerControlsProps Dialogs.

Lemma SaveSettings_spec (w : window) :
  exists w', BaseContainer._SaveSettings w = (Ok tt, w') /\
    trace w' = trace w ++
      opt (saveSize w) [Trace.WriteSetting "Size" (sizeTuple w)] ++
      opt (savePosition w)
        [Trace.WriteSetting "Position" (positionTuple w)] ++
      [Hook SaveSettings; Wx SettingsFlush] /\
    (saveSize w = true ->
       settings w' !! (settingsName w, "Size") = Some (sizeTuple w)) /\
    (savePosition w = true ->
       settings w' !! (settingsName w, "Position")
         = Some (positionTuple w)).
Proof.
  destruct w as [c ss sp bc ms ok ca tb mn ns ts sz pos ch st tr].
  unfold BaseContainer._SaveSettings.
  destruct ss, sp; run.
  all: eexists; (split; [reflexivity|]).
  all: fields; rewrite <- ?app_assoc; cbn [app opt].
  all: repeat split; try reflexivity; try discriminate; intros _.
  all: rewrite ?lookup_insert_eq; try reflexivity.
  rewrite lookup_insert_ne by (intros [=]). apply lookup_insert_eq.
Qed.

Lemma SaveSettings_saved (w : window) :
  exists w', BaseContainer._SaveSettings w = (Ok tt, w') /\ saved w w'.
Proof.
  destruct (SaveSettings_spec w) as (w' & E & Ht & H1 & H2).
  exists w'. split; [exact E|].
  split; [exact Ht|]. split; [exact H1|]. split; [exact H2|].
  intros w3 Hn3 Hs3.
  destruct (construct_spec w3) as (w3' & E3 & _ & _ & _ & _ & Hg1 & Hg2).
  assert (Ea3 : after construct w3 = w3')
    by (unfold after; rewrite E3; reflexivity).
  rewrite Ea3. split; intros Hw Hw3.
  - apply Hg1; [exact Hw3|]. rewrite Hs3, Hn3. apply H1, Hw.
  - apply Hg2; [exact Hw3|]. rewrite Hs3, Hn3. apply H2, Hw.
Qed.

(** X1.  The OK handler of a dialog runs the dialog's [OnOk] and then
    saves the settings, the Cancel handler likewise with [OnCancel]; the
    hook is any computation on a world that holds the window.  When the
    hook returns, the handler returns and the geometry of the window as
    the hook left it is saved, whether or not the close handler is bound:
    the size is written under "Size" and the position under "Position",
    each under its flag, the save hook runs and the store is flushed,
    nothing else is added to the trace (no close hook), and a [Dialog],
    [Frame] or [Panel] created later in the same namespace takes that
    geometry.  When the
    hook raises, as [EditDialogBase.OnOk] does at an empty required
    field, the handler raises the same error and nothing is saved: the
    world is as the hook left it. *)
Theorem buttons_save_geometry {T : Type} (self : T -> window)
    (upd : window -> T -> T) (hook : M T unit) (t : T) :
  (forall t1, hook t = (Ok tt, t1) ->
     exists w', saved (self t1) w' /\
       Dialog._OnOk self upd hook t = (Ok tt, upd w' t1) /\
       Dialog._OnCancel self upd hook t = (Ok tt, upd w' t1)) /\
  (forall e t1, hook t = (Raise e, t1) ->
     Dialog._OnOk self upd hook t = (Raise e, t1) /\
     Dialog._OnCancel self upd hook t = (Raise e, t1)).
Proof.
  split.
  - intros t1 E.
    destruct (SaveSettings_saved (self t1)) as (w' & Es & Hs).
    exists w'. split; [exact Hs|].
    unfold Dialog._OnOk, Dialog._OnCancel, bind, zoom.
    rewrite E, Es. split; reflexivity.
  - intros e t1 E. unfold Dialog._OnOk, Dialog._OnCancel, bind.
    rewrite E. split; reflexivity.
Qed.

(** Geometry restore, by what it leaves in the window. *)
Lemma restore_geometry (w : window) :
  exists w', BaseContainer._RestoreSettings w = (Ok tt, w') /\
    sizeTuple w' =
      (if saveSize w then
         match settings w !! (settingsName w, "Size"), minSize w with
         | Some sz, _ => sz
         | None, Some m => m
         | None, None => sizeTuple w
         end
       else sizeTuple w) /\
    positionTuple w' = constructedPosition w.
Proof.
  destruct w as [c ss sp bc ms ok ca tb mn ns ts sz pos ch st tr].
  unfold BaseContainer._RestoreSettings, constructedPosition.
  fields.
  destruct (st !! (ns, "Size")) eqn:E1, (st !! (ns, "Position")) eqn:E2.
  all: destruct ss, sp, ms; run; rewrite ?E1, ?E2.
  all: eexists; (split; [reflexivity|]).
  all: fields; split; reflexivity.
Qed.

Lemma base_OnCreate_geometry (w : window) :
  exists w', BaseContainer._OnCreate w = (Ok tt, w') /\
    sizeTuple w' = constructedSize w /\
    positionTuple w' = constructedPosition w.
Proof.
  destruct w as [c ss sp bc ms ok ca tb mn ns ts sz pos ch st tr].
  unfold BaseContainer._OnCreate, BaseContainer._OnLayout.
  destruct bc, ts as [sizer|], ms as [m|]; run.
  all: match goal with |- context [BaseContainer._RestoreSettings ?w1] =>
         destruct (restore_geometry w1) as (w2 & -> & Hs & Hp) end.
  all: exists w2; (split; [reflexivity|]).
  all: rewrite Hs, Hp; unfold constructedSize, constructedPosition,
         fittedSize; fields.
  all: split; reflexivity.
Qed.

Lemma Dialog_init_returns (w : window) :
  exists w', Dialog.__init__ w = (Ok tt, w').
Proof.
  destruct w as [c ss sp bc ms ok ca tb mn ns ts sz pos ch st tr].
  unfold Dialog.__init__, BaseContainer._Initialize, Dialog._OnCreate.
  destruct ms as [m|], ok, ca.
  all: match goal with |- exists w', ?L = _ =>
         let l := run_term L in change L with l end.
  all: match goal with |- context [BaseContainer._OnCreate ?w1] =>
         destruct (base_OnCreate_spec w1) as (w2 & -> & _) end.
  all: eexists; reflexivity.
Qed.

Ltac run_sd t :=
  eval cbv [BaseControl.ReadSetting BaseControl.WriteSetting
       BaseControl._Initialize
       wx.SetMinSize wx.SetSize wx.SetPosition wx.GetSizeTuple
       wx.GetPositionTuple wx.SizerFit wx.BindCloseHandler
       log bind ret get gets modify when raise negb
       StandardDialog.okButton StandardDialog.cancelButton
       set_trace set_sizeTuple set_positionTuple set_closeHandler
       set_settings set_topSizer withButtonRow option_map
       cls saveSize savePosition bindClose minSize createOkButton
       createCancelButton hasToolbar hasMenus settingsName topSizer
       sizeTuple positionTuple closeHandler settings trace snd fst] in t.

(** Geometry restore does not look at the sizer. *)
Lemma restore_topSizer c ss sp bc ms ok ca tb mn ns ts ts' sz pos ch st tr :
  BaseContainer._RestoreSettings
    {| cls := c; saveSize := ss; savePosition := sp; bindClose := bc;
       minSize := ms; createOkButton := ok; createCancelButton := ca;
       hasToolbar := tb; hasMenus := mn; settingsName := ns;
       topSizer := ts; sizeTuple := sz; positionTuple := pos;
       closeHandler := ch; settings := st; trace := tr |} =
  (fst (BaseContainer._RestoreSettings
    {| cls := c; saveSize := ss; savePosition := sp; bindClose := bc;
       minSize := ms; createOkButton := ok; createCancelButton := ca;
       hasToolbar := tb; hasMenus := mn; settingsName := ns;
       topSizer := ts'; sizeTuple := sz; positionTuple := pos;
       closeHandler := ch; settings := st; trace := tr |}),
   set_topSizer ts (snd (BaseContainer._RestoreSettings
    {| cls := c; saveSize := ss; savePosition := sp; bindClose := bc;
       minSize := ms; createOkButton := ok; createCancelButton := ca;
       hasToolbar := tb; hasMenus := mn; settingsName := ns;
       topSizer := ts'; sizeTuple := sz; positionTuple := pos;
       closeHandler := ch; settings := st; trace := tr |}))).
Proof.
  unfold BaseContainer._RestoreSettings.
  destruct (st !! (ns, "Size")) eqn:E1, (st !! (ns, "Position")) eqn:E2.
  all: destruct ss, sp, ms;
    match goal with |- ?L = ?R =>
      let l := run_sd L in let r := run_sd R in change (l = r) end;
    rewrite ?E1, ?E2; reflexivity.
Qed.

Section StandardDialogProps.

Variable addButtonRow : Z * Z -> Z * Z.

(** With both buttons, a standard dialog is built as the plain dialog
    whose sizer holds the button row. *)
Lemma standard_dialog_as_dialog (w : window) :
  createOkButton w = true -> createCancelButton w = true ->
  StandardDialog.__init__ addButtonRow w =
    (fst (Dialog.__init__ (withButtonRow addButtonRow w)),
     set_topSizer (topSizer w)
       (snd (Dialog.__init__ (withButtonRow addButtonRow w)))).
Proof.
  intros Hok Hca.
  destruct w as [c ss sp bc ms ok ca tb mn ns ts sz pos ch st tr].
  cbn [createOkButton createCancelButton] in Hok, Hca. subst ok ca.
  cbn [topSizer].
  unfold StandardDialog.__init__, StandardDialog._OnCreate,
    StandardDialog.BaseContainer_OnCreate, StandardDialog._OnLayout,
    Dialog.__init__, Dialog._OnCreate, BaseContainer._OnCreate,
    BaseContainer._Initialize, BaseContainer._OnLayout.
  destruct bc, ts as [sizer|], ms as [m|].
  all: match goal with |- ?L = (fst ?R, set_topSizer ?t (snd ?R)) =>
         let l := run_sd L in let r := run_sd R in
         change (l = (fst r, set_topSizer t (snd r))) end.
  all: apply restore_topSizer.
Qed.

(** X3.  A standard dialog whose class creates both buttons is
    constructed without error, and exactly as the plain dialog whose
    layout hook returns the same sizer with the row of buttons already
    added: same events, same geometry, same store. *)
Theorem standard_dialog_adds_buttons (w : window) :
  createOkButton w = true -> createCancelButton w = true ->
  fst (StandardDialog.__init__ addButtonRow w) = Ok tt /\
  StandardDialog.__init__ addButtonRow w =
    (fst (Dialog.__init__ (withButtonRow addButtonRow w)),
     set_topSizer (topSizer w)
       (snd (Dialog.__init__ (withButtonRow addButtonRow w)))).
Proof.
  intros Hok Hca.
  pose proof (standard_dialog_as_dialog w Hok Hca) as E.
  split; [|exact E].
  rewrite E. cbn [fst].
  destruct (Dialog_init_returns (withButtonRow addButtonRow w)) as (w' & ->).
  reflexivity.
Qed.

(** X4.  A standard dialog whose layout hook returns a sizer but whose
    class clears [createOkButton] or [createCancelButton] cannot be
    constructed: the layout step reads the button that was never created
    and raises the attribute error, for the OK button first.  By then the
    create and layout hooks have run; no sizer is set, geometry restore
    is skipped, and size and position are as the toolkit gave them. *)
Theorem standard_dialog_missing_button (w : window) (sizer : Z * Z) :
  topSizer w = Some sizer ->
  createOkButton w && createCancelButton w = false ->
  exists w',
    StandardDialog.__init__ addButtonRow w =
      (Raise (AttributeError (if createOkButton w then "cancelButton"
                              else "okButton")), w') /\
    trace w' = trace w ++ untilLayout w /\
    sizeTuple w' = sizeTuple w /\
    positionTuple w' = positionTuple w /\
    settings w' = settings w.
Proof.
  destruct w as [c ss sp bc ms ok ca tb mn ns ts sz pos ch st tr].
  cbn [topSizer createOkButton createCancelButton]. intros -> Hb.
  unfold StandardDialog.__init__, StandardDialog._OnCreate,
    StandardDialog.BaseContainer_OnCreate, StandardDialog._OnLayout,
    BaseContainer._Initialize, untilLayout.
  destruct ok, ca; try discriminate Hb.
  all: destruct bc, ms as [m|].
  all: match goal with |- exists w', ?L = _ /\ _ =>
         let l := run_sd L in change L with l end.
  all: eexists; (split; [reflexivity|]).
  all: fields; rewrite <- ?app_assoc; cbn [app opt].
  all: repeat split; reflexivity.
Qed.

End StandardDialogProps.

(** Construction of a dialog, whatever [cls] says. *)
Lemma Dialog_init_geometry (w : window) :
  exists w', Dialog.__init__ w = (Ok tt, w') /\
    sizeTuple w' = constructedSize w /\
    positionTuple w' = constructedPosition w.
Proof.
  destruct w as [c ss sp bc ms ok ca tb mn ns ts sz pos ch st tr].
  unfold Dialog.__init__, BaseContainer._Initialize, Dialog._OnCreate.
  destruct ms as [m|], ok, ca; run.
  all: match goal with |- context [BaseContainer._OnCreate ?w1] =>
         destruct (base_OnCreate_geometry w1) as (w2 & -> & Hs & Hp) end.
  all: exists w2; (split; [reflexivity|]).
  all: rewrite Hs, Hp; unfold constructedSize, constructedPosition,
         fittedSize; fields.
  all: split; reflexivity.
Qed.

Lemma construct_geometry (w : window) :
  exists w', construct w = (Ok tt, w') /\
    sizeTuple w' = constructedSize w /\
    positionTuple w' = constructedPosition w.
Proof.
  destruct w as [c ss sp bc ms ok ca tb mn ns ts sz pos ch st tr].
  unfold construct, Dialog.__init__, Frame.__init__, Panel.__init__,
    BaseContainer._Initialize, Dialog._OnCreate, Frame._OnCreate.
  destruct c, ms as [m|], ok, ca, tb, mn; run.
  all: match goal with |- context [BaseContainer._OnCreate ?w1] =>
         destruct (base_OnCreate_geometry w1) as (w2 & -> & Hs & Hp) end.
  all: exists w2; (split; [reflexivity|]).
  all: rewrite Hs, Hp; unfold constructedSize, constructedPosition,
         fittedSize; fields.
  all: split; reflexivity.
Qed.

(** X2.  The geometry of a [Dialog], a [Frame] or a [Panel] once
    constructed, and of a [StandardDialog] that creates both buttons;
    their hooks return and touch neither the geometry nor the store.
    Construction returns.  The size is the stored "Size" when [saveSize]
    is set and the store holds one; otherwise the minimum size when
    [saveSize] and [minSize] are both set; otherwise the size of the
    fitted sizer (for a standard dialog, with the button row added) when
    the layout hook returned one and no minimum size is set; otherwise
    the size the toolkit gave the window.  The position is the stored
    "Position" when [savePosition] is set and the store holds one, and
    is otherwise untouched. *)
Theorem constructed_geometry (addButtonRow : Z * Z -> Z * Z) (w : window) :
  (fst (construct w) = Ok tt /\
   sizeTuple (after construct w) = constructedSize w /\
   positionTuple (after construct w) = constructedPosition w) /\
  (createOkButton w = true -> createCancelButton w = true ->
   fst (StandardDialog.__init__ addButtonRow w) = Ok tt /\
   sizeTuple (after (StandardDialog.__init__ addButtonRow) w) =
     constructedSize (withButtonRow addButtonRow w) /\
   positionTuple (after (StandardDialog.__init__ addButtonRow) w) =
     constructedPosition w).
Proof.
  split.
  - unfold after. destruct (construct_geometry w) as (w' & -> & Hs & Hp).
    cbn [fst snd]. auto.
  - intros Hok Hca. unfold after.
    rewrite (standard_dialog_as_dialog addButtonRow w Hok Hca).
    destruct (Dialog_init_geometry (withButtonRow addButtonRow w))
      as (w' & -> & Hs & Hp).
    cbn [fst snd]. split; [reflexivity|].
    destruct w, w'; cbn in *. split; [exact Hs|exact Hp].
Qed.





(** X3 at a standard dialog with both buttons whose button row adds 40
    to the height of the sizer. *)
Lemma standard_dialog_adds_buttons_witness :
  createOkButton (sample ClsDialog true true) = true /\
  createCancelButton (sample ClsDialog true true) = true /\
  fst (StandardDialog.__init__ buttonRow40 (sample ClsDialog true true))
    = Ok tt /\
  StandardDialog.__init__ buttonRow40 (sample ClsDialog true true) =
    (fst (Dialog.__init__
            (withButtonRow buttonRow40 (sample ClsDialog true true))),
     set_topSizer (topSizer (sample ClsDialog true true))
       (snd (Dialog.__init__
               (withButtonRow buttonRow40 (sample ClsDialog true true))))).
Proof.
  split; [reflexivity|]. split; [reflexivity|].
  apply (standard_dialog_adds_buttons buttonRow40
           (sample ClsDialog true true)); reflexivity.
Defined.

(** X4 at a standard dialog whose class clears [createCancelButton]. *)
Lemma standard_dialog_missing_button_witness :
  topSizer okOnly = Some (300, 200)%Z /\
  createOkButton okOnly && createCancelButton okOnly = false /\
  exists w',
    StandardDialog.__init__ buttonRow40 okOnly =
      (Raise (AttributeError "cancelButton"), w') /\
    trace w' = trace okOnly ++ untilLayout okOnly /\
    sizeTuple w' = sizeTuple okOnly /\
    positionTuple w' = positionTuple okOnly /\
    settings w' = settings okOnly.
Proof.
  split; [reflexivity|]. split; [reflexivity|].
  apply (standard_dialog_missing_button buttonRow40 okOnly (300, 200)%Z);
    reflexivity.
Defined.

End DialogsProps.

Module FieldLayoutProps.
Import FieldLayout.

(** The flag [CreateFieldLayout] gives the control at an index. *)
Lemma layout_loop (cs : list control) (n : Z) (s : FlexGridSizer) :
  let s' := fold_left
    (fun sizer '(index, control) =>
       let flag := ALIGN_CENTER_VERTICAL in
       let flag := if (index mod 2 =? 1)%Z then Z.lor flag EXPAND else flag in
       Add (Window control) flag sizer)
    (enumerate_from n cs) s in
  rows s' = rows s /\ cols s' = cols s /\ vgap s' = vgap s /\
  hgap s' = hgap s /\ growableCols s' = growableCols s /\
  children s' = children s ++
    List.map (fun '(index, c) =>
           (Window c, if (index mod 2 =? 1)%Z
               then Z.lor ALIGN_CENTER_VERTICAL EXPAND
               else ALIGN_CENTER_VERTICAL))
        (enumerate_from n cs).
Proof.
  revert n s. induction cs as [|c cs IH]; intros n s; cbn.
  - rewrite app_nil_r. repeat split; reflexivity.
  - specialize (IH (n + 1)%Z
      (Add (Window c)
         (if (n mod 2 =? 1)%Z then Z.lor ALIGN_CENTER_VERTICAL EXPAND
          else ALIGN_CENTER_VERTICAL) s)).
    cbn zeta in IH. destruct IH as (H1 & H2 & H3 & H4 & H5 & H6).
    rewrite H1, H2, H3, H4, H5, H6. cbn [Add rows cols vgap hgap growableCols children].
    rewrite <- app_assoc. repeat split; reflexivity.
Qed.

Lemma enumerate_lookup {A} (l : list A) (n : Z) (i : nat) (x : A) :
  l !! i = Some x ->
  enumerate_from n l !! i = Some ((n + Z.of_nat i)%Z, x).
Proof.
  revert n i. induction l as [|y l IH]; intros n i H; [discriminate|].
  destruct i as [|i].
  - injection H as ->. cbn. f_equal. f_equal. lia.
  - change (enumerate_from (n + 1) l !! i =
            Some ((n + Z.of_nat (S i))%Z, x)).
    rewrite (IH (n + 1)%Z i H). f_equal. f_equal. lia.
Qed.

Lemma enumerate_length {A} (l : list A) (n : Z) :
  length (enumerate_from n l) = length l.
Proof. revert n. induction l; intros n; cbn; [|rewrite IHl]; reflexivity. Qed.

Lemma odd_index (i : nat) : (Z.of_nat i mod 2 =? 1)%Z = Nat.odd i.
Proof.
  destruct (Nat.Even_or_Odd i) as [[k ->]|[k ->]].
  - rewrite Nat.odd_even.
    replace (Z.of_nat (2 * k)) with (Z.of_nat k * 2)%Z by lia.
    rewrite Z.mod_mul by lia. reflexivity.
  - rewrite Nat.odd_odd.
    replace (Z.of_nat (2 * k + 1)) with (1 + Z.of_nat k * 2)%Z by lia.
    rewrite Z.mod_add by lia. reflexivity.
Qed.

(** X5.  [CreateFieldLayout] builds a grid of two columns with the second
    one growable and adds every control in the order given, vertically
    centred; the controls at odd positions, and only those, also expand.
    The number of rows is half the number of controls rounded down, so
    for an odd number of controls the grid has one cell less than there
    are controls. *)
Theorem field_layout_items (controls : list control) :
  let sizer := CreateFieldLayout controls in
  cols sizer = 2%Z /\ growableCols sizer = [1%Z] /\
  length (children sizer) = length controls /\
  (forall i c, controls !! i = Some c ->
     exists flag, children sizer !! i = Some (Window c, flag) /\
       hasFlag flag ALIGN_CENTER_VERTICAL = true /\
       hasFlag flag EXPAND = Nat.odd i) /\
  (rows sizer * cols sizer =
     Z.of_nat (length controls) - (if Nat.odd (length controls) then 1 else 0))%Z.
Proof.
  intros sizer. subst sizer. unfold CreateFieldLayout, enumerate. cbn zeta.
  pose proof (layout_loop controls 0
    (AddGrowableCol 1
       (newFlexGridSizer (Z.of_nat (length controls) / 2) 2 5 5))) as H.
  cbn zeta in H. destruct H as (H1 & H2 & _ & _ & H5 & H6).
  rewrite H1, H2, H5, H6.
  cbn [AddGrowableCol newFlexGridSizer rows cols growableCols children app].
  split; [reflexivity|]. split; [reflexivity|].
  split; [rewrite length_map; apply enumerate_length|].
  split.
  - intros i c Hi.
    rewrite list_lookup_fmap, (enumerate_lookup _ _ _ _ Hi). cbn.
    eexists; split; [reflexivity|].
    rewrite Z.add_0_l, odd_index.
    destruct (Nat.odd i); split; reflexivity.
  - pose proof (odd_index (length controls)) as Ho.
    pose proof (Z.div_mod (Z.of_nat (length controls)) 2 ltac:(lia)) as Hd.
    pose proof (Z.mod_pos_bound (Z.of_nat (length controls)) 2 ltac:(lia)).
    destruct (Nat.odd (length controls)).
    + apply Z.eqb_eq in Ho. lia.
    + apply Z.eqb_neq in Ho. lia.
Qed.

Lemma columns_loop (columns : list Column) (n : Z) (s : FlexGridSizer) :
  Forall (fun c => ccls c = ClsEditDialogColumn) columns ->
  (n mod 2 = 0)%Z ->
  fold_left (fun sizer column => Layout column sizer) columns s =
  fold_left
    (fun sizer '(index, control) =>
       let flag := ALIGN_CENTER_VERTICAL in
       let flag := if (index mod 2 =? 1)%Z then Z.lor flag EXPAND else flag in
       Add (Window control) flag sizer)
    (enumerate_from n (controlsOf columns)) s.
Proof.
  revert n s. induction columns as [|c columns IH]; intros n s Hc Hn;
    [reflexivity|].
  pose proof (List.Forall_inv Hc) as Hcls. cbv beta in Hcls.
  apply List.Forall_inv_tail in Hc.
  cbn [fold_left controlsOf flat_map app enumerate_from].
  assert (H1 : ((n + 1) mod 2 =? 1)%Z = true).
  { apply Z.eqb_eq. rewrite <- Zplus_mod_idemp_l, Hn. reflexivity. }
  assert (H2 : ((n + 1 + 1) mod 2 = 0)%Z).
  { replace (n + 1 + 1)%Z with (n + 1 * 2)%Z by lia.
    rewrite Z.mod_add by lia. exact Hn. }
  rewrite Hn, H1. cbn [Z.eqb].
  unfold Layout at 2. rewrite Hcls.
  rewrite (IH (n + 1 + 1)%Z _ Hc H2). reflexivity.
Qed.

(** The loop of [OnLayout]: every column adds its two cells. *)
Lemma cells_loop (columns : list Column) (s : FlexGridSizer) :
  fold_left (fun sizer column => Layout column sizer) columns s =
  {| rows := rows s; cols := cols s; vgap := vgap s; hgap := hgap s;
     growableCols := growableCols s;
     children := children s ++ cellsOf columns |}.
Proof.
  revert s. induction columns as [|c columns IH]; intros s.
  - cbn. rewrite app_nil_r. destruct s; reflexivity.
  - cbn [fold_left cellsOf flat_map app]. rewrite IH.
    unfold Layout, fieldCell, EditDialogColumn.Layout,
      FileNameEditDialogColumn.Layout, Add.
    destruct (ccls c);
      cbn [rows cols vgap hgap growableCols children];
      rewrite <- !app_assoc; reflexivity.
Qed.

(** X6.  The layout hook of an edit dialog (and of a data edit panel)
    puts one grid alone in a vertical box, expanding, with a border of 5
    on all sides.  The grid has a row per column, two columns of which
    the second grows, and for every column of the dialog, in order, its
    label, vertically centred, and then, vertically centred and
    expanding, what the [Layout] of the column's class adds: the field
    for an [EditDialogColumn], and for a [FileNameEditDialogColumn] (or
    a [DirNameEditDialogColumn]) a horizontal box of the field and the
    button.  When every column is a plain [EditDialogColumn] this is
    exactly the grid [CreateFieldLayout] builds from the labels and
    fields taken in turn (label, field, label, field, ...). *)
Theorem dialog_layout_is_field_layout (columns : list Column) :
  EditDialog.OnLayout columns =
    {| orient := VERTICAL;
       boxChildren :=
         [({| rows := Z.of_nat (length columns); cols := 2; vgap := 5;
              hgap := 5; growableCols := [1%Z];
              children := cellsOf columns |},
           Z.lor ALL EXPAND, 5%Z)] |} /\
  (Forall (fun c => ccls c = ClsEditDialogColumn) columns ->
   EditDialog.OnLayout columns =
     {| orient := VERTICAL;
        boxChildren :=
          [(CreateFieldLayout (controlsOf columns),
            Z.lor ALL EXPAND, 5%Z)] |}).
Proof.
  split.
  - unfold EditDialog.OnLayout, EditDialog.GetFieldsSizer. cbn zeta.
    rewrite cells_loop. reflexivity.
  - intros Hc.
    unfold EditDialog.OnLayout, CreateFieldLayout, enumerate,
      EditDialog.GetFieldsSizer.
    cbn zeta. rewrite (columns_loop columns 0 _ Hc) by reflexivity.
    do 4 f_equal.
    assert (H : length (controlsOf columns) = 2 * length columns).
    { clear Hc. induction columns as [|c l IH]; [reflexivity|].
      change (length (label c :: field c :: controlsOf l) = 2 * S (length l)).
      cbn [length]. rewrite IH. lia. }
    rewrite H. f_equal.
    replace (Z.of_nat (2 * length columns))
      with (Z.of_nat (length columns) * 2)%Z by lia.
    rewrite Z.div_mul by lia. reflexivity.
Qed.

End FieldLayoutProps.

Module DataListActionsProps.
Import ceDatabase DataLists DataListsProps DataListActions.

(** X7.  Activating an item of the list (a double click) does exactly
    what the edit action does when that item is the only one selected.
    Assume that [List.GetItem] returns the item behind an index of the
    list and changes nothing.  Then for an index the list holds, with
    the row behind it in the data set, [OnItemActivated] at that index
    and [_OnEditItem] with that index as the whole selection have the
    same result and leave the same world; in particular both open
    nothing when the panel names no edit dialog. *)
Theorem activation_is_edit_action (list_GetItem : nat -> M listWorld nat)
    (self : listPanel) (w : listWorld) (itemIndex handle : nat) :
  gets_item list_GetItem ->
  selectedItemIndexes w = [itemIndex] ->
  rowHandles w !! itemIndex = Some handle ->
  is_Some (listRows w !! handle) ->
  DataListActions.DataListPanel.OnItemActivated self itemIndex w =
  DataListActions.DataList._OnEditItem list_GetItem self w.
Proof.
  intros Hg Hsel Hh [r Hr].
  assert (E1 : list.GetSelectedItemIndexes w = (Ok [itemIndex], w))
    by (unfold list.GetSelectedItemIndexes, gets; rewrite Hsel; reflexivity).
  assert (E2 : index (S := listWorld) [itemIndex] 0 w = (Ok itemIndex, w))
    by reflexivity.
  assert (E3 : index (rowHandles w) itemIndex w = (Ok handle, w))
    by (unfold index; rewrite Hh; reflexivity).
  assert (E4 : get w = (Ok w, w)) by reflexivity.
  unfold DataListActions.DataList._OnEditItem.
  rewrite (bind_ok _ _ _ _ _ E1). cbv beta.
  rewrite bool_decide_true by reflexivity. cbn [when].
  rewrite (bind_ok _ _ _ _ _ E2). cbv beta.
  rewrite (bind_ok _ _ _ _ _ (Hg itemIndex handle w Hh (ex_intro _ r Hr))).
  cbv beta.
  unfold DataListActions.DataListPanel.OnItemActivated.
  rewrite (bind_ok _ _ _ _ _ E4). cbv beta.
  rewrite (bind_ok _ _ _ _ _ E3). cbv beta.
  rewrite (bind_ok _ _ _ _ _ (row_run handle w r Hr)). cbv beta.
  unfold DataLists.DataList.CanEditItem, DataLists.DataList.OnEditItem.
  destruct (editDialogName self) as [name|] eqn:En; [reflexivity|].
  unfold DataLists.DataListPanel.EditItem,
    DataLists.DataListPanel.GetEditWindow, bind, ret, when.
  rewrite En. reflexivity.
Qed.

Lemma keep_from_app (sel a b : list nat) (k : nat) :
  keep_from k sel (a ++ b) =
  keep_from k sel a ++ keep_from (k + length a) sel b.
Proof.
  revert k. induction a as [|h a IH]; intros k.
  - cbn. rewrite Nat.add_0_r. reflexivity.
  - cbn [app keep_from length]. rewrite (IH (S k)).
    replace (S k + length a) with (k + S (length a)) by lia.
    destruct (bool_decide (k ∈ sel)); reflexivity.
Qed.

Lemma keep_from_below (sel l : list nat) (k : nat) :
  (forall i, i ∈ sel -> i < k) -> keep_from k sel l = l.
Proof.
  revert k. induction l as [|h l IH]; intros k H; [reflexivity|].
  cbn [keep_from]. rewrite bool_decide_false.
  - rewrite IH; [reflexivity|]. intros i Hi. specialize (H i Hi). lia.
  - intros Hk. specialize (H k Hk). lia.
Qed.

Lemma keep_from_ext (s1 s2 l : list nat) (k : nat) :
  (forall i, k <= i < k + length l -> (i ∈ s1 <-> i ∈ s2)) ->
  keep_from k s1 l = keep_from k s2 l.
Proof.
  revert k. induction l as [|h l IH]; intros k H; [reflexivity|].
  cbn [keep_from length] in *.
  rewrite (IH (S k)) by (intros i Hi; apply H; lia).
  rewrite (bool_decide_ext (k ∈ s1) (k ∈ s2)) by (apply H; lia).
  reflexivity.
Qed.

(** Taking out position [i] and then positions below [i] is taking them
    all out at once. *)
Lemma keep_from_delete (i : nat) (d l : list nat) :
  i < length l -> (forall j, j ∈ d -> j < i) ->
  keep_from 0 d (delete i l) = keep_from 0 (i :: d) l.
Proof.
  intros Hi Hd.
  destruct (lookup_lt_is_Some_2 l i Hi) as [x Hx].
  rewrite <- (take_drop_middle l i x Hx) at 2.
  rewrite delete_take_drop, !keep_from_app.
  rewrite length_take, Nat.min_l by lia. cbn [Nat.add keep_from].
  rewrite bool_decide_true by (apply elem_of_cons; left; reflexivity).
  rewrite (keep_from_below d (drop (S i) l) i) by exact Hd.
  rewrite (keep_from_below (i :: d) (drop (S i) l) (S i)).
  2:{ intros j Hj. apply elem_of_cons in Hj as [->|Hj]; [lia|].
      specialize (Hd j Hj). lia. }
  f_equal. apply keep_from_ext. intros j Hj.
  rewrite length_take, Nat.min_l in Hj by lia.
  rewrite elem_of_cons. split; [auto|]. intros [->|H]; [lia|exact H].
Qed.

Lemma sorted_snoc (l : list nat) (a : nat) :
  StronglySorted gt l -> Forall (fun x => x > a) l ->
  StronglySorted gt (l ++ [a]).
Proof.
  induction l as [|b l IH]; intros Hs Ha; cbn.
  - constructor; constructor.
  - apply StronglySorted_inv in Hs as [Hs Hb].
    constructor.
    + apply IH; [exact Hs|]. exact (List.Forall_inv_tail Ha).
    + apply List.Forall_app. split; [exact Hb|].
      constructor; [|constructor]. exact (List.Forall_inv Ha).
Qed.

Lemma sorted_rev (l : list nat) :
  StronglySorted lt l -> StronglySorted gt (rev l).
Proof.
  induction l as [|a l IH]; intros Hs; cbn; [constructor|].
  apply StronglySorted_inv in Hs as [Hs Ha].
  apply sorted_snoc; [apply IH, Hs|].
  apply List.Forall_rev. revert Ha. apply List.Forall_impl. intros x; lia.
Qed.

Section Deleting.

Variable list_DeleteItem : nat -> M listWorld unit.
Variable dataSet_Update : M listWorld unit.
Variable response : answer.

Hypothesis DeleteItem_spec : deletes_item list_DeleteItem.

(** The loop of [DeleteItems] over indexes in descending order. *)
Lemma delete_loop (d : list nat) (w : listWorld) :
  StronglySorted gt d ->
  Forall (fun i => i < length (rowHandles w)) d ->
  exists w', for_each d list_DeleteItem w = (Ok tt, w') /\
    rowHandles w' = keep_from 0 d (rowHandles w).
Proof.
  revert w. induction d as [|i d IH]; intros w Hs Hb.
  - exists w. split; [reflexivity|].
    symmetry. apply keep_from_below. intros i Hi. inversion Hi.
  - apply StronglySorted_inv in Hs as [Hs Hlt].
    pose proof (List.Forall_inv Hb) as Hi. cbv beta in Hi.
    apply List.Forall_inv_tail in Hb.
    destruct (DeleteItem_spec i w Hi) as (w1 & E1 & Hh1).
    assert (Hd : forall j, j ∈ d -> j < i).
    { intros j Hj. rewrite List.Forall_forall in Hlt.
      apply list_elem_of_In in Hj. specialize (Hlt j Hj). lia. }
    destruct (IH w1 Hs) as (w' & E' & Hh').
    { rewrite Hh1, length_delete by (apply lookup_lt_is_Some_2; exact Hi).
      apply List.Forall_forall. intros j Hj.
      apply list_elem_of_In in Hj. specialize (Hd j Hj). lia. }
    exists w'. split.
    + cbn [for_each]. rewrite (bind_ok _ _ _ _ _ E1). exact E'.
    + rewrite Hh', Hh1. apply keep_from_delete; assumption.
Qed.

Hypothesis Update_spec : keeps_items dataSet_Update.

(** X8.  Deleting back to front removes exactly the selected items.
    Assume that [List.DeleteItem] takes the item at the given index out
    of the list and that the data set's [Update] leaves the list alone.
    When the selected indexes come in ascending order and lie in the
    list, and the deletion is confirmed (or the panel sits inside an edit
    dialog, where nobody is asked), [DeleteItems] returns and the list
    holds the items that were not selected, in their order: no deletion
    shifts an index that is still to be used. *)
Theorem delete_removes_selected (self : listPanel) (items : list nat)
    (w : listWorld) :
  StronglySorted lt (selectedItemIndexes w) ->
  Forall (fun i => i < length (rowHandles w)) (selectedItemIndexes w) ->
  isPartOfEditDialog self = true \/ response = ID_YES ->
  exists w',
    DataListActions.DataListPanel.DeleteItems
      list_DeleteItem dataSet_Update response self items w = (Ok tt, w') /\
    rowHandles w' = unselected (selectedItemIndexes w) (rowHandles w).
Proof.
  intros Hs Hb Hgo.
  assert (Hloop : forall w0 : listWorld,
    selectedItemIndexes w0 = selectedItemIndexes w ->
    rowHandles w0 = rowHandles w ->
    exists w',
      (itemIndexes <- list.GetSelectedItemIndexes ;;
       for_each (rev itemIndexes) list_DeleteItem ;;
       when (negb (isPartOfEditDialog self)) dataSet_Update ;;
       list.Refresh) w0 = (Ok tt, w') /\
      rowHandles w' = unselected (selectedItemIndexes w) (rowHandles w)).
  { intros w0 Hsel0 Hh0.
    destruct (delete_loop (rev (selectedItemIndexes w)) w0)
      as (w1 & E1 & Hh1).
    { apply sorted_rev, Hs. }
    { rewrite Hh0. apply List.Forall_rev, Hb. }
    assert (Hk : rowHandles w1 =
                 unselected (selectedItemIndexes w) (rowHandles w)).
    { rewrite Hh1, Hh0. apply keep_from_ext. intros i _.
      rewrite !list_elem_of_In. symmetry. apply in_rev. }
    unfold list.GetSelectedItemIndexes.
    unfold bind at 1. unfold gets. rewrite Hsel0.
    rewrite (bind_ok _ _ _ _ _ E1).
    destruct (isPartOfEditDialog self); cbn [negb when].
    - unfold bind, ret, list.Refresh, log, modify.
      eexists; split; [reflexivity|]. exact Hk.
    - destruct (Update_spec w1) as (w2 & E2 & Hh2).
      rewrite (bind_ok _ _ _ _ _ E2).
      unfold list.Refresh, log, modify.
      eexists; split; [reflexivity|]. cbn. rewrite Hh2. exact Hk. }
  unfold DataListActions.DataListPanel.DeleteItems. cbn zeta.
  destruct (isPartOfEditDialog self) eqn:Ep; cbn [negb].
  - apply Hloop; reflexivity.
  - destruct Hgo as [Hgo|Hgo]; [discriminate|].
    rewrite bool_decide_false by (intros H; apply H; exact Hgo).
    unfold bind at 1. unfold log at 1, modify at 1.
    unfold bind at 1. unfold log at 1, modify at 1.
    apply Hloop; reflexivity.
Qed.

End Deleting.

(** X9.  A declined confirmation leaves the list as it was: outside an
    edit dialog, when the prompt is not answered with yes, [DeleteItems]
    shows and destroys the prompt and does nothing else, whatever is
    selected; [DeleteItem], [Update] and [Refresh] are not called. *)
Theorem delete_declined (list_DeleteItem : nat -> M listWorld unit)
    (dataSet_Update : M listWorld unit) (response : answer)
    (self : listPanel) (items : list nat) (w : listWorld) :
  isPartOfEditDialog self = false -> response <> ID_YES ->
  DataListActions.DataListPanel.DeleteItems
    list_DeleteItem dataSet_Update response self items w =
  (Ok tt, emit Destroy (emit ShowModal w)).
Proof.
  intros Hp Hr. unfold DataListActions.DataListPanel.DeleteItems.
  cbn zeta. rewrite Hp. cbn [negb].
  rewrite bool_decide_true by exact Hr. reflexivity.
Qed.

(** X10.  An entry the context menu shows disabled has an action that
    does nothing.  With as many selected items as selected indexes: when
    the Edit entry is disabled the edit action leaves the world as it
    was; when the Insert entry is disabled the insert action returns at
    once; when the Refresh entry is disabled (inside an edit dialog) the
    refresh action returns at once, without retrieving. *)
Theorem disabled_entries_do_nothing (list_Retrieve : M listWorld unit)
    (parent : listPanel) (items : list nat) (w : listWorld) :
  length items = length (selectedItemIndexes w) ->
  (DataListActions.DataList.editMenuItem
     (DataListActions.DataList.OnContextMenu parent items) = false ->
   snd (DataLists.DataList._OnEditItem parent w) = w) /\
  (DataListActions.DataList.insertMenuItem
     (DataListActions.DataList.OnContextMenu parent items) = false ->
   DataListActions.DataList._OnInsertItems parent w = (Ok tt, w)) /\
  (DataListActions.DataList.refreshMenuItem
     (DataListActions.DataList.OnContextMenu parent items) = false ->
   DataListActions.DataList._OnRefresh list_Retrieve parent w = (Ok tt, w)).
Proof.
  intros Hlen.
  unfold DataListActions.DataList.OnContextMenu. cbn zeta.
  cbn [DataListActions.DataList.editMenuItem
       DataListActions.DataList.insertMenuItem
       DataListActions.DataList.refreshMenuItem].
  split; [|split].
  - intros He.
    unfold DataLists.DataList._OnEditItem, list.GetSelectedItemIndexes.
    unfold bind at 1. unfold gets.
    destruct (decide (length (selectedItemIndexes w) = 1)) as [H1|H1].
    + rewrite bool_decide_true by exact H1.
      rewrite Hlen, H1 in He. cbn [Nat.eqb andb] in He.
      destruct items as [|item items]; [rewrite H1 in Hlen; discriminate|].
      unfold DataLists.DataList.CanEditItem in *.
      destruct (editDialogName parent); [discriminate|].
      unfold when, list.GetItem, list.row, index, bind, get, ret, raise.
      destruct (selectedItemIndexes w !! 0); [|reflexivity].
      destruct (rowHandles w !! n); [|reflexivity].
      destruct (listRows w !! n0); reflexivity.
    + rewrite bool_decide_false by exact H1. reflexivity.
  - unfold DataListActions.DataList._OnInsertItems.
    intros ->. reflexivity.
  - unfold DataListActions.DataList._OnRefresh.
    intros ->. reflexivity.
Qed.

(** X11.  The delete action is not guarded as its menu entry is.  With
    nothing selected the context menu disables the Delete entry, yet the
    delete action itself, outside an edit dialog, still asks for
    confirmation and, when the answer is yes, updates the data set and
    refreshes the list, deleting nothing. *)
Theorem delete_without_selection
    (list_GetSelectedItems : M listWorld (list nat))
    (list_DeleteItem : nat -> M listWorld unit)
    (dataSet_Update : M listWorld unit) (response : answer)
    (parent : listPanel) (w : listWorld) :
  selectedItemIndexes w = [] ->
  list_GetSelectedItems w = (Ok [], w) ->
  isPartOfEditDialog parent = false ->
  DataListActions.DataList.deleteMenuItem
    (DataListActions.DataList.OnContextMenu parent []) = false /\
  DataListActions.DataList._OnDeleteItems list_GetSelectedItems
    list_DeleteItem dataSet_Update response parent w =
  (log ShowModal ;;
   log Destroy ;;
   when (bool_decide (response = ID_YES))
     (dataSet_Update ;; list.Refresh)) w.
Proof.
  intros Hsel Hget Hp. split; [reflexivity|].
  unfold DataListActions.DataList._OnDeleteItems,
    DataListActions.DataList.OnDeleteItems,
    DataListActions.DataList.CanDeleteItems,
    DataListActions.DataListPanel.DeleteItems.
  rewrite (bind_ok _ _ _ _ _ Hget). cbn zeta. rewrite Hp. cbn [negb when].
  destruct response.
  - rewrite bool_decide_false by (intros H; apply H; reflexivity).
    rewrite bool_decide_true by reflexivity.
    unfold list.GetSelectedItemIndexes, when, bind, log, modify, gets.
    cbn [selectedItemIndexes set_listTrace]. rewrite Hsel. reflexivity.
  - rewrite bool_decide_true by discriminate.
    rewrite bool_decide_false by discriminate. reflexivity.
Qed.

Lemma GetItem_gets_item : gets_item list.GetItem.
Proof.
  intros i handle w Hh [r Hr].
  unfold list.GetItem, list.row, index, bind, get, ret. rewrite Hh, Hr.
  reflexivity.
Defined.

(** X7 at the sample list with its second item selected. *)
Lemma activation_is_edit_action_witness :
  gets_item list.GetItem /\
  selectedItemIndexes (Samples.listWith [1]) = [1] /\
  rowHandles (Samples.listWith [1]) !! 1 = Some 1 /\
  is_Some (listRows (Samples.listWith [1]) !! 1) /\
  DataListActions.DataListPanel.OnItemActivated
    (Samples.panelWith ID_OK) 1 (Samples.listWith [1]) =
  DataListActions.DataList._OnEditItem list.GetItem
    (Samples.panelWith ID_OK) (Samples.listWith [1]).
Proof.
  assert (Hr : is_Some (listRows (Samples.listWith [1]) !! 1))
    by (eexists; reflexivity).
  split; [exact GetItem_gets_item|]. split; [reflexivity|].
  split; [reflexivity|]. split; [exact Hr|].
  exact (activation_is_edit_action list.GetItem (Samples.panelWith ID_OK)
           (Samples.listWith [1]) 1 1 GetItem_gets_item eq_refl eq_refl Hr).
Defined.

Lemma dropItem_deletes : deletes_item dropItem.
Proof.
  intros i w _. eexists; split; reflexivity.
Defined.

Lemma ret_keeps_items : keeps_items (ret tt).
Proof.
  intros w. eexists; split; reflexivity.
Defined.

(** X8 at a list of five items with the second and the fourth selected:
    the first, third and fifth are left. *)
Lemma delete_removes_selected_witness :
  deletes_item dropItem /\ keeps_items (ret tt) /\
  StronglySorted lt (selectedItemIndexes fiveItems) /\
  Forall (fun i => i < length (rowHandles fiveItems))
    (selectedItemIndexes fiveItems) /\
  exists w',
    DataListActions.DataListPanel.DeleteItems dropItem (ret tt) ID_YES
      (Samples.panelWith ID_OK) [11; 13] fiveItems = (Ok tt, w') /\
    rowHandles w' = [10; 12; 14].
Proof.
  assert (Hs : StronglySorted lt (selectedItemIndexes fiveItems)).
  { cbn. repeat constructor. }
  assert (Hb : Forall (fun i => i < length (rowHandles fiveItems))
                 (selectedItemIndexes fiveItems)).
  { cbn. repeat constructor. }
  split; [exact dropItem_deletes|]. split; [exact ret_keeps_items|].
  split; [exact Hs|]. split; [exact Hb|].
  exact (delete_removes_selected dropItem (ret tt) ID_YES
           dropItem_deletes ret_keeps_items (Samples.panelWith ID_OK)
           [11; 13] fiveItems Hs Hb (or_intror eq_refl)).
Defined.

(** X9 at the sample list, the prompt answered with no. *)
Lemma delete_declined_witness :
  isPartOfEditDialog (Samples.panelWith ID_OK) = false /\ ID_NO <> ID_YES /\
  DataListActions.DataListPanel.DeleteItems dropItem (ret tt) ID_NO
    (Samples.panelWith ID_OK) [1] (Samples.listWith [1]) =
  (Ok tt, emit Destroy (emit ShowModal (Samples.listWith [1]))).
Proof.
  split; [reflexivity|]. split; [discriminate|].
  apply (delete_declined dropItem (ret tt) ID_NO (Samples.panelWith ID_OK)
           [1] (Samples.listWith [1])); [reflexivity|discriminate].
Defined.

(** X10 at the sample list with nothing selected. *)
Lemma disabled_entries_do_nothing_witness :
  length (@nil nat) = length (selectedItemIndexes (Samples.listWith [])) /\
  ((DataListActions.DataList.editMenuItem
      (DataListActions.DataList.OnContextMenu (Samples.panelWith ID_OK) [])
      = false ->
    snd (DataLists.DataList._OnEditItem (Samples.panelWith ID_OK)
           (Samples.listWith [])) = Samples.listWith []) /\
   (DataListActions.DataList.insertMenuItem
      (DataListActions.DataList.OnContextMenu (Samples.panelWith ID_OK) [])
      = false ->
    DataListActions.DataList._OnInsertItems (Samples.panelWith ID_OK)
      (Samples.listWith []) = (Ok tt, Samples.listWith [])) /\
   (DataListActions.DataList.refreshMenuItem
      (DataListActions.DataList.OnContextMenu (Samples.panelWith ID_OK) [])
      = false ->
    DataListActions.DataList._OnRefresh (ret tt) (Samples.panelWith ID_OK)
      (Samples.listWith []) = (Ok tt, Samples.listWith []))).
Proof.
  split; [reflexivity|].
  apply (disabled_entries_do_nothing (ret tt) (Samples.panelWith ID_OK) []
           (Samples.listWith [])).
  reflexivity.
Defined.

(** X11 at the sample list with nothing selected. *)
Lemma delete_without_selection_witness :
  selectedItemIndexes (Samples.listWith []) = [] /\
  ret [] (Samples.listWith []) = (Ok (@nil nat), Samples.listWith []) /\
  isPartOfEditDialog (Samples.panelWith ID_OK) = false /\
  DataListActions.DataList.deleteMenuItem
    (DataListActions.DataList.OnContextMenu (Samples.panelWith ID_OK) [])
    = false /\
  DataListActions.DataList._OnDeleteItems (ret []) dropItem (ret tt) ID_YES
    (Samples.panelWith ID_OK) (Samples.listWith []) =
  (log ShowModal ;;
   log Destroy ;;
   when (bool_decide (ID_YES = ID_YES))
     (ret tt ;; list.Refresh)) (Samples.listWith []).
Proof.
  split; [reflexivity|]. split; [reflexivity|]. split; [reflexivity|].
  apply (delete_without_selection (ret []) dropItem (ret tt) ID_YES
           (Samples.panelWith ID_OK) (Samples.listWith []));
    reflexivity.
Defined.

End DataListActionsProps.

Module EditWindowsProps.
Import ContainerControls Dialogs ceDatabase DataEditors EditWindows.
Import ContainerControlsProps DataEditorsProps.

Lemma setattr_same (r : Row) (a : string) (v : value) :
  attrs r !! a = Some v -> setattr r a v = r.
Proof.
  intros H. destruct r as [n k m]. unfold setattr. cbn in *.
  rewrite insert_id by exact H. reflexivity.
Qed.

Lemma commitBinding_same (w : world) (b : binding) (row : Row) :
  rowsOf w (snd b) !! 0 = Some row ->
  attrs row !! attrName (fst b) = Some (valueIn w (fst b)) ->
  forall ds, dataSets (commitBinding w b) ds = dataSets w ds.
Proof.
  intros Hr Ha ds. unfold commitBinding.
  destruct (editableIn w (fst b)); [|reflexivity].
  rewrite Hr, (setattr_same _ _ _ Ha).
  unfold store, emit. cbn [dataSets set_dataSets set_win rowsOf].
  destruct (decide (snd b = ds)) as [E|Hne].
  - subst ds. rewrite fn_lookup_insert.
    unfold rowsOf in *. cbn [dataSets set_win] in *.
    rewrite insert_id by exact Hr.
    destruct (dataSets w (snd b)); reflexivity.
  - rewrite fn_lookup_insert_ne by exact Hne. reflexivity.
Qed.

Lemma inSync_ext (w w' : world) (bs : list binding) :
  fields w' = fields w -> (forall ds, dataSets w' ds = dataSets w ds) ->
  inSync w bs -> inSync w' bs.
Proof.
  intros Hf Hd H b Hb He.
  rewrite (editableIn_fields w) in He by exact Hf.
  destruct (H b Hb He) as (row & Hr & Ha).
  exists row. unfold rowsOf. rewrite Hd.
  rewrite (valueIn_fields w) by exact Hf. auto.
Qed.

(** A commit over bindings that are in sync writes back what is there. *)
Lemma commit_in_sync (bs : list binding) (w : world) :
  inSync w bs ->
  (forall ds, dataSets (snd (for_each bs commitStep w)) ds = dataSets w ds) /\
  fields (snd (for_each bs commitStep w)) = fields w.
Proof.
  revert w. induction bs as [|b bs IH]; intros w Hs; [split; reflexivity|].
  cbn [for_each]. unfold bind.
  assert (Hs' : inSync w bs) by (intros b' Hb'; apply Hs; right; exact Hb').
  destruct (editableIn w (fst b)) eqn:He.
  - destruct (Hs b (or_introl eq_refl) He) as (row & Hr & Ha).
    destruct (required (fst b) && is_None (valueIn w (fst b))) eqn:Hq.
    + apply andb_prop in Hq as [Hq Hn].
      rewrite commitStep_fail; [split; reflexivity|exact He|exact Hq|].
      destruct (valueIn w (fst b)); [reflexivity|discriminate..].
    + rewrite commitStep_pass; [|exact He| |].
      * pose proof (commitBinding_same w b row Hr Ha) as Hd.
        pose proof (commitBinding_fields w b) as Hf.
        destruct (IH (commitBinding w b)) as [H1 H2].
        { apply (inSync_ext w); assumption. }
        split; [intros ds; rewrite H1; apply Hd|].
        rewrite H2. exact Hf.
      * intros _ Hq' Hv. rewrite Hq', Hv in Hq. discriminate.
      * intros _. exists row. exact Hr.
  - rewrite commitStep_skip by exact He. apply IH, Hs'.
Qed.

Lemma NoDup_later (cols pre post : list Column) (c : Column) :
  List.NoDup (List.map field cols) -> cols = pre ++ c :: post ->
  Forall (fun c' => field c' <> field c) post.
Proof.
  intros Hn ->. rewrite List.map_app in Hn. cbn [List.map] in Hn.
  apply List.NoDup_remove_2 in Hn.
  apply List.Forall_forall. intros c' Hc' E. apply Hn.
  apply in_or_app. right. rewrite <- E. apply in_map, Hc'.
Qed.

(** X12.  A refresh followed at once by a commit changes no row.  For a
    panel whose columns are bound to distinct fields and whose row 0
    holds every bound attribute: after [Retrieve], [OnPreUpdate] leaves
    every data set as it was before the refresh (each write puts back the
    value that is there) and leaves the widgets as the refresh set them,
    whether the commit returns or stops at a required field whose
    attribute is [None]. *)
Theorem refresh_then_commit_keeps_rows (p : DataEditPanel.panel) (w : world)
    (row : Row) :
  rowsOf w (DataEditPanel.dataSet p) !! 0 = Some row ->
  Forall (fun c => is_Some (attrs row !! attrName c))
    (DataEditPanel.columns p) ->
  List.NoDup (List.map field (DataEditPanel.columns p)) ->
  (forall ds,
     dataSets (snd (DataEditPanel.OnPreUpdate p
                      (snd (DataEditPanel.Retrieve p w)))) ds =
     dataSets w ds) /\
  fields (snd (DataEditPanel.OnPreUpdate p
                 (snd (DataEditPanel.Retrieve p w)))) =
  fields (snd (DataEditPanel.Retrieve p w)).
Proof.
  intros Hr Ha Hn.
  pose proof (Retrieve_data p w) as Hd. unfold sameData in Hd.
  set (w1 := snd (DataEditPanel.Retrieve p w)) in *.
  assert (Hf : fields w1 =
               fields (refreshed row (DataEditPanel.columns p) w)).
  { subst w1. rewrite (Retrieve_run p w row Hr Ha). cbn [snd].
    destruct (firstEditable w (DataEditPanel.columns p)); reflexivity. }
  assert (Hs : inSync w1 (pageBindings (EditPage p))).
  { intros b Hb _. cbn [pageBindings] in Hb.
    apply in_map_iff in Hb as (c & <- & Hc). cbn [fst snd].
    exists row. split; [unfold rowsOf; rewrite Hd; exact Hr|].
    destruct (in_split _ _ Hc) as (pre & post & Hsplit).
    pose proof (NoDup_later _ pre post c Hn Hsplit) as Hpost.
    rewrite List.Forall_forall in Ha. destruct (Ha c Hc) as [v Hv].
    rewrite Hv. f_equal. symmetry.
    unfold valueIn. rewrite Hf, Hsplit.
    apply (refreshed_value row pre post c w v Hv Hpost). }
  assert (E : DataEditPanel.OnPreUpdate p w1 =
              for_each (pageBindings (EditPage p)) commitStep w1).
  { cbn [pageBindings]. unfold DataEditPanel.OnPreUpdate.
    rewrite for_each_map. reflexivity. }
  rewrite E. destruct (commit_in_sync _ w1 Hs) as [H1 H2].
  split; [|exact H2]. intros ds. rewrite H1, Hd. reflexivity.
Qed.

(** The retrieval of a dialog, other than an [EditDialogChild], that is
    opened on an item. *)
Lemma Retrieve_by_key (d : dialog) (w : world) (item : Row)
    (args : list value) :
  parentItem d = Some item -> dcls d <> ClsEditDialogChild ->
  getattrs item (pkAttrNames item) = Ok args ->
  exists w1,
    Retrieve d w =
      (if bool_decide (length (query (dataSets w (dataSet d)) args) <> 1)
       then Raise NoDataFound else Ok tt, w1) /\
    win w1 = set_trace (trace (win w) ++ [DataSetRetrieve (dataSet d) args])
               (win w) /\
    fields w1 = fields w /\ focus w1 = focus w /\
    rowsOf w1 (dataSet d) = map_seq 0 (query (dataSets w (dataSet d)) args).
Proof.
  intros Hp Hc Ha.
  assert (E : Retrieve d w = EditDialogBase.Retrieve d w)
    by (unfold Retrieve; destruct (dcls d); congruence).
  rewrite E. unfold EditDialogBase.Retrieve. rewrite Hp, Ha.
  cbv [bind lift_result dataSet.Retrieve get log zoom modify snd fst
       ContainerControls.log].
  set (w1 := set_dataSets _ _).
  assert (Hrows : rowsOf w1 (dataSet d) =
                  map_seq 0 (query (dataSets w (dataSet d)) args)).
  { unfold rowsOf, w1. cbn [dataSets set_dataSets set_win].
    rewrite fn_lookup_insert. reflexivity. }
  exists w1. rewrite Hrows, size_map_seq.
  split; [|repeat split; exact Hrows || reflexivity].
  unfold when, raise, ret.
  destruct (bool_decide (length (query (dataSets w (dataSet d)) args) <> 1));
    reflexivity.
Qed.

(** X13.  A dialog opened on an item for which the query does not return
    exactly one row is never built.  For a dialog other than an
    [EditDialogChild]: the constructor raises the no-data error right
    after the retrieval; no toolkit call is made and no hook runs (the
    window is as before but for the retrieval in the trace), and no
    widget is set or focused.  The constructor of [EditDialog] stops at
    the same point. *)
Theorem open_without_row_builds_nothing (addButtonRow : Z * Z -> Z * Z)
    (d : dialog) (w : world) (item : Row) (args : list value) :
  parentItem d = Some item -> dcls d <> ClsEditDialogChild ->
  getattrs item (pkAttrNames item) = Ok args ->
  length (query (dataSets w (dataSet d)) args) <> 1 ->
  exists w',
    __init__ addButtonRow d w = (Raise NoDataFound, w') /\
    EditDialog.__init__ addButtonRow d w = (Raise NoDataFound, w') /\
    win w' = set_trace (trace (win w) ++ [DataSetRetrieve (dataSet d) args])
               (win w) /\
    fields w' = fields w /\ focus w' = focus w.
Proof.
  intros Hp Hc Ha Hl.
  destruct (Retrieve_by_key d w item args Hp Hc Ha)
    as (w1 & E & Hw & Hf & Ho & _).
  rewrite bool_decide_true in E by exact Hl.
  assert (Ei : __init__ addButtonRow d w = (Raise NoDataFound, w1)).
  { unfold __init__, bind. rewrite E. reflexivity. }
  exists w1. split; [exact Ei|].
  split; [unfold EditDialog.__init__, bind; rewrite Ei; reflexivity|].
  auto.
Qed.

(** X14.  No edit dialog can be constructed.  [EditDialogBase.__init__]
    calls the constructor of [StandardDialog] with two arguments,
    [parent] and [instanceName], and that constructor takes [parent]
    alone: when the retrieval returns, the call raises [TypeError]; when
    the retrieval raises, that error goes through.  Either way the
    constructor does not return, and the world is as the retrieval left
    it: no toolkit call is made, no hook runs, no widget is set.  The
    constructor of [EditDialog] stops at the same point, so its columns
    are never set from the row. *)
Theorem open_raises_type_error (addButtonRow : Z * Z -> Z * Z) (d : dialog)
    (w : world) :
  __init__ addButtonRow d w =
    (match fst (Retrieve d w) with
     | Ok _ => Raise TypeError
     | Raise e => Raise e
     end, snd (Retrieve d w)) /\
  EditDialog.__init__ addButtonRow d w = __init__ addButtonRow d w /\
  fst (__init__ addButtonRow d w) <> Ok tt.
Proof.
  assert (E : __init__ addButtonRow d w =
    (match fst (Retrieve d w) with
     | Ok _ => Raise TypeError
     | Raise e => Raise e
     end, snd (Retrieve d w))).
  { unfold __init__, bind.
    destruct (Retrieve d w) as [[[]|e] w1]; cbn [fst snd]; [|reflexivity].
    unfold zoom, StandardDialog.call__init__. cbn [Nat.eqb].
    unfold raise. destruct w1; reflexivity. }
  split; [exact E|]. split.
  - unfold EditDialog.__init__, bind. rewrite E.
    destruct (fst (Retrieve d w)); reflexivity.
  - rewrite E. cbn [fst]. destruct (fst (Retrieve d w)); discriminate.
Qed.

(** *** Refreshing twice *)

Lemma SetValue_missing (c : Column) (row : Row) (w : world) :
  attrs row !! attrName c = None ->
  EditDialogColumn.SetValue c row w = (Raise (AttributeError (attrName c)), w).
Proof.
  intros Hv. unfold EditDialogColumn.SetValue, getattr, lift_result, bind.
  rewrite Hv. reflexivity.
Qed.

(** The loop of a refresh, whether or not the row holds every attribute. *)
Lemma setValues_any (row : Row) (cols : list Column) (acc : option nat)
    (w : world) :
  for_fold cols acc (fun focusField column =>
    EditDialogColumn.SetValue column row ;;
    match focusField with
    | None =>
        isEditable <- EditDialogColumn.IsEditable column ;;
        ret (if isEditable then Some (field column) else None)
    | Some f => ret (Some f)
    end) w =
  (match missing row cols with
   | None =>
       Ok (match acc with Some f => Some f | None => firstEditable w cols end)
   | Some a => Raise (AttributeError a)
   end,
   refreshed row (reached row cols) w).
Proof.
  revert acc w. induction cols as [|c cols IH]; intros acc w.
  - destruct acc; reflexivity.
  - cbn [for_fold missing reached]. unfold bind at 1 2.
    destruct (attrs row !! attrName c) as [v|] eqn:Hv.
    + rewrite (SetValue_run c row w v Hv).
      cbn [refreshed foldl]. fold (refreshed row (reached row cols)
                                     (refreshColumn row w c)).
      destruct acc as [f|].
      * unfold ret at 1. rewrite IH. reflexivity.
      * unfold bind at 1. rewrite IsEditable_run. unfold ret at 1.
        rewrite IH. rewrite editableIn_refreshColumn.
        unfold firstEditable at 2. cbn [List.find].
        destruct (editableIn w c); [reflexivity|].
        rewrite firstEditable_refreshColumn. reflexivity.
    + rewrite (SetValue_missing c row w Hv). reflexivity.
Qed.

Lemma Retrieve_any (p : DataEditPanel.panel) (w : world) (row : Row) :
  rowsOf w (DataEditPanel.dataSet p) !! 0 = Some row ->
  DataEditPanel.Retrieve p w =
    match missing row (DataEditPanel.columns p) with
    | None =>
        (Ok tt,
         match firstEditable w (DataEditPanel.columns p) with
         | Some f =>
             set_focus (Some f)
               (emit (FieldSetFocus f)
                  (refreshed row (reached row (DataEditPanel.columns p)) w))
         | None => refreshed row (reached row (DataEditPanel.columns p)) w
         end)
    | Some a =>
        (Raise (AttributeError a),
         refreshed row (reached row (DataEditPanel.columns p)) w)
    end.
Proof.
  intros Hr. unfold DataEditPanel.Retrieve, dataSet.row, bind at 1 2.
  unfold get. rewrite Hr. unfold ret at 1. unfold bind, setValues.
  rewrite setValues_any.
  destruct (missing row (DataEditPanel.columns p)); [reflexivity|].
  destruct (firstEditable w (DataEditPanel.columns p)); reflexivity.
Qed.

Lemma Retrieve_no_row (p : DataEditPanel.panel) (w : world) :
  rowsOf w (DataEditPanel.dataSet p) !! 0 = None ->
  DataEditPanel.Retrieve p w = (Raise (KeyError 0), w).
Proof.
  intros Hr. unfold DataEditPanel.Retrieve, dataSet.row, bind at 1 2.
  unfold get. rewrite Hr. reflexivity.
Qed.

(** A field after a refresh: it shows what the last column bound to it
    set, and is otherwise as before. *)
Lemma refreshed_fields (row : Row) (cols : list Column) (w : world)
    (f : nat) :
  fields (refreshed row cols w) f =
    match lastShown row cols f with
    | Some v => {| widget := widget (fields w f);
                   editable := editable (fields w f);
                   fieldValue := v |}
    | None => fields w f
    end.
Proof.
  revert w. induction cols as [|c cols IH]; intros w; [reflexivity|].
  cbn [refreshed foldl lastShown].
  fold (refreshed row cols (refreshColumn row w c)). rewrite IH.
  assert (Hw : widget (fields (refreshColumn row w c) f) = widget (fields w f)
               /\ editable (fields (refreshColumn row w c) f)
                  = editable (fields w f)).
  { unfold refreshColumn. destruct (attrs row !! attrName c);
      [|split; reflexivity].
    unfold show. cbn [fields set_fields emit set_win].
    destruct (decide (field c = f)) as [<-|Hne].
    - rewrite fn_lookup_insert. split; reflexivity.
    - rewrite fn_lookup_insert_ne by exact Hne. split; reflexivity. }
  destruct Hw as [Hw He].
  destruct (lastShown row cols f) as [v|]; [rewrite Hw, He; reflexivity|].
  destruct (decide (field c = f)) as [E|Hne].
  - rewrite bool_decide_true by exact E. subst f.
    unfold refreshColumn. destruct (attrs row !! attrName c); [|reflexivity].
    unfold show. cbn [fields set_fields emit set_win].
    rewrite fn_lookup_insert. reflexivity.
  - rewrite bool_decide_false by exact Hne.
    apply refreshColumn_other, Hne.
Qed.

Lemma refreshed_focus (row : Row) (cols : list Column) (w : world) :
  focus (refreshed row cols w) = focus w.
Proof.
  revert w. induction cols as [|c cols IH]; intros w; [reflexivity|].
  cbn [refreshed foldl]. fold (refreshed row cols (refreshColumn row w c)).
  rewrite IH. unfold refreshColumn.
  destruct (attrs row !! attrName c); reflexivity.
Qed.

Lemma firstEditable_refreshed (row : Row) (cols' cols : list Column)
    (w : world) :
  firstEditable (refreshed row cols' w) cols = firstEditable w cols.
Proof.
  revert w. induction cols' as [|c cols' IH]; intros w; [reflexivity|].
  cbn [refreshed foldl]. fold (refreshed row cols' (refreshColumn row w c)).
  rewrite IH. apply firstEditable_refreshColumn.
Qed.

(** A second refresh over what a first one left sets every field to what
    it shows already. *)
Lemma refreshed_again (row : Row) (cols : list Column) (w w1 : world) :
  (forall f, fields w1 f = fields (refreshed row cols w) f) ->
  forall f, fields (refreshed row cols w1) f = fields w1 f.
Proof.
  intros H f. rewrite refreshed_fields, (H f), refreshed_fields.
  destruct (lastShown row cols f); reflexivity.
Qed.

(** X15.  Refreshing a panel twice is refreshing it once.  Whatever the
    world, a second [Retrieve] right after a first has the same outcome
    (it returns, or raises the same error at the same column) and leaves
    every widget, the focus and the data sets exactly as the first left
    them. *)
Theorem refresh_twice (p : DataEditPanel.panel) (w : world) :
  fst (DataEditPanel.Retrieve p (snd (DataEditPanel.Retrieve p w))) =
    fst (DataEditPanel.Retrieve p w) /\
  sameView (snd (DataEditPanel.Retrieve p w))
    (snd (DataEditPanel.Retrieve p (snd (DataEditPanel.Retrieve p w)))).
Proof.
  pose proof (Retrieve_data p w) as Hd. unfold sameData in Hd.
  pose proof (Retrieve_data p (snd (DataEditPanel.Retrieve p w))) as Hd2.
  unfold sameData in Hd2.
  destruct (rowsOf w (DataEditPanel.dataSet p) !! 0) as [row|] eqn:Hr.
  - set (w1 := snd (DataEditPanel.Retrieve p w)) in *.
    assert (Hr1 : rowsOf w1 (DataEditPanel.dataSet p) !! 0 = Some row)
      by (unfold rowsOf; rewrite Hd; exact Hr).
    set (rc := reached row (DataEditPanel.columns p)).
    assert (Hf1 : forall f, fields w1 f = fields (refreshed row rc w) f).
    { intros f. subst w1. rewrite (Retrieve_any p w row Hr).
      destruct (missing row (DataEditPanel.columns p)); [reflexivity|].
      destruct (firstEditable w (DataEditPanel.columns p)); reflexivity. }
    assert (He1 : firstEditable w1 (DataEditPanel.columns p) =
                  firstEditable w (DataEditPanel.columns p)).
    { unfold firstEditable.
      assert (Hfind : forall cols,
                List.find (editableIn w1) cols = List.find (editableIn w) cols).
      { intros cols. induction cols as [|c l IH]; [reflexivity|].
        cbn [List.find]. rewrite IH.
        replace (editableIn w1 c) with (editableIn w c); [reflexivity|].
        unfold editableIn. rewrite Hf1, refreshed_fields.
        destruct (lastShown row rc (field c)); reflexivity. }
      rewrite Hfind. reflexivity. }
    rewrite (Retrieve_any p w1 row Hr1), He1.
    assert (Ew1 : DataEditPanel.Retrieve p w = (fst (DataEditPanel.Retrieve p w), w1))
      by (subst w1; destruct (DataEditPanel.Retrieve p w); reflexivity).
    rewrite (Retrieve_any p w row Hr) in Ew1.
    fold rc in Ew1 |- *.
    pose proof (refreshed_again row rc w w1 Hf1) as Hagain.
    pose proof (refreshed_data row rc w1) as Hdata.
    pose proof (refreshed_focus row rc w1) as Hfoc.
    rewrite (Retrieve_any p w row Hr). fold rc.
    destruct (missing row (DataEditPanel.columns p)) as [a|].
    + cbn [fst snd]. split; [reflexivity|].
      split; [exact Hagain|]. split; assumption.
    + destruct (firstEditable w (DataEditPanel.columns p)) as [f|] eqn:Hfe;
        cbn [fst snd]; (split; [reflexivity|]).
      * split; [exact Hagain|]. split; [|exact Hdata].
        cbn [focus set_focus]. injection Ew1 as Ew1. rewrite <- Ew1.
        reflexivity.
      * split; [exact Hagain|]. split; assumption.
  - rewrite (Retrieve_no_row p w Hr). cbn [snd fst].
    rewrite (Retrieve_no_row p w Hr). cbn [snd fst].
    split; [reflexivity|]. split; [intros f; reflexivity|].
    split; reflexivity.
Qed.

(** *** The properties at the sample dialogs *)

Lemma person_holds_columns :
  Forall (fun c => is_Some (attrs Samples.person !! attrName c))
    [Samples.nameColumn; Samples.emailColumn].
Proof. repeat constructor; eexists; reflexivity. Defined.

(** X12 at the sample panel on the person's name and email. *)
Lemma refresh_then_commit_keeps_rows_witness :
  rowsOf Samples.world0 (DataEditPanel.dataSet Samples.personPanel) !! 0
    = Some Samples.person /\
  Forall (fun c => is_Some (attrs Samples.person !! attrName c))
    (DataEditPanel.columns Samples.personPanel) /\
  List.NoDup (List.map field (DataEditPanel.columns Samples.personPanel)) /\
  (forall ds,
     dataSets (snd (DataEditPanel.OnPreUpdate Samples.personPanel
                      (snd (DataEditPanel.Retrieve Samples.personPanel
                              Samples.world0)))) ds =
     dataSets Samples.world0 ds) /\
  fields (snd (DataEditPanel.OnPreUpdate Samples.personPanel
                 (snd (DataEditPanel.Retrieve Samples.personPanel
                         Samples.world0)))) =
  fields (snd (DataEditPanel.Retrieve Samples.personPanel Samples.world0)).
Proof.
  assert (H1 : rowsOf Samples.world0
                 (DataEditPanel.dataSet Samples.personPanel) !! 0
               = Some Samples.person) by reflexivity.
  assert (H3 : List.NoDup
                 (List.map field (DataEditPanel.columns Samples.personPanel))).
  { cbn. repeat constructor; cbn; intuition discriminate. }
  split; [exact H1|]. split; [exact person_holds_columns|].
  split; [exact H3|].
  exact (refresh_then_commit_keeps_rows Samples.personPanel Samples.world0
           Samples.person H1 person_holds_columns H3).
Defined.

(** X13 at a dialog opened on an item the query does not find. *)
Lemma open_without_row_builds_nothing_witness :
  parentItem editStranger = Some stranger /\
  dcls editStranger <> ClsEditDialogChild /\
  getattrs stranger (pkAttrNames stranger) = Ok [VInt 8] /\
  length (query (dataSets Samples.world0 (dataSet editStranger)) [VInt 8])
    <> 1 /\
  exists w',
    __init__ buttonRow40 editStranger Samples.world0
      = (Raise NoDataFound, w') /\
    EditDialog.__init__ buttonRow40 editStranger Samples.world0
      = (Raise NoDataFound, w') /\
    win w' = set_trace (trace (win Samples.world0) ++
                          [DataSetRetrieve (dataSet editStranger) [VInt 8]])
               (win Samples.world0) /\
    fields w' = fields Samples.world0 /\ focus w' = focus Samples.world0.
Proof.
  assert (H2 : dcls editStranger <> ClsEditDialogChild) by discriminate.
  assert (H4 : length (query (dataSets Samples.world0 (dataSet editStranger))
                         [VInt 8]) <> 1) by (cbn; discriminate).
  split; [reflexivity|]. split; [exact H2|]. split; [reflexivity|].
  split; [exact H4|].
  exact (open_without_row_builds_nothing buttonRow40 editStranger
           Samples.world0 stranger [VInt 8] eq_refl H2 eq_refl H4).
Defined.

End EditWindowsProps.

Module FileNamesProps.
Import DataLists FileNames.

Lemma string_length_append (a b : string) :
  String.length (String.append a b) = String.length a + String.length b.
Proof.
  induction a as [|c a IH]; [reflexivity|].
  change (S (String.length (String.append a b)) =
          S (String.length a + String.length b)).
  f_equal. exact IH.
Qed.

Lemma substring_whole (s : string) :
  String.substring 0 (String.length s) s = s.
Proof.
  induction s as [|c s IH]; [reflexivity|].
  change (String c (String.substring 0 (String.length s) s) = String c s).
  f_equal. exact IH.
Qed.

Lemma substring_suffix (a b : string) :
  String.substring (String.length a) (String.length b) (String.append a b) = b.
Proof.
  induction a as [|c a IH]; [apply substring_whole|exact IH].
Qed.

Lemma endswith_append (s suffix : string) :
  endswith (String.append s suffix) suffix = true.
Proof.
  unfold endswith. rewrite string_length_append.
  replace (String.length s + String.length suffix - String.length suffix)
    with (String.length s) by lia.
  rewrite substring_suffix, String.eqb_refl, andb_true_r.
  apply Nat.leb_le. lia.
Qed.

(** X16.  Where [os.path.normcase] changes nothing (as on POSIX), a file
    name chosen in the dialog of a column with an extension always ends
    with the extension once [OnSelectFileName] has set it on the field:
    the extension is added to a name that lacks it, and a name that has
    it is set as chosen.  When the dialog is not confirmed the field
    keeps its value. *)
Theorem chosen_file_has_extension (normcase : string -> string)
    (split : string -> string * string)
    (FileDialog : string -> string -> string -> modalResult * string)
    (ext : string) (v : option string) (result : modalResult)
    (path : string) :
  (forall s, normcase s = s) ->
  FileDialog (String.append "*" ext)
    (fst (FileNameEditDialogColumn.GetDefaultDirAndFileName split v))
    (snd (FileNameEditDialogColumn.GetDefaultDirAndFileName split v))
    = (result, path) ->
  (result = ID_OK ->
   exists name,
     FileNameEditDialogColumn.OnSelectFileName normcase split FileDialog
       (Some ext) v = (Ok tt, Some name) /\
     endswith name ext = true /\
     name = (if endswith path ext then path else String.append path ext)) /\
  (result <> ID_OK ->
   FileNameEditDialogColumn.OnSelectFileName normcase split FileDialog
     (Some ext) v = (Ok tt, v)).
Proof.
  intros Hn Hd.
  unfold FileNameEditDialogColumn.OnSelectFileName, bind, get.
  destruct (FileNameEditDialogColumn.GetDefaultDirAndFileName split v)
    as [dir file]. cbn [fst snd] in Hd. rewrite Hd.
  split.
  - intros ->. rewrite bool_decide_true by reflexivity.
    cbn [when]. unfold modify. rewrite Hn.
    destruct (endswith path ext) eqn:He; cbn [negb].
    + exists path. auto.
    + exists (String.append path ext).
      split; [reflexivity|]. split; [apply endswith_append|reflexivity].
  - intros Hr. rewrite bool_decide_false by exact Hr. reflexivity.
Qed.

(** X16 at a dialog in which "/tmp/notes" is picked, for the extension
    ".txt". *)
Lemma chosen_file_has_extension_witness :
  (forall s : string, (fun x : string => x) s = s) /\
  picksNotes (String.append "*" ".txt")
    (fst (FileNameEditDialogColumn.GetDefaultDirAndFileName noSplit None))
    (snd (FileNameEditDialogColumn.GetDefaultDirAndFileName noSplit None))
    = (ID_OK, "/tmp/notes") /\
  (ID_OK = ID_OK ->
   exists name,
     FileNameEditDialogColumn.OnSelectFileName (fun x => x) noSplit
       picksNotes (Some ".txt") None = (Ok tt, Some name) /\
     endswith name ".txt" = true /\
     name = (if endswith "/tmp/notes" ".txt" then "/tmp/notes"
             else String.append "/tmp/notes" ".txt")) /\
  (ID_OK <> ID_OK ->
   FileNameEditDialogColumn.OnSelectFileName (fun x => x) noSplit
     picksNotes (Some ".txt") None = (Ok tt, None)).
Proof.
  split; [reflexivity|]. split; [reflexivity|].
  apply (chosen_file_has_extension (fun x => x) noSplit picksNotes ".txt"
           None ID_OK "/tmp/notes"); reflexivity.
Defined.

End FileNamesProps.

Module GridWindowsProps.
Import ceDatabase GridWindows.

(** Induction on a window, with the property at hand for every window
    open under it. *)
Lemma gridWindow_induction (P : gridWindow -> Prop) :
  (forall id names row subWindows,
     (forall window, In (Some window) subWindows -> P window) ->
     P (GridWindow id names row subWindows)) ->
  forall self, P self.
Proof.
  intros H. fix IH 1. intros [id names row subWindows]. apply H.
  induction subWindows as [|o rest IHrest]; intros window Hin;
    [destruct Hin|].
  destruct Hin as [E|Hin]; [|apply IHrest, Hin].
  destruct o as [w'|]; [|discriminate E].
  injection E as <-. apply IH.
Qed.

Lemma bind_cont {S A B} (m : M S A) (k k' : A -> M S B) (s : S) :
  (forall a s', k a s' = k' a s') -> bind m k s = bind m k' s.
Proof.
  intros H. unfold bind. destruct (m s) as [[a|e] s']; [apply H|reflexivity].
Qed.

Lemma bind_head {S A B} (m m' : M S A) (k : A -> M S B) (s : S) :
  m s = m' s -> bind m k s = bind m' k s.
Proof. intros H. unfold bind. rewrite H. reflexivity. Qed.

Section Retrieve.

Variable continues : nat -> bool.

Lemma loop_is_for_each (row : Row) (subWindows : list (option gridWindow))
    (t : list gridEvent) :
  (fix RetrieveSubWindows (subWindows : list (option gridWindow))
     : M (list gridEvent) unit :=
     match subWindows with
     | [] => ret tt
     | window :: rest =>
         match window with
         | None => ret tt
         | Some window => GridEditWindow.Retrieve continues row window false
         end ;;
         RetrieveSubWindows rest
     end) subWindows t =
  for_each subWindows (fun window =>
    match window with
    | None => ret tt
    | Some window => GridEditWindow.Retrieve continues row window false
    end) t.
Proof.
  revert t. induction subWindows as [|o rest IH]; intros t; [reflexivity|].
  cbn [for_each]. unfold bind.
  destruct (match o with
            | Some window => GridEditWindow.Retrieve continues row window false
            | None => ret tt
            end t) as [[[]|e] t']; [apply IH|reflexivity].
Qed.

Lemma Retrieve_unfold (parentRow : Row) (id : nat)
    (names : option (list string)) (row : Row)
    (subWindows : list (option gridWindow)) (continueQuery : bool)
    (t : list gridEvent) :
  GridEditWindow.Retrieve continues parentRow
    (GridWindow id names row subWindows) continueQuery t =
  (stop <- (if continueQuery
            then log (ContinueQuery id) ;; ret (negb (continues id))
            else ret false) ;;
   if (stop : bool) then ret tt
   else
     args <- lift_result (GridEditWindow.GetRetrievalArgs names parentRow) ;;
     log (GridRetrieve id args) ;;
     GridEditWindow.RetrieveSubWindows continues
       (GridWindow id names row subWindows) ;;
     log (OnRetrieve id)) t.
Proof.
  cbn [GridEditWindow.Retrieve GridEditWindow.RetrieveSubWindows].
  apply bind_cont. intros stop t1. destruct stop; [reflexivity|].
  apply bind_cont. intros args t2.
  apply bind_cont. intros _ t3.
  apply bind_head, loop_is_for_each.
Qed.

Lemma silent_ret {A} (a : A) : silent (ret a).
Proof. intros t. exists []. rewrite app_nil_r. split; reflexivity. Qed.

Lemma silent_lift {A} (r : result A) : silent (lift_result r).
Proof. intros t. exists []. rewrite app_nil_r. split; reflexivity. Qed.

Lemma silent_bind {A B} (m : M (list gridEvent) A)
    (k : A -> M (list gridEvent) B) :
  silent m -> (forall a, silent (k a)) -> silent (bind m k).
Proof.
  intros Hm Hk t. unfold bind. destruct (Hm t) as (d1 & E1 & H1).
  destruct (m t) as [[a|e] t1]; cbn [snd] in *; [|exists d1; auto].
  destruct (Hk a t1) as (d2 & E2 & H2). exists (d1 ++ d2).
  rewrite E2, E1, app_assoc. split; [reflexivity|].
  unfold asked in *. rewrite flat_map_app, H1, H2. reflexivity.
Qed.

Lemma silent_for_each {A} (l : list A) (body : A -> M (list gridEvent) unit) :
  (forall x, In x l -> silent (body x)) -> silent (for_each l body).
Proof.
  induction l as [|x l IH]; intros H; cbn [for_each]; [apply silent_ret|].
  apply silent_bind; [apply H; left; reflexivity|].
  intros _. apply IH. intros y Hy. apply H. right. exact Hy.
Qed.

Lemma silent_at {A} (m m' : M (list gridEvent) A) :
  (forall t, m t = m' t) -> silent m' -> silent m.
Proof. intros E H t. rewrite E. apply H. Qed.

(** What follows the question in [Retrieve] asks nothing, when the
    sub-windows ask nothing. *)
Lemma rest_silent (parentRow : Row) (id : nat) (names : option (list string))
    (row : Row) (subWindows : list (option gridWindow)) :
  (forall window, In (Some window) subWindows ->
     forall parentRow,
       silent (GridEditWindow.Retrieve continues parentRow window false)) ->
  silent
    (args <- lift_result (GridEditWindow.GetRetrievalArgs names parentRow) ;;
     log (GridRetrieve id args) ;;
     GridEditWindow.RetrieveSubWindows continues
       (GridWindow id names row subWindows) ;;
     log (OnRetrieve id)).
Proof.
  intros IH.
  apply silent_bind; [apply silent_lift|]. intros args.
  apply silent_bind; [intros t; eexists [_]; split; reflexivity|]. intros _.
  apply silent_bind; [|intros _ t; eexists [_]; split; reflexivity].
  cbn [GridEditWindow.RetrieveSubWindows].
  apply silent_for_each. intros [window|] Hin; [|apply silent_ret].
  apply IH, Hin.
Qed.

Lemma Retrieve_silent (self : gridWindow) :
  forall parentRow,
    silent (GridEditWindow.Retrieve continues parentRow self false).
Proof.
  induction self as [id names row subWindows IH] using gridWindow_induction.
  intros parentRow.
  apply (silent_at _ _ (Retrieve_unfold parentRow id names row subWindows false)).
  apply silent_bind; [apply silent_ret|]. intros [|]; [apply silent_ret|].
  apply rest_silent, IH.
Qed.

(** X17.  A retrieval asks at most once whether to go on, and only for
    the window it is called on.  [Retrieve] first puts the question for
    its own window; whatever happens afterwards (the retrieval of its
    grid, of every open sub-window and of the windows under those, or an
    error on the way) the question is not put again.  When the answer is
    no, nothing else happens: no grid is retrieved and no hook runs. *)
Theorem retrieve_asks_once (parentRow : Row) (self : gridWindow)
    (t : list gridEvent) :
  exists d,
    snd (GridEditWindow.Retrieve continues parentRow self true t) =
      t ++ ContinueQuery (windowId self) :: d /\
    asked d = [] /\
    (continues (windowId self) = false ->
     d = [] /\
     fst (GridEditWindow.Retrieve continues parentRow self true t) = Ok tt).
Proof.
  destruct self as [id names row subWindows]. cbn [windowId].
  rewrite Retrieve_unfold.
  unfold bind at 1 2. unfold log at 1, modify at 1, ret at 1.
  destruct (continues id); cbn [negb].
  - destruct (rest_silent parentRow id names row subWindows
                (fun window _ => Retrieve_silent window)
                (t ++ [ContinueQuery id])) as (d & E & Hd).
    exists d. rewrite E, <- app_assoc. split; [reflexivity|].
    split; [exact Hd|discriminate].
  - exists []. split; [reflexivity|]. split; [reflexivity|].
    intros _. split; reflexivity.
Qed.

Lemma subwindows_cascade (row : Row) (subWindows : list (option gridWindow)) :
  (forall window, In (Some window) subWindows ->
     forall parentRow t, retrievable parentRow window ->
       exists d,
         GridEditWindow.Retrieve continues parentRow window false t
           = (Ok tt, t ++ d) /\
         retrieved d = openWindows window /\
         hooked d = closingOrder window) ->
  fold_right (fun window rest =>
                match window with
                | Some window => retrievable row window /\ rest
                | None => rest
                end) True subWindows ->
  forall t, exists d,
    for_each subWindows (fun window =>
      match window with
      | None => ret tt
      | Some window => GridEditWindow.Retrieve continues row window false
      end) t = (Ok tt, t ++ d) /\
    retrieved d = under openWindows subWindows /\
    hooked d = under closingOrder subWindows.
Proof.
  induction subWindows as [|o rest IHrest]; intros IH Hr t.
  - exists []. rewrite app_nil_r. repeat split; reflexivity.
  - assert (IH' : forall window, In (Some window) rest ->
       forall parentRow t, retrievable parentRow window ->
         exists d,
           GridEditWindow.Retrieve continues parentRow window false t
             = (Ok tt, t ++ d) /\
           retrieved d = openWindows window /\
           hooked d = closingOrder window)
      by (intros window Hin; apply IH; right; exact Hin).
    cbn [for_each fold_right] in *. unfold under. cbn [flat_map].
    destruct o as [window|].
    + destruct Hr as [Hw Hr].
      destruct (IH window (or_introl eq_refl) row t Hw) as (d1 & E1 & R1 & K1).
      destruct (IHrest IH' Hr (t ++ d1)) as (d2 & E2 & R2 & K2).
      exists (d1 ++ d2). unfold bind. rewrite E1, E2, app_assoc.
      split; [reflexivity|]. unfold retrieved, hooked in *.
      rewrite !flat_map_app, R1, R2, K1, K2. split; reflexivity.
    + destruct (IHrest IH' Hr t) as (d2 & E2 & R2 & K2).
      exists d2. unfold bind, ret at 1. rewrite E2. auto.
Qed.

(** X18.  A retrieval reaches every open window below it, once, from the
    top down.  When every window finds its retrieval attributes in the
    current row of its parent, [Retrieve] called without the question
    returns; it retrieves the grid of the window and then of every window
    open under it, each before the windows under it, nothing under a
    sub-window that holds no window; and it runs the retrieve hook of each
    of them once, after the hooks of the windows under it.
    [RetrieveSubWindows] does the same for the windows under the
    sub-windows alone. *)
Theorem retrieve_reaches_open_windows (parentRow : Row) (self : gridWindow)
    (t : list gridEvent) :
  retrievable parentRow self ->
  (exists d,
     GridEditWindow.Retrieve continues parentRow self false t
       = (Ok tt, t ++ d) /\
     retrieved d = openWindows self /\
     hooked d = closingOrder self /\
     asked d = []) /\
  (exists d,
     GridEditWindow.RetrieveSubWindows continues self t = (Ok tt, t ++ d) /\
     match self with
     | GridWindow _ _ _ subWindows =>
         retrieved d = under openWindows subWindows
     end).
Proof.
  assert (H : forall self parentRow t, retrievable parentRow self ->
    exists d,
      GridEditWindow.Retrieve continues parentRow self false t
        = (Ok tt, t ++ d) /\
      retrieved d = openWindows self /\
      hooked d = closingOrder self).
  { clear. intros self.
    induction self as [id names row subWindows IH] using gridWindow_induction.
    intros parentRow t [[args Ha] Hsub].
    rewrite Retrieve_unfold.
    unfold bind at 1. unfold ret at 1. cbv iota beta.
    unfold bind at 1. unfold lift_result. rewrite Ha.
    unfold bind at 1. unfold log at 1, modify at 1.
    cbn [GridEditWindow.RetrieveSubWindows].
    destruct (subwindows_cascade row subWindows IH Hsub
                (t ++ [GridRetrieve id args])) as (d & E & R & K).
    unfold bind. rewrite E. unfold log, modify.
    exists (GridRetrieve id args :: d ++ [OnRetrieve id]).
    split; [rewrite <- !app_assoc; reflexivity|].
    cbn [openWindows closingOrder]. unfold retrieved, hooked in *.
    cbn [flat_map app]. rewrite !flat_map_app, R, K. cbn [flat_map app].
    rewrite !app_nil_r. split; reflexivity. }
  intros Hr. split.
  - destruct (H self parentRow t Hr) as (d & E & R & K).
    exists d. split; [exact E|]. split; [exact R|]. split; [exact K|].
    destruct (Retrieve_silent self parentRow t) as (d' & E' & Hd').
    rewrite E in E'. cbn [snd] in E'. apply app_inv_head in E'.
    subst d'. exact Hd'.
  - destruct self as [id names row subWindows].
    destruct Hr as [_ Hsub]. cbn [GridEditWindow.RetrieveSubWindows].
    destruct (subwindows_cascade row subWindows
                (fun window _ => H window) Hsub t) as (d & E & R & _).
    exists d. auto.
Qed.

End Retrieve.

(** X18 at the sample window: the windows 1, 2 and 3 are retrieved in
    this order. *)
Lemma retrieve_reaches_open_windows_witness :
  retrievable (Build_Row [] [] ∅) orders /\
  (exists d,
     GridEditWindow.Retrieve (fun _ => true) (Build_Row [] [] ∅) orders
       false [] = (Ok tt, [] ++ d) /\
     retrieved d = [1; 2; 3] /\
     hooked d = [3; 2; 1] /\
     asked d = []) /\
  (exists d,
     GridEditWindow.RetrieveSubWindows (fun _ => true) orders []
       = (Ok tt, [] ++ d) /\
     retrieved d = [2; 3]).
Proof.
  assert (Hr : retrievable (Build_Row [] [] ∅) orders).
  { cbn. repeat split; eexists; reflexivity. }
  split; [exact Hr|].
  exact (retrieve_reaches_open_windows (fun _ => true) (Build_Row [] [] ∅)
           orders [] Hr).
Defined.

End GridWindowsProps.
